(** * PathCanary partner kit: the webhook rollback provider and the SDK client

    A shallow embedding of the reference provider
    (examples/nodejs-express server: [validateApiKey], [logRequest], the
    [POST /webhook/pathcanary] handler, the read routes and
    [logAuditEvent]) and of the partner SDK client ([validateResponse],
    [testToggleFlag], [testToggleFlagWithRetry], [runIntegrationTest] of
    sdk/client.ts), followed by the properties of the rollback protocol
    stated over them.

    Modelling conventions.
    - A parsed JSON value is a [jsval]; an absent property ([undefined]) is
      [None] of the lookup.  A number is given by the numeral ToString
      renders it as.
    - ToString of a request value can throw; [to_string] is [None] then.
    - The plain objects the server uses as tables ([database.apiKeys],
      [database.featureFlags] and each customer's flag table) are finite
      maps of their own properties.  A property read [table[key]] that
      finds no own property goes on to [Object.prototype]: [read] gives
      the own value, or tells that the key names an inherited member.
    - The server can write to the members of [Object.prototype] that such
      a read hands it.  What it writes to the eleven member functions is
      kept in [memberProps].  Once it has written to [Object.prototype]
      itself, or to another built-in object, [builtinsWritten] is set: the
      property reads of later requests are then no longer those described
      here.  A database on which this has not happened is [pristine].
    - The clock readings and the generated request id of one request, and
      what the engine answers for a property read on a built-in function,
      are inputs, collected in [Ambient]. *)

From stdpp Require Import base option list strings gmap pretty.
From Stdlib Require Import ZArith Lia.

Open Scope string_scope.
Set Warnings "-register-all".

(** ** JavaScript values *)

(** [JNum text] is the number that ToString renders as [text] (["12"],
    ["-0.5"], ["1e+21"]). *)
Inductive jsval : Type :=
  | JNull
  | JBool (b : bool)
  | JNum (text : string)
  | JStr (s : string)
  | JArr (l : list jsval)
  | JObj (m : gmap string jsval).

(** ToBoolean: what [!x] and [x || y] test. *)
Definition truthy (v : jsval) : bool :=
  match v with
  | JNull => false
  | JBool b => b
  | JNum text => negb (String.eqb text "0")
  | JStr s => negb (String.eqb s "")
  | JArr _ => true
  | JObj _ => true
  end.

(** [!x] for a possibly absent property. *)
Definition falsy (o : option jsval) : bool :=
  match o with
  | None => true
  | Some v => negb (truthy v)
  end.

(** The one-character string holding a double quote. *)
Definition dquote : string := String (Ascii.ascii_of_nat 34) EmptyString.

(** [sep.join] over strings. *)
Fixpoint join (sep : string) (l : list string) : string :=
  match l with
  | [] => ""
  | [s] => s
  | s :: rest => s ++ sep ++ join sep rest
  end.

(** ToString of a primitive. *)
Definition primitive_to_string (v : jsval) : string :=
  match v with
  | JNull => "null"
  | JBool true => "true"
  | JBool false => "false"
  | JNum text => text
  | JStr s => s
  | _ => ""
  end.

(** ToString, as used by template literals and by property keys; [None]
    when it throws the [TypeError] of a value that cannot be converted to
    a primitive.  An object parsed from JSON has no callable property of
    its own: with an own [toString] neither that nor [valueOf] yields a
    primitive, without one [Object.prototype.toString] answers.  An array
    is its elements joined by a comma, with [null] elements rendered
    empty. *)
Fixpoint to_string (v : jsval) : option string :=
  match v with
  | JArr l =>
      join "," <$>
        (fix elements (l : list jsval) : option (list string) :=
           match l with
           | [] => Some []
           | e :: rest =>
               match (match e with JNull => Some "" | _ => to_string e end) with
               | Some s =>
                   match elements rest with
                   | Some ss => Some (s :: ss)
                   | None => None
                   end
               | None => None
               end
           end) l
  | JObj m =>
      match m !! "toString" with
      | Some _ => None
      | None => Some "[object Object]"
      end
  | primitive => Some (primitive_to_string primitive)
  end.

(** [x === s] for a string literal [s]. *)
Definition strict_equal_string (o : option jsval) (s : string) : bool :=
  match o with
  | Some (JStr s') => String.eqb s' s
  | _ => false
  end.

(** [typeof x === 'boolean'] and friends on a possibly absent property. *)
Definition is_boolean (o : option jsval) : bool :=
  match o with Some (JBool _) => true | _ => false end.

Definition is_string (o : option jsval) : bool :=
  match o with Some (JStr _) => true | _ => false end.

(** ** Property reads through the prototype chain *)

(** The property names every plain object inherits from
    [Object.prototype]. *)
Definition object_prototype_members : list string :=
  ["constructor"; "__defineGetter__"; "__defineSetter__"; "hasOwnProperty";
   "__lookupGetter__"; "__lookupSetter__"; "isPrototypeOf";
   "propertyIsEnumerable"; "toString"; "valueOf"; "__proto__";
   "toLocaleString"].

Definition inherited (k : string) : bool :=
  bool_decide (k ∈ object_prototype_members).

(** What [o[k]] finds on a plain object with the own properties [o]. *)
Inductive Lookup (A : Type) : Type :=
  | Own (a : A)     (* an own property *)
  | Inherited       (* the member of Object.prototype named by the key *)
  | Absent.         (* undefined *)

Arguments Own {A} a.
Arguments Inherited {A}.
Arguments Absent {A}.

Definition read {A} (o : gmap string A) (k : string) : Lookup A :=
  match o !! k with
  | Some a => Own a
  | None => if inherited k then Inherited else Absent
  end.

(** ** The provider's database *)

Module Provider.

(** A flag record of [database.featureFlags]; [updated_by] and
    [update_reason] exist only once the flag has been toggled. *)
Record Flag : Type := {
  id : string;
  key : string;
  enabled : bool;
  environment : string;
  description : string;
  created_at : string;
  updated_at : string;
  updated_by : option string;
  update_reason : option string
}.

(** What a property of a customer's flag table holds: a flag record, or,
    once the handler has stored one there, the member of
    [Object.prototype] that the property's name denotes. *)
Inductive Slot : Type :=
  | SFlag (flag : Flag)
  | SMember.

(** The properties the handler can have written to a member function of
    [Object.prototype]. *)
Record MemberProps : Type := {
  mp_enabled : option bool;
  mp_updated_at : option string;
  mp_updated_by : option string;
  mp_update_reason : option string
}.

Definition no_props : MemberProps :=
  {| mp_enabled := None; mp_updated_at := None; mp_updated_by := None;
     mp_update_reason := None |}.

(** [req.customer.id]: the string found in [database.apiKeys], or the
    member of [Object.prototype] that the presented key names. *)
Inductive CustomerId : Type :=
  | Tenant (id : string)
  | Member (name : string).

(** [a === b] on customer ids: strings by their characters, members of
    [Object.prototype] by identity. *)
Definition strict_equal_customer (a b : CustomerId) : bool :=
  match a, b with
  | Tenant x, Tenant y => String.eqb x y
  | Member x, Member y => String.eqb x y
  | _, _ => false
  end.

(** ToString of a member of [Object.prototype]: V8's rendering of a
    native function, and of [Object.prototype] itself for [__proto__]. *)
Definition member_text (name : string) : string :=
  if String.eqb name "__proto__" then "[object Object]"
  else if String.eqb name "constructor"
  then "function Object() { [native code] }"
  else "function " ++ name ++ "() { [native code] }".

(** [`${req.customer.id}`], also the property key it is used as. *)
Definition customer_text (c : CustomerId) : string :=
  match c with
  | Tenant id => id
  | Member name => member_text name
  end.

(** What the webhook handler's [catch] can receive. *)
Inductive Thrown : Type :=
  | TypeError_read_of_null (property : string)   (* metadata.environment *)
  | TypeError_to_primitive                       (* ToString of a request value *)
  | TypeError_builtin_property (property : string). (* a throwing accessor *)

(** The event objects handed to [logAuditEvent], one constructor per
    [action]. *)
Inductive AuditEvent : Type :=
  | AUTH_FAILED (api_key : string) (ip : option string)
      (user_agent : option string)
  | FLAG_NOT_FOUND (customer_id : CustomerId) (flag_key : jsval)
      (incident_id : jsval) (request_id : string)
  | FLAG_TOGGLED (customer_id : CustomerId) (flag_key : jsval)
      (flag_id : option string) (previous_state : option bool)
      (new_state : bool) (incident_id incident_message : jsval)
      (request_id : string) (metadata : jsval)
  | WEBHOOK_ERROR (customer_id : CustomerId) (error : Thrown)
      (request_id : string) (duration_ms : Z).

(** [{ timestamp, ...event }] *)
Record AuditEntry : Type := {
  timestamp : string;
  event : AuditEvent
}.

Record Database : Type := {
  apiKeys : gmap string string;
  featureFlags : gmap string (gmap string Slot);
  auditLog : list AuditEntry;
  (* what has been written to the member functions of Object.prototype *)
  memberProps : gmap string MemberProps;
  (* Object.prototype itself, or another built-in object, has been written *)
  builtinsWritten : bool
}.

Definition flag_001 : Flag :=
  {| id := "flag_001"; key := "new-checkout-flow"; enabled := true;
     environment := "production"; description := "New checkout experience";
     created_at := "2025-01-15T10:00:00Z"; updated_at := "2025-01-15T10:00:00Z";
     updated_by := None; update_reason := None |}.

Definition flag_002 : Flag :=
  {| id := "flag_002"; key := "beta-search"; enabled := true;
     environment := "production"; description := "Beta search algorithm";
     created_at := "2025-02-01T12:00:00Z"; updated_at := "2025-02-01T12:00:00Z";
     updated_by := None; update_reason := None |}.

Definition flag_003 : Flag :=
  {| id := "flag_003"; key := "mobile-app-redesign"; enabled := false;
     environment := "production"; description := "Mobile app UI redesign";
     created_at := "2025-03-10T08:00:00Z"; updated_at := "2025-03-10T08:00:00Z";
     updated_by := None; update_reason := None |}.

(** The initial value of [database], in a process whose built-in objects
    are untouched. *)
Definition database : Database :=
  {| apiKeys :=
       <["test_sk_abc123def456" := "customer_001"]>
         (<["prod_sk_xyz789ghi012" := "customer_002"]> ∅);
     featureFlags :=
       <["customer_001" :=
           <["new-checkout-flow" := SFlag flag_001]>
             (<["beta-search" := SFlag flag_002]> ∅)]>
         (<["customer_002" :=
             <["mobile-app-redesign" := SFlag flag_003]> ∅]> ∅);
     auditLog := [];
     memberProps := ∅;
     builtinsWritten := false |}.

(** ** Requests, responses and the ambient inputs *)

(** The parts of an Express request the webhook route reads. *)
Record Request : Type := {
  authorization : option string;   (* req.headers.authorization *)
  x_request_id : option string;    (* req.headers['x-pathcanary-request-id'] *)
  user_agent_header : option string;
  req_ip : option string;
  body : gmap string jsval         (* req.body, as parsed by bodyParser.json() *)
}.

(** [req.customer] *)
Record Customer : Type := {
  cust_id : CustomerId;
  cust_apiKey : string
}.

(** The three shapes of [provider_metadata]; a property whose value is
    [undefined] is [None]. *)
Inductive ProviderMetadata : Type :=
  | MetaNotFound (customer_id : CustomerId) (env : jsval)
  | MetaToggled (flag_id : option string) (customer_id : CustomerId)
      (env updated : option string) (duration_ms : Z)
  | MetaError (request_id : string) (duration_ms : Z).

(** The JSON object passed to [res.json]; a property the handler leaves
    out, or sets to [undefined], is [None]. *)
Record ResponseBody : Type := {
  success : bool;
  r_flag_key : option jsval;
  previous_state : option bool;
  new_state : option bool;
  error : option string;
  provider_metadata : option ProviderMetadata
}.

Record Response : Type := {
  status : Z;
  json : ResponseBody
}.

(** What a property read on a built-in function, or on
    [Object.prototype] itself, gives. *)
Inductive BuiltinProperty : Type :=
  | NoProperty                                  (* undefined, or another falsy value *)
  | PrimitiveProperty                           (* a truthy string or number *)
  | ObjectProperty (enabled_now : option bool)  (* an object, with what its [enabled] reads *)
  | ThrowingProperty.                           (* an accessor that throws *)

(** Clock readings and the generated id of one request, and the engine's
    answer for [b[k]] where [b] is the member of [Object.prototype] named
    by the first argument. *)
Record Ambient : Type := {
  now_start : Z;            (* Date.now() at handler entry *)
  iso_update : string;      (* new Date().toISOString() stamped on the flag *)
  iso_audit : string;       (* the timestamp logAuditEvent takes *)
  now_end : Z;              (* Date.now() when duration is computed *)
  iso_audit_catch : string; (* the timestamp of the entry logged by catch *)
  fresh_request_id : string; (* generateRequestId() *)
  builtin_property : string -> string -> BuiltinProperty
}.

(** ** logAuditEvent *)

(** [a.slice(-n)]: the last [n] elements, all of them when there are
    fewer. *)
Definition slice_last {A} (n : nat) (a : list A) : list A :=
  drop (length a - n) a.

Definition logAuditEvent (now : string) (ev : AuditEvent) (db : Database)
  : Database :=
  let logEntry := {| timestamp := now; event := ev |} in
  let pushed := (auditLog db ++ [logEntry])%list in
  {| apiKeys := apiKeys db;
     featureFlags := featureFlags db;
     auditLog := if Nat.ltb 1000 (length pushed)
                 then slice_last 1000 pushed else pushed;
     memberProps := memberProps db;
     builtinsWritten := builtinsWritten db |}.

(** ** Middleware: validateApiKey *)

(** [s.substring(n)] and [s.substring(0, n)]. *)
Definition substring_from (n : nat) (s : string) : string :=
  String.substring n (String.length s - n) s.

Definition substring_to (n : nat) (s : string) : string :=
  String.substring 0 n s.

Definition unauthorized (msg : string) : Response :=
  {| status := 401;
     json := {| success := false; r_flag_key := None; previous_state := None;
                new_state := None; error := Some msg;
                provider_metadata := None |} |}.

(** [inl] is the response the middleware sends itself; [inr] is the
    customer it attaches before calling [next()].  A key that names a
    member of [Object.prototype] finds that member, which is truthy. *)
Definition validateApiKey (amb : Ambient) (req : Request) (db : Database)
  : (Response + Customer) * Database :=
  match authorization req with
  | None =>
      (inl (unauthorized
        "Missing or invalid Authorization header. Expected format: Bearer YOUR_API_KEY"),
       db)
  | Some authHeader =>
      if String.eqb authHeader "" || negb (String.prefix "Bearer " authHeader)
      then
        (inl (unauthorized
          "Missing or invalid Authorization header. Expected format: Bearer YOUR_API_KEY"),
         db)
      else
        let apiKey := substring_from 7 authHeader in
        let auth_failed :=
          (inl (unauthorized "Invalid API key"),
           logAuditEvent (iso_audit amb)
             (AUTH_FAILED (substring_to 10 apiKey ++ "...")
                (req_ip req) (user_agent_header req)) db) in
        match read (apiKeys db) apiKey with
        | Own customerId =>
            if String.eqb customerId "" then auth_failed
            else
              (inr {| cust_id := Tenant customerId; cust_apiKey := apiKey |},
               db)
        | Inherited =>
            (inr {| cust_id := Member apiKey; cust_apiKey := apiKey |}, db)
        | Absent => auth_failed
        end
  end.

(** ** Middleware: logRequest *)

(** The value it stores in [req.requestId]: the header when it is a
    non-empty string, a generated id otherwise. *)
Definition logRequest (amb : Ambient) (req : Request) : string :=
  match x_request_id req with
  | Some h => if String.eqb h "" then fresh_request_id amb else h
  | None => fresh_request_id amb
  end.

(** ** The webhook handler *)

Definition bad_request (flag_key : jsval) (msg : string) : Response :=
  {| status := 400;
     json := {| success := false; r_flag_key := Some flag_key;
                previous_state := Some false; new_state := Some false;
                error := Some msg; provider_metadata := None |} |}.

(** [x || d] *)
Definition or_else (x : option jsval) (d : jsval) : jsval :=
  match x with
  | Some v => if truthy v then v else d
  | None => d
  end.

(** [metadata.environment]: reading a property of [null] throws; a
    primitive or an array has no such property. *)
Definition metadata_environment (metadata : jsval)
  : Thrown + option jsval :=
  match metadata with
  | JNull => inl (TypeError_read_of_null "environment")
  | JObj m => inr (m !! "environment")
  | _ => inr None
  end.

(** [`Incident ${incident_id}: ${incident_message}`] *)
Definition incident_text (incident_id incident_message : jsval)
  : option string :=
  match to_string incident_id, to_string incident_message with
  | Some i, Some m => Some ("Incident " ++ i ++ ": " ++ m)
  | _, _ => None
  end.

(** The flag record after the assignments to [enabled], [updated_at] and
    [updated_by], and after the one to [update_reason]. *)
Definition stamped (flag : Flag) (enabled' : bool) (now : string) : Flag :=
  {| id := id flag;
     key := key flag;
     enabled := enabled';
     environment := environment flag;
     description := description flag;
     created_at := created_at flag;
     updated_at := now;
     updated_by := Some "pathcanary";
     update_reason := update_reason flag |}.

Definition toggled (flag : Flag) (enabled' : bool) (now reason : string)
  : Flag :=
  {| id := id flag;
     key := key flag;
     enabled := enabled';
     environment := environment flag;
     description := description flag;
     created_at := created_at flag;
     updated_at := now;
     updated_by := Some "pathcanary";
     update_reason := Some reason |}.

(** The same assignments on a member function of [Object.prototype]. *)
Definition stamped_member (props : MemberProps) (enabled' : bool)
    (now : string) : MemberProps :=
  {| mp_enabled := Some enabled';
     mp_updated_at := Some now;
     mp_updated_by := Some "pathcanary";
     mp_update_reason := mp_update_reason props |}.

Definition toggled_member (enabled' : bool) (now reason : string)
  : MemberProps :=
  {| mp_enabled := Some enabled';
     mp_updated_at := Some now;
     mp_updated_by := Some "pathcanary";
     mp_update_reason := Some reason |}.

(** The database with other flag tables, other member properties or the
    mark of a written built-in. *)
Definition with_featureFlags (tables : gmap string (gmap string Slot))
    (db : Database) : Database :=
  {| apiKeys := apiKeys db;
     featureFlags := tables;
     auditLog := auditLog db;
     memberProps := memberProps db;
     builtinsWritten := builtinsWritten db |}.

Definition with_memberProps (props : gmap string MemberProps)
    (db : Database) : Database :=
  {| apiKeys := apiKeys db;
     featureFlags := featureFlags db;
     auditLog := auditLog db;
     memberProps := props;
     builtinsWritten := builtinsWritten db |}.

Definition with_builtinsWritten (written : bool) (db : Database) : Database :=
  {| apiKeys := apiKeys db;
     featureFlags := featureFlags db;
     auditLog := auditLog db;
     memberProps := memberProps db;
     builtinsWritten := written || builtinsWritten db |}.

(** The response to a request whose flag is not found, after the
    [FLAG_NOT_FOUND] entry. *)
Definition flag_not_found (amb : Ambient) (customer : Customer)
    (requestId : string) (fk : jsval) (flagKey : string)
    (incident_id metadata : jsval) (db : Database)
  : (Response + Thrown) * Database :=
  let db1 :=
    logAuditEvent (iso_audit amb)
      (FLAG_NOT_FOUND (cust_id customer) fk incident_id requestId) db in
  match metadata_environment metadata with
  | inl exn => (inr exn, db1)
  | inr env =>
      (inl {| status := 200;
              json :=
                {| success := false; r_flag_key := Some fk;
                   previous_state := Some false;
                   new_state := Some false;
                   error :=
                     Some ("Feature flag '" ++ flagKey
                             ++ "' not found for customer "
                             ++ customer_text (cust_id customer));
                   provider_metadata :=
                     Some (MetaNotFound (cust_id customer)
                             (or_else env (JStr "production"))) |} |},
       db1)
  end.

(** The audit entry and the response of a toggle, from what the handler
    read off [flag]. *)
Definition toggle_done (amb : Ambient) (customer : Customer)
    (requestId : string) (fk : jsval) (en : bool)
    (incident_id incident_message metadata : jsval)
    (flag_id : option string) (previousState : option bool)
    (env updated : option string) (db : Database)
  : (Response + Thrown) * Database :=
  let db2 :=
    logAuditEvent (iso_audit amb)
      (FLAG_TOGGLED (cust_id customer) fk flag_id previousState en
         incident_id incident_message requestId metadata) db in
  let duration := (now_end amb - now_start amb)%Z in
  (inl {| status := 200;
          json :=
            {| success := true; r_flag_key := Some fk;
               previous_state := previousState;
               new_state := Some en;
               error := None;
               provider_metadata :=
                 Some (MetaToggled flag_id (cust_id customer) env updated
                         duration) |} |},
   db2).

(** The toggle of a flag record found in the customer's table [table]. *)
Definition toggle_record (amb : Ambient) (customer : Customer)
    (requestId : string) (fk : jsval) (flagKey : string) (en : bool)
    (incident_id incident_message metadata : jsval)
    (table : gmap string Slot) (flag : Flag) (db : Database)
  : (Response + Thrown) * Database :=
  let name := customer_text (cust_id customer) in
  let previousState := enabled flag in
  match incident_text incident_id incident_message with
  | None =>
      (* the template throws once the first three assignments are made *)
      (inr TypeError_to_primitive,
       with_featureFlags
         (<[name := <[flagKey := SFlag (stamped flag en (iso_update amb))]>
                      table]> (featureFlags db)) db)
  | Some reason =>
      let flag' := toggled flag en (iso_update amb) reason in
      toggle_done amb customer requestId fk en incident_id incident_message
        metadata (Some (id flag')) (Some previousState)
        (Some (environment flag')) (Some (updated_at flag'))
        (with_featureFlags
           (<[name := <[flagKey := SFlag flag']> table]> (featureFlags db)) db)
  end.

(** The toggle when [flag] is the member of [Object.prototype] named by
    the key: the assignments land on that member, which has no [id] and no
    [environment]; [customerFlags[flag_key] = flag] gives the table an own
    property, except for [__proto__], whose setter it calls.  [table] is
    the customer's table when the customer has one. *)
Definition toggle_member (amb : Ambient) (customer : Customer)
    (requestId : string) (fk : jsval) (flagKey : string) (en : bool)
    (incident_id incident_message metadata : jsval)
    (table : option (gmap string Slot)) (db : Database)
  : (Response + Thrown) * Database :=
  let name := customer_text (cust_id customer) in
  let props := default no_props (memberProps db !! flagKey) in
  let previousState := mp_enabled props in
  let on_prototype := String.eqb flagKey "__proto__" in
  match incident_text incident_id incident_message with
  | None =>
      (inr TypeError_to_primitive,
       with_builtinsWritten on_prototype
         (with_memberProps
            (<[flagKey := stamped_member props en (iso_update amb)]>
               (memberProps db)) db))
  | Some reason =>
      let db1 :=
        with_builtinsWritten on_prototype
          (with_memberProps
             (<[flagKey := toggled_member en (iso_update amb) reason]>
                (memberProps db)) db) in
      let db2 :=
        match table with
        | Some own =>
            if on_prototype then db1
            else with_featureFlags
                   (<[name := <[flagKey := SMember]> own]> (featureFlags db1))
                   db1
        | None => db1
        end in
      toggle_done amb customer requestId fk en incident_id incident_message
        metadata None previousState None (Some (iso_update amb)) db2
  end.

(** The toggle when [customerFlags] is itself a member of
    [Object.prototype] and [flag] one of its properties.  Assignments to a
    primitive are dropped; [customerFlags[flag_key] = flag] writes to the
    built-in that stands for the table. *)
Definition toggle_builtin (amb : Ambient) (customer : Customer)
    (requestId : string) (fk : jsval) (en : bool)
    (incident_id incident_message metadata : jsval)
    (primitive : bool) (enabled_now : option bool) (db : Database)
  : (Response + Thrown) * Database :=
  match incident_text incident_id incident_message with
  | None =>
      (inr TypeError_to_primitive, with_builtinsWritten (negb primitive) db)
  | Some reason =>
      toggle_done amb customer requestId fk en incident_id incident_message
        metadata None enabled_now None
        (if primitive then None else Some (iso_update amb))
        (with_builtinsWritten true db)
  end.

(** Lines 184 to 252 of the [try] block: the flag lookup and what
    follows it, for a request that has passed the four checks. *)
Definition rollback (amb : Ambient) (customer : Customer)
    (requestId : string) (fk : jsval) (en : bool)
    (iid imsg metadata : jsval) (db : Database)
  : (Response + Thrown) * Database :=
  let name := customer_text (cust_id customer) in
  let customerFlags := read (featureFlags db) name in
  match to_string fk with
  | None => (inr TypeError_to_primitive, db)
  | Some flagKey =>
      let on_table (table : option (gmap string Slot)) :=
        match read (default ∅ table) flagKey with
        | Own (SFlag flag) =>
            toggle_record amb customer requestId fk flagKey en iid imsg
              metadata (default ∅ table) flag db
        | Own SMember | Inherited =>
            toggle_member amb customer requestId fk flagKey en iid imsg
              metadata table db
        | Absent =>
            flag_not_found amb customer requestId fk flagKey iid metadata db
        end in
      match customerFlags with
      | Own table => on_table (Some table)
      | Absent => on_table None
      | Inherited =>
          match builtin_property amb name flagKey with
          | NoProperty =>
              flag_not_found amb customer requestId fk flagKey iid metadata db
          | PrimitiveProperty =>
              toggle_builtin amb customer requestId fk en iid imsg metadata
                true None db
          | ObjectProperty enabled_now =>
              toggle_builtin amb customer requestId fk en iid imsg metadata
                false enabled_now db
          | ThrowingProperty =>
              (inr (TypeError_builtin_property flagKey), db)
          end
      end
  end.

(** The body of the [try] block: [inl] is the response sent, [inr] what
    was thrown. *)
Definition handler_try (amb : Ambient) (req : Request) (customer : Customer)
    (requestId : string) (db : Database) : (Response + Thrown) * Database :=
  let flag_key := body req !! "flag_key" in
  let enabled := body req !! "enabled" in
  let incident_id := body req !! "incident_id" in
  let incident_message := body req !! "incident_message" in
  let source := body req !! "source" in
  let metadata := default (JObj ∅) (body req !! "metadata") in
  match flag_key with
  | None => (inl (bad_request (JStr "") "Missing required field: flag_key"), db)
  | Some fk =>
  if negb (truthy fk) then
    (inl (bad_request (JStr "") "Missing required field: flag_key"), db)
  else
  match enabled with
  | Some (JBool en) =>
    match incident_id, incident_message with
    | Some iid, Some imsg =>
      if negb (truthy iid) || negb (truthy imsg) then
        (inl (bad_request fk
                "Missing required fields: incident_id, incident_message"), db)
      else
      if negb (strict_equal_string source "pathcanary") then
        (inl (bad_request fk
                ("Invalid source. Expected " ++ dquote ++ "pathcanary"
                   ++ dquote)), db)
      else rollback amb customer requestId fk en iid imsg metadata db
    | _, _ =>
        (inl (bad_request fk
                "Missing required fields: incident_id, incident_message"), db)
    end
  | _ =>
      (inl (bad_request fk
              "Missing or invalid required field: enabled (must be boolean)"),
       db)
  end
  end.

(** The [catch] block. *)
Definition handler_catch (amb : Ambient) (req : Request) (customer : Customer)
    (requestId : string) (exn : Thrown) (db : Database)
  : Response * Database :=
  let duration := (now_end amb - now_start amb)%Z in
  let db1 :=
    logAuditEvent (iso_audit_catch amb)
      (WEBHOOK_ERROR (cust_id customer) exn requestId duration) db in
  ({| status := 500;
      json :=
        {| success := false;
           r_flag_key := Some (or_else (body req !! "flag_key") (JStr ""));
           previous_state := Some false;
           new_state := Some false;
           error := Some "Internal server error. Please contact support.";
           provider_metadata := Some (MetaError requestId duration) |} |},
   db1).

Definition handler (amb : Ambient) (req : Request) (customer : Customer)
    (requestId : string) (db : Database) : Response * Database :=
  match handler_try amb req customer requestId db with
  | (inl resp, db1) => (resp, db1)
  | (inr exn, db1) => handler_catch amb req customer requestId exn db1
  end.

(** [app.post('/webhook/pathcanary', validateApiKey, logRequest, handler)] *)
Definition webhook (amb : Ambient) (req : Request) (db : Database)
  : Response * Database :=
  match validateApiKey amb req db with
  | (inl resp, db1) => (resp, db1)
  | (inr customer, db1) =>
      handler amb req customer (logRequest amb req) db1
  end.

End Provider.

(** ** The partner SDK client (sdk/client.ts) *)

Module Client.

(** A thrown JavaScript error, by its [name] and [message]. *)
Record JsError : Type := {
  name : string;
  message : string
}.

(** [new Error(msg)] *)
Definition Error (msg : string) : JsError :=
  {| name := "Error"; message := msg |}.

(** [PartnerSDKConfig]: the optional properties may be left out. *)
Record PartnerSDKConfig : Type := {
  cfg_webhookUrl : string;
  cfg_apiKey : string;
  cfg_timeout : option Z;
  cfg_retryAttempts : option Z;
  cfg_debug : option bool
}.

(** [Required<PartnerSDKConfig>], the type of [this.config]. *)
Record Config : Type := {
  webhookUrl : string;
  apiKey : string;
  timeout : Z;
  retryAttempts : Z;
  debug : bool
}.

(** The constructor: defaults, overridden by what the caller gave. *)
Definition constructor (config : PartnerSDKConfig) : Config :=
  {| webhookUrl := cfg_webhookUrl config;
     apiKey := cfg_apiKey config;
     timeout := default 30000%Z (cfg_timeout config);
     retryAttempts := default 3%Z (cfg_retryAttempts config);
     debug := default false (cfg_debug config) |}.

(** *** validateResponse *)

Definition required : list string :=
  ["success"; "flag_key"; "previous_state"; "new_state"].

(** [field in response]: a [TypeError] on a primitive (V8's wording);
    an array has none of the names asked for. *)
Definition has_field (field : string) (response : jsval) : JsError + bool :=
  match response with
  | JObj m => inr (bool_decide (is_Some (m !! field)))
  | JArr _ => inr false
  | v =>
      inl {| name := "TypeError";
             message := "Cannot use 'in' operator to search for '" ++ field
                          ++ "' in " ++ primitive_to_string v |}
  end.

(** [response.field] once [response] is known to be an object. *)
Definition get_field (field : string) (response : jsval) : option jsval :=
  match response with
  | JObj m => m !! field
  | _ => None
  end.

(** [required.filter(field => !(field in response))] *)
Fixpoint missing_fields (fields : list string) (response : jsval)
  : JsError + list string :=
  match fields with
  | [] => inr []
  | f :: rest =>
      match has_field f response with
      | inl e => inl e
      | inr present =>
          match missing_fields rest response with
          | inl e => inl e
          | inr ms => inr (if present then ms else f :: ms)
          end
      end
  end.

(** [None] when the function returns, [Some e] when it throws [e]. *)
Definition validateResponse (response : jsval) : option JsError :=
  match missing_fields required response with
  | inl e => Some e
  | inr missing =>
      if Nat.ltb 0 (length missing) then
        Some (Error ("Invalid response: missing required fields: "
                       ++ join ", " missing))
      else if negb (is_boolean (get_field "success" response)) then
        Some (Error ("Invalid response: " ++ dquote ++ "success" ++ dquote
                       ++ " must be a boolean"))
      else if negb (is_string (get_field "flag_key" response)) then
        Some (Error ("Invalid response: " ++ dquote ++ "flag_key" ++ dquote
                       ++ " must be a string"))
      else if negb (is_boolean (get_field "previous_state" response)) then
        Some (Error ("Invalid response: " ++ dquote ++ "previous_state"
                       ++ dquote ++ " must be a boolean"))
      else if negb (is_boolean (get_field "new_state" response)) then
        Some (Error ("Invalid response: " ++ dquote ++ "new_state" ++ dquote
                       ++ " must be a boolean"))
      else if negb (falsy (get_field "error" response))
              && negb (is_string (get_field "error" response)) then
        Some (Error ("Invalid response: " ++ dquote ++ "error" ++ dquote
                       ++ " must be a string"))
      else None
  end.

(** *** testToggleFlag *)

(** What one [fetch] does: it rejects (network failure, or [AbortError]
    when the timeout fires), or it yields a response with its status, its
    text and what [response.json()] gives. *)
Inductive FetchOutcome : Type :=
  | FetchRejected (e : JsError)
  | FetchResponded (status : Z) (text : string) (parsed : JsError + jsval).

(** [response.ok] *)
Definition ok (status : Z) : bool :=
  (200 <=? status)%Z && (status <=? 299)%Z.

(** The [catch] of [testToggleFlag]. *)
Definition rethrow (cfg : Config) (e : JsError) : JsError :=
  if String.eqb (name e) "AbortError"
  then Error ("Request timeout after " ++ pretty (timeout cfg) ++ "ms")
  else e.

(** [inr data] when the promise resolves, [inl e] when it rejects. *)
Definition testToggleFlag (cfg : Config) (o : FetchOutcome)
  : JsError + jsval :=
  match o with
  | FetchRejected e => inl (rethrow cfg e)
  | FetchResponded status errorText parsed =>
      if negb (ok status) then
        inl (rethrow cfg (Error ("HTTP " ++ pretty status ++ ": " ++ errorText)))
      else
        match parsed with
        | inl e => inl (rethrow cfg e)
        | inr data =>
            match validateResponse data with
            | Some e => inl (rethrow cfg e)
            | None => inr data
            end
        end
  end.

(** *** testToggleFlagWithRetry *)

(** What the retry loop does to the outside, in order. *)
Inductive Event : Type :=
  | Call (attempt : nat)
  | Sleep (ms : Z).

(** [Math.min(1000 * Math.pow(2, attempt - 1), 10000)] *)
Definition delay (attempt : nat) : Z :=
  Z.min (1000 * 2 ^ (Z.of_nat attempt - 1)) 10000.

(** The [for] loop from [attempt] on, with [remaining] iterations left;
    [net k] is what the [k]-th call of [fetch] does. *)
Fixpoint retry_loop (cfg : Config) (net : nat -> FetchOutcome)
    (remaining attempt : nat) (lastError : option JsError)
  : (JsError + jsval) * list Event :=
  match remaining with
  | O =>
      (inl (Error ("Failed after " ++ pretty (retryAttempts cfg)
                     ++ " attempts: "
                     ++ match lastError with
                        | Some e => message e
                        | None => "undefined"
                        end)),
       [])
  | S remaining' =>
      match testToggleFlag cfg (net attempt) with
      | inr data => (inr data, [Call attempt])
      | inl error =>
          let waits :=
            if (Z.of_nat attempt <? retryAttempts cfg)%Z
            then [Sleep (delay attempt)] else [] in
          let '(result, events) :=
            retry_loop cfg net remaining' (S attempt) (Some error) in
          (result, (Call attempt :: waits ++ events)%list)
      end
  end.

Definition testToggleFlagWithRetry (cfg : Config) (net : nat -> FetchOutcome)
  : (JsError + jsval) * list Event :=
  retry_loop cfg net (Z.to_nat (retryAttempts cfg)) 1 None.

End Client.

(** ** Concrete inputs: the requests of the provider's test suite *)

Module Scenarios.
Import Provider.

(** In the scenarios no built-in function has the property asked for. *)
Definition amb0 : Ambient :=
  {| now_start := 1000; iso_update := "2025-10-26T14:32:00.000Z";
     iso_audit := "2025-10-26T14:32:00.001Z"; now_end := 1015;
     iso_audit_catch := "2025-10-26T14:32:00.002Z";
     fresh_request_id := "req_1000_deadbeef";
     builtin_property := fun _ _ => NoProperty |}.

Definition rollback_body (flag_key : string) (enabled : bool) : gmap string jsval :=
  <["flag_key" := JStr flag_key]>
    (<["enabled" := JBool enabled]>
      (<["incident_id" := JStr "test-123"]>
        (<["incident_message" := JStr "Test rollback"]>
          (<["source" := JStr "pathcanary"]> ∅)))).

Definition post (auth : option string) (b : gmap string jsval) : Request :=
  {| authorization := auth; x_request_id := None;
     user_agent_header := Some "curl/8.0"; req_ip := Some "127.0.0.1";
     body := b |}.

Definition valid_auth : option string := Some "Bearer test_sk_abc123def456".

(** Scenario A: set [new-checkout-flow] to [false]. *)
Definition req_toggle_off : Request :=
  post valid_auth (rollback_body "new-checkout-flow" false).

(** Scenario D: a flag that does not exist. *)
Definition req_unknown_flag : Request :=
  post valid_auth (rollback_body "does-not-exist" false).

(** The same with [metadata: null]. *)
Definition req_unknown_flag_null_metadata : Request :=
  post valid_auth (<["metadata" := JNull]> (rollback_body "does-not-exist" false)).

(** A flag key the customer does not have, but which names a member of
    [Object.prototype]. *)
Definition req_constructor_flag : Request :=
  post valid_auth (rollback_body "constructor" false).

(** An [incident_id] that cannot be converted to a string:
    [{"toString": 0}]. *)
Definition unprintable : jsval := JObj (<["toString" := JNum "0"]> ∅).

Definition req_unprintable_incident : Request :=
  post valid_auth
    (<["incident_id" := unprintable]> (rollback_body "new-checkout-flow" false)).


(** Test 2 of the suite: no [Authorization] header. *)
Definition req_no_header : Request :=
  post None (rollback_body "test" false).

(** Scenario C: a key nobody has. *)
Definition req_invalid_key : Request :=
  post (Some "Bearer invalid_key_123") (rollback_body "test" false).

(** A key nobody has, which names a member of [Object.prototype]. *)
Definition req_constructor_key : Request :=
  post (Some "Bearer constructor") (rollback_body "constructor" false).

(** A well-typed response body but for its [error], which is [false]. *)
Definition body_error_false : jsval :=
  JObj (<["success" := JBool true]>
          (<["flag_key" := JStr "new-checkout-flow"]>
             (<["previous_state" := JBool true]>
                (<["new_state" := JBool false]>
                   (<["error" := JBool false]> ∅))))).

(** The business failure the provider sends for an unknown flag. *)
Definition body_not_found : jsval :=
  JObj (<["success" := JBool false]>
          (<["flag_key" := JStr "does-not-exist"]>
             (<["previous_state" := JBool false]>
                (<["new_state" := JBool false]>
                   (<["error" := JStr "Feature flag 'does-not-exist' not found for customer customer_001"]> ∅))))).

(** A body without [new_state]. *)
Definition body_missing_field : jsval :=
  JObj (<["success" := JBool true]>
          (<["flag_key" := JStr "new-checkout-flow"]>
             (<["previous_state" := JBool true]> ∅))).

Definition cfg0 : Client.Config :=
  Client.constructor
    {| Client.cfg_webhookUrl := "http://localhost:3002/webhook/pathcanary";
       Client.cfg_apiKey := "test_sk_abc123def456";
       Client.cfg_timeout := None;
       Client.cfg_retryAttempts := None;
       Client.cfg_debug := None |}.

(** A network that times out twice and then delivers the business
    failure. *)
Definition net_two_timeouts (k : nat) : Client.FetchOutcome :=
  if Nat.leb k 2
  then Client.FetchRejected
         {| Client.name := "AbortError";
            Client.message := "This operation was aborted" |}
  else Client.FetchResponded 200 "" (inr body_not_found).

(** A network that answers 500 every time. *)
Definition net_always_500 (k : nat) : Client.FetchOutcome :=
  Client.FetchResponded 500 "oops" (inl (Client.Error "unused")).

End Scenarios.

(** ** Vocabulary of the properties *)

Module Props.
Import Provider.

(** The header has the form [Bearer <token>] and the token maps to a
    known tenant. *)
Definition authenticated (req : Request) (db : Database) (tenant : string)
  : Prop :=
  exists token,
    authorization req = Some ("Bearer " ++ token)
    /\ apiKeys db !! token = Some tenant
    /\ tenant <> "".

(** The four checks of the request validation, in the order they are
    made; [None] when all pass. *)
Definition first_failed_check (b : gmap string jsval) : option nat :=
  if falsy (b !! "flag_key") then Some 1
  else if negb (is_boolean (b !! "enabled")) then Some 2
  else if falsy (b !! "incident_id") || falsy (b !! "incident_message")
  then Some 3
  else if negb (strict_equal_string (b !! "source") "pathcanary") then Some 4
  else None.

Definition passes_validation (b : gmap string jsval) : Prop :=
  first_failed_check b = None.

(** The error text of each check. *)
Definition check_reason (n : nat) : string :=
  match n with
  | 1 => "Missing required field: flag_key"
  | 2 => "Missing or invalid required field: enabled (must be boolean)"
  | 3 => "Missing required fields: incident_id, incident_message"
  | _ => "Invalid source. Expected " ++ dquote ++ "pathcanary" ++ dquote
  end.

(** The text of the 401 sent for an absent or malformed header. *)
Definition missing_header_message : string :=
  "Missing or invalid Authorization header. Expected format: Bearer YOUR_API_KEY".

(** The flag key echoed by a 400 response: empty when the first check
    fails, the request's own otherwise. *)
Definition echoed_key (n : nat) (b : gmap string jsval) : jsval :=
  if Nat.eqb n 1 then JStr "" else default (JStr "") (b !! "flag_key").


(** ToString of a property does not throw, if the property is there. *)
Definition rendered (o : option jsval) : bool :=
  match o with
  | Some v => bool_decide (is_Some (to_string v))
  | None => true
  end.

(** The three fields the handler turns into text can be: they are
    strings, as [PathCanaryRollbackRequest] types them, or other values
    that ToString accepts. *)
Definition renders (b : gmap string jsval) : bool :=
  rendered (b !! "flag_key") && rendered (b !! "incident_id")
  && rendered (b !! "incident_message").

(** What a request that passes the validation and can be rendered asks
    for: the flag key and its text, the target state, the incident and
    the reason the handler records. *)
Definition asks (b : gmap string jsval) (fk : jsval) (k : string) (en : bool)
    (iid imsg : jsval) (reason : string) : Prop :=
  b !! "flag_key" = Some fk /\ truthy fk = true
  /\ b !! "enabled" = Some (JBool en)
  /\ b !! "incident_id" = Some iid /\ truthy iid = true
  /\ b !! "incident_message" = Some imsg /\ truthy imsg = true
  /\ b !! "source" = Some (JStr "pathcanary")
  /\ to_string fk = Some k
  /\ incident_text iid imsg = Some reason.

(** The own property [k] of the tenant's flag table, when there is
    one. *)
Definition own_slot (db : Database) (tenant k : string) : option Slot :=
  featureFlags db !! tenant ≫= fun flags => flags !! k.

(** The flag record [(tenant, k)], when the tenant has one. *)
Definition lookup_flag (db : Database) (tenant k : string) : option Flag :=
  match own_slot db tenant k with
  | Some (SFlag flag) => Some flag
  | _ => None
  end.

(** [database.featureFlags[tenant]] is the tenant's own table, or
    nothing: it is not a member inherited from [Object.prototype]. *)
Definition plain_tenant (db : Database) (tenant : string) : Prop :=
  is_Some (featureFlags db !! tenant) \/ inherited tenant = false.

(** Nothing has been written on [Object.prototype] itself, nor on a
    built-in standing for a flag table: what every object inherits is
    the twelve members of [object_prototype_members], as the embedding
    of the property reads has it. *)
Definition pristine (db : Database) : Prop := builtinsWritten db = false.

(** Two flag records agree on what a toggle never changes. *)
Definition kept (flag flag' : Flag) : Prop :=
  id flag' = id flag /\ key flag' = key flag
  /\ environment flag' = environment flag
  /\ description flag' = description flag
  /\ created_at flag' = created_at flag.

(** Two flag records agree on everything but the time of the update. *)
Definition same_settings (flag flag' : Flag) : Prop :=
  kept flag flag' /\ enabled flag' = enabled flag
  /\ updated_by flag' = updated_by flag
  /\ update_reason flag' = update_reason flag.

(** Two responses agree on everything but [provider_metadata], which
    carries clock readings. *)
Definition same_answer (r r' : Response) : Prop :=
  status r' = status r /\ success (json r') = success (json r)
  /\ r_flag_key (json r') = r_flag_key (json r)
  /\ previous_state (json r') = previous_state (json r)
  /\ new_state (json r') = new_state (json r)
  /\ error (json r') = error (json r).

(** The tables hold a member of [Object.prototype] only under its
    name, as the handler stores it. *)
Definition well_formed (db : Database) : Prop :=
  forall t k, own_slot db t k = Some SMember -> inherited k = true.

(** [t] occurs inside [s]. *)
Definition contains (s t : string) : Prop :=
  exists pre post, s = pre ++ t ++ post.

Definition is_auth_failed (e : AuditEntry) : bool :=
  match event e with AUTH_FAILED _ _ _ => true | _ => false end.

Definition is_flag_toggled (e : AuditEntry) : bool :=
  match event e with FLAG_TOGGLED _ _ _ _ _ _ _ _ _ => true | _ => false end.

Definition is_flag_not_found (e : AuditEntry) : bool :=
  match event e with FLAG_NOT_FOUND _ _ _ _ => true | _ => false end.

(** A run of [logAuditEvent] calls, each with the clock reading it takes. *)
Definition entry_of (te : string * AuditEvent) : AuditEntry :=
  {| timestamp := te.1; event := te.2 |}.

Definition log_all (evs : list (string * AuditEvent)) (db : Database)
  : Database :=
  foldl (fun d te => logAuditEvent te.1 te.2 d) db evs.

End Props.

(** ** Vocabulary of the client's properties *)

Module ClientProps.
Import Client.

(** The events of a run whose attempts [first .. k-1] throw and whose
    attempt [k] ends it: every attempt but the last is followed by its
    backoff sleep. *)
Definition expected_trace (first k : nat) : list Event :=
  (flat_map (fun i => [Call i; Sleep (delay i)]) (seq first (k - first))
     ++ [Call k])%list.

Definition is_call (ev : Event) : bool :=
  match ev with Call _ => true | Sleep _ => false end.

Definition count_calls (events : list Event) : nat :=
  length (filter (fun ev => is_call ev = true) events).

(** The response schema as the client enforces it: the four required
    fields with their types, and an [error] that is a string whenever it
    is truthy. *)
Definition schema_ok (data : jsval) : bool :=
  match data with
  | JObj m =>
      is_boolean (m !! "success") && is_string (m !! "flag_key")
      && is_boolean (m !! "previous_state") && is_boolean (m !! "new_state")
      && (falsy (m !! "error") || is_string (m !! "error"))
  | _ => false
  end.

(** The response schema as the interface [PathCanaryRollbackResponse]
    words it: an [error], when present, is a string. *)
Definition strict_schema_ok (data : jsval) : bool :=
  match data with
  | JObj m =>
      is_boolean (m !! "success") && is_string (m !! "flag_key")
      && is_boolean (m !! "previous_state") && is_boolean (m !! "new_state")
      && match m !! "error" with None => true | Some v => is_string (Some v) end
  | _ => false
  end.

(** Attempt [i] ends in a throw. *)
Definition throws (cfg : Config) (net : nat -> FetchOutcome) (i : nat) : Prop :=
  exists e, testToggleFlag cfg (net i) = inl e.

(** The error a non-2xx status is turned into. *)
Definition transport_error (status : Z) (text : string) : JsError :=
  Error ("HTTP " ++ pretty status ++ ": " ++ text).

End ClientProps.


(** ** The provider's read routes *)

Module Routes.
Import Provider.

(** What [Object.values(customerFlags)] can hold: a flag record, a member
    of [Object.prototype] stored under its name, or a boolean or a string
    the handler has written to such a member. *)
Inductive Value : Type :=
  | VFlag (flag : Flag)
  | VMember (name : string)
  | VBool (b : bool)
  | VString (s : string).

(** What the read routes pass to [res.json]: the 401 of [validateApiKey],
    a flag record, the member of [Object.prototype] or the property of a
    built-in found in its place, [{ error }], [{ flags, count }],
    [{ logs, count }], or the body of the error handler. *)
Inductive RouteBody : Type :=
  | BodyRollback (b : ResponseBody)
  | BodyFlag (flag : Flag)
  | BodyMember (name : string)
  | BodyBuiltin
  | BodyError (error : string)
  | BodyFlags (flags : list Value) (count : nat)
  | BodyAuditLog (logs : list AuditEntry) (count : nat)
  | BodyUnhandled (request_id : option string).

Record RouteResponse : Type := {
  route_status : Z;
  route_body : RouteBody
}.

(** The answer of [validateApiKey], passed on as it is. *)
Definition rejected (r : Response) : RouteResponse :=
  {| route_status := status r; route_body := BodyRollback (json r) |}.

(** The error handler registered last with [app.use]: it answers for a
    route that throws. *)
Definition error_handler (requestId : option string) : RouteResponse :=
  {| route_status := 500; route_body := BodyUnhandled requestId |}.

Definition flag_missing (flagKey : string) : RouteResponse :=
  {| route_status := 404;
     route_body := BodyError ("Flag '" ++ flagKey ++ "' not found") |}.

(** [app.get('/flags/:flagKey', validateApiKey, ...)] *)
Definition get_flag (amb : Ambient) (req : Request) (flagKey : string)
    (db : Database) : RouteResponse * Database :=
  match validateApiKey amb req db with
  | (inl resp, db1) => (rejected resp, db1)
  | (inr customer, db1) =>
      let name := customer_text (cust_id customer) in
      let on_table (table : gmap string Slot) :=
        match read table flagKey with
        | Own (SFlag flag) =>
            {| route_status := 200; route_body := BodyFlag flag |}
        | Own SMember | Inherited =>
            {| route_status := 200; route_body := BodyMember flagKey |}
        | Absent => flag_missing flagKey
        end in
      (match read (featureFlags db1) name with
       | Own table => on_table table
       | Absent => on_table ∅
       | Inherited =>
           match builtin_property amb name flagKey with
           | NoProperty => flag_missing flagKey
           | PrimitiveProperty | ObjectProperty _ =>
               {| route_status := 200; route_body := BodyBuiltin |}
           | ThrowingProperty => error_handler None
           end
       end, db1)
  end.

(** The value a property of a flag table holds. *)
Definition slot_value (entry : string * Slot) : Value :=
  match entry.2 with
  | SFlag flag => VFlag flag
  | SMember => VMember entry.1
  end.

(** The enumerable own properties of a member of [Object.prototype]:
    those the handler has written, in the order it writes them. *)
Definition member_values (props : MemberProps) : list Value :=
  (option_list (VBool <$> mp_enabled props)
     ++ option_list (VString <$> mp_updated_at props)
     ++ option_list (VString <$> mp_updated_by props)
     ++ option_list (VString <$> mp_update_reason props))%list.

(** [app.get('/flags', validateApiKey, ...)].  [Object.values] is taken in
    the order of the finite map; the property order of the JavaScript
    object is not part of the model. *)
Definition get_flags (amb : Ambient) (req : Request) (db : Database)
  : RouteResponse * Database :=
  match validateApiKey amb req db with
  | (inl resp, db1) => (rejected resp, db1)
  | (inr customer, db1) =>
      let name := customer_text (cust_id customer) in
      let values :=
        match read (featureFlags db1) name with
        | Own table => slot_value <$> map_to_list table
        | Absent => []
        | Inherited =>
            member_values (default no_props (memberProps db1 !! name))
        end in
      ({| route_status := 200;
          route_body := BodyFlags values (length values) |},
       db1)
  end.

(** The [count] of a [{ flags, count }] answer. *)
Definition listed_count (r : RouteResponse) : option nat :=
  match route_body r with
  | BodyFlags _ count => Some count
  | _ => None
  end.

(** [a.slice(start)] for an integer [start]: a negative one counts from
    the end. *)
Definition slice_from {A} (start : Z) (a : list A) : list A :=
  let len := Z.of_nat (length a) in
  let k := if (start <? 0)%Z then Z.max (len + start) 0
           else Z.min start len in
  drop (Z.to_nat k) a.

(** [log.customer_id]: an [AUTH_FAILED] entry has none. *)
Definition entry_customer_id (e : AuditEntry) : option CustomerId :=
  match event e with
  | AUTH_FAILED _ _ _ => None
  | FLAG_NOT_FOUND customer_id _ _ _ => Some customer_id
  | FLAG_TOGGLED customer_id _ _ _ _ _ _ _ _ => Some customer_id
  | WEBHOOK_ERROR customer_id _ _ _ => Some customer_id
  end.

(** The tenant an entry was logged for, when its [customer_id] is a
    tenant's. *)
Definition entry_customer (e : AuditEntry) : option string :=
  match entry_customer_id e with
  | Some (Tenant id) => Some id
  | _ => None
  end.

(** [log.customer_id === id] *)
Definition logged_for (id : CustomerId) (e : AuditEntry) : bool :=
  match entry_customer_id e with
  | Some c => strict_equal_customer c id
  | None => false
  end.

(** [parseInt(req.query.limit) || 50], from what [parseInt] gives
    ([None] for [NaN]). *)
Definition effective_limit (parsed : option Z) : Z :=
  match parsed with
  | Some z => if (z =? 0)%Z then 50 else z
  | None => 50
  end.

(** [app.get('/audit-log', validateApiKey, ...)]; the filter compares
    with [===]. *)
Definition get_audit_log (amb : Ambient) (req : Request) (parsed : option Z)
    (db : Database) : RouteResponse * Database :=
  match validateApiKey amb req db with
  | (inl resp, db1) => (rejected resp, db1)
  | (inr customer, db1) =>
      let limit := effective_limit parsed in
      let customerLogs :=
        reverse
          (slice_from (- limit)
             (filter (fun log => logged_for (cust_id customer) log = true)
                (auditLog db1))) in
      ({| route_status := 200;
          route_body := BodyAuditLog customerLogs (length customerLogs) |},
       db1)
  end.

End Routes.

(** ** More vocabulary for the client *)

Module ClientMore.
Import Client.

(** The time a run spends sleeping. *)
Definition total_sleep (events : list Event) : Z :=
  foldr (fun ev acc => match ev with
                       | Sleep ms => (ms + acc)%Z
                       | Call _ => acc
                       end) 0%Z events.

(** What [testToggleFlag] throws when the timer aborts the request. *)
Definition timeout_error (cfg : Config) : JsError :=
  Error ("Request timeout after " ++ pretty (timeout cfg) ++ "ms").

End ClientMore.


(** ** The client's integration test (sdk/client.ts) *)

Module IntegrationTest.
Import Client.

(** [PathCanaryRollbackRequest]; its [source] is the literal
    ['pathcanary']. *)
Inductive Severity : Type := critical | high | medium | low.

Record RequestMetadata : Type := {
  organization_id : option string;
  funnel_id : option string;
  severity : option Severity;
  md_timestamp : option string
}.

Record RollbackRequest : Type := {
  rq_flag_key : string;
  rq_enabled : bool;
  rq_incident_id : string;
  rq_incident_message : string;
  rq_metadata : option RequestMetadata
}.

(** One awaited [this.testToggleFlag(request)] over a transport [fetch]
    that answers a request in a state of the outside world. *)
Definition call {S : Type} (cfg : Config)
    (fetch : RollbackRequest -> S -> FetchOutcome * S)
    (request : RollbackRequest) (s : S) : (JsError + jsval) * S :=
  let '(o, s') := fetch request s in (testToggleFlag cfg o, s').

(** [s.includes(needle)] *)
Fixpoint includes (needle s : string) : bool :=
  String.prefix needle s
  || match s with
     | EmptyString => false
     | String _ s' => includes needle s'
     end.

(** An entry of [results]. *)
Record TestResult : Type := {
  test : string;
  passed : bool;
  duration : Z;
  result_error : option string
}.

(** [runTest]: [thrown] is what [testFn] threw, if it did; [elapsed] is
    [Date.now() - start]. *)
Definition runTest (results : list TestResult) (name : string)
    (thrown : option JsError) (elapsed : Z) : list TestResult :=
  match thrown with
  | None =>
      (results ++ [{| test := name; passed := true; duration := elapsed;
                      result_error := None |}])%list
  | Some error =>
      (results ++ [{| test := name; passed := false; duration := elapsed;
                      result_error := Some (message error) |}])%list
  end.

(** The clock readings of one run: what each [runTest] measures, and the
    response time the third test measures itself. *)
Record TestClock : Type := {
  elapsed1 : Z;
  elapsed2 : Z;
  elapsed3 : Z;
  response_time3 : Z
}.

Definition request_off (flagKey : string) : RollbackRequest :=
  {| rq_flag_key := flagKey; rq_enabled := false;
     rq_incident_id := "test-incident-123";
     rq_incident_message := "Integration test - disable flag";
     rq_metadata := None |}.

Definition request_invalid_flag : RollbackRequest :=
  {| rq_flag_key := "invalid-flag-that-does-not-exist-xyz";
     rq_enabled := false;
     rq_incident_id := "test-incident-456";
     rq_incident_message := "Integration test - error case";
     rq_metadata := None |}.

Definition request_performance (flagKey : string) : RollbackRequest :=
  {| rq_flag_key := flagKey; rq_enabled := false;
     rq_incident_id := "test-incident-789";
     rq_incident_message := "Integration test - performance";
     rq_metadata := None |}.

(** [`${v}`] for a property that may be absent; [None] when ToString
    throws. *)
Definition show (o : option jsval) : option string :=
  match o with
  | Some v => to_string v
  | None => Some "undefined"
  end.

(** The [TypeError] of a value that cannot be converted to a primitive
    (V8's wording). *)
Definition to_primitive_error : JsError :=
  {| name := "TypeError";
     message := "Cannot convert object to primitive value" |}.

(** Test 1, [Toggle flag OFF]: what its function throws. *)
Definition toggle_off_test (response : JsError + jsval) : option JsError :=
  match response with
  | inl error => Some error
  | inr data =>
      match get_field "new_state" data with
      | Some (JBool false) => None
      | other =>
          match show other with
          | Some text =>
              Some (Error ("Expected new_state to be false, got " ++ text))
          | None => Some to_primitive_error
          end
      end
  end.

(** Test 2, [Error handling for invalid flag]: a call that returns makes
    the test throw [Should have thrown ...], which its own [catch] lets
    through; any other error is swallowed. *)
Definition invalid_flag_test (response : JsError + jsval) : option JsError :=
  let thrown :=
    match response with
    | inl error => error
    | inr _ => Error "Should have thrown an error for invalid flag"
    end in
  if includes "Should have thrown" (message thrown) then Some thrown else None.

(** Test 3, [Response time < 5 seconds]. *)
Definition response_time_test (response : JsError + jsval) (elapsed : Z)
  : option JsError :=
  match response with
  | inl error => Some error
  | inr _ =>
      if (5000 <? elapsed)%Z
      then Some (Error ("Response time " ++ pretty elapsed
                          ++ "ms exceeds 5000ms threshold"))
      else None
  end.

Record Report : Type := {
  report_success : bool;
  results : list TestResult
}.

Definition runIntegrationTest {S : Type} (cfg : Config)
    (fetch : RollbackRequest -> S -> FetchOutcome * S)
    (clock : TestClock) (flagKey : string) (s : S) : Report * S :=
  let '(response1, s1) := call cfg fetch (request_off flagKey) s in
  let results1 :=
    runTest [] "Toggle flag OFF" (toggle_off_test response1)
      (elapsed1 clock) in
  let '(response2, s2) := call cfg fetch request_invalid_flag s1 in
  let results2 :=
    runTest results1 "Error handling for invalid flag"
      (invalid_flag_test response2) (elapsed2 clock) in
  let '(response3, s3) := call cfg fetch (request_performance flagKey) s2 in
  let results3 :=
    runTest results2 "Response time < 5 seconds"
      (response_time_test response3 (response_time3 clock))
      (elapsed3 clock) in
  ({| report_success := forallb passed results3; results := results3 |}, s3).

(** [createTestClient] *)
Definition createTestClient (webhookUrl apiKey : string) (debug : bool)
  : Config :=
  constructor {| cfg_webhookUrl := webhookUrl; cfg_apiKey := apiKey;
                 cfg_timeout := None; cfg_retryAttempts := None;
                 cfg_debug := Some debug |}.

End IntegrationTest.


(** ** The client talking to the reference provider *)

Module Wire.
Import Client IntegrationTest.

Definition severity_name (sv : Severity) : string :=
  match sv with
  | critical => "critical"
  | high => "high"
  | medium => "medium"
  | low => "low"
  end.

(** A property that [JSON.stringify] leaves out when it is
    [undefined]. *)
Definition with_property (k : string) (o : option jsval)
    (m : gmap string jsval) : gmap string jsval :=
  match o with
  | Some v => <[k := v]> m
  | None => m
  end.

Definition metadata_json (md : RequestMetadata) : jsval :=
  JObj (with_property "organization_id" (JStr <$> organization_id md)
          (with_property "funnel_id" (JStr <$> funnel_id md)
             (with_property "severity"
                (JStr <$> (severity_name <$> severity md))
                (with_property "timestamp" (JStr <$> md_timestamp md) ∅)))).

(** The body the server parses from [JSON.stringify(request)]. *)
Definition request_json (request : RollbackRequest) : gmap string jsval :=
  <["flag_key" := JStr (rq_flag_key request)]>
    (<["enabled" := JBool (rq_enabled request)]>
       (<["incident_id" := JStr (rq_incident_id request)]>
          (<["incident_message" := JStr (rq_incident_message request)]>
             (<["source" := JStr "pathcanary"]>
                (with_property "metadata" (metadata_json <$> rq_metadata request)
                   ∅))))).

(** What lies between [fetch] and Express.  [carry_header h] is how a
    header value [h] set by the client reaches the server: [inr h'], the
    value the server reads (surrounding whitespace is trimmed on the
    way), or [inl e] when [fetch] refuses the value and rejects with
    [e].  [remote_address] is what Express gives as [req.ip]. *)
Record Transport : Type := {
  carry_header : string -> JsError + string;
  remote_address : option string
}.

(** The header values [testToggleFlag] sets, with [rid] what
    [generateRequestId()] gave after its [pc_]. *)
Definition authorization_value (cfg : Config) : string :=
  "Bearer " ++ apiKey cfg.

Definition request_id_value (rid : string) : string := "pc_" ++ rid.

Definition user_agent_value : string := "PathCanary-Partner-SDK/1.0.0".

(** The request Express sees when the headers arrive as they were
    written. *)
Definition sent_request (tr : Transport) (cfg : Config) (rid : string)
    (request : RollbackRequest) : Provider.Request :=
  {| Provider.authorization := Some (authorization_value cfg);
     Provider.x_request_id := Some (request_id_value rid);
     Provider.user_agent_header := Some user_agent_value;
     Provider.req_ip := remote_address tr;
     Provider.body := request_json request |}.

(** The request as Express sees it, or the error [fetch] rejects with. *)
Definition http_request (tr : Transport) (cfg : Config) (rid : string)
    (request : RollbackRequest) : JsError + Provider.Request :=
  match carry_header tr (authorization_value cfg),
        carry_header tr user_agent_value,
        carry_header tr (request_id_value rid) with
  | inr auth, inr agent, inr id =>
      inr {| Provider.authorization := Some auth;
             Provider.x_request_id := Some id;
             Provider.user_agent_header := Some agent;
             Provider.req_ip := remote_address tr;
             Provider.body := request_json request |}
  | inl e, _, _ => inl e
  | _, inl e, _ => inl e
  | _, _, inl e => inl e
  end.

(** [JSON.stringify] of a member of [Object.prototype]: a function is
    left out; [Object.prototype] itself is the object of the properties
    written to it. *)
Definition member_props_json (props : Provider.MemberProps) : jsval :=
  JObj (with_property "enabled" (JBool <$> Provider.mp_enabled props)
          (with_property "updated_at" (JStr <$> Provider.mp_updated_at props)
             (with_property "updated_by"
                (JStr <$> Provider.mp_updated_by props)
                (with_property "update_reason"
                   (JStr <$> Provider.mp_update_reason props) ∅)))).

Definition customer_json (members : gmap string Provider.MemberProps)
    (c : Provider.CustomerId) : option jsval :=
  match c with
  | Provider.Tenant id => Some (JStr id)
  | Provider.Member name =>
      if String.eqb name "__proto__"
      then Some (member_props_json
                   (default Provider.no_props (members !! name)))
      else None
  end.

Definition provider_metadata_json (members : gmap string Provider.MemberProps)
    (md : Provider.ProviderMetadata) : jsval :=
  match md with
  | Provider.MetaNotFound customer_id env =>
      JObj (with_property "customer_id" (customer_json members customer_id)
              (<["environment" := env]> ∅))
  | Provider.MetaToggled flag_id customer_id env updated duration_ms =>
      JObj (with_property "flag_id" (JStr <$> flag_id)
              (with_property "customer_id" (customer_json members customer_id)
                 (with_property "environment" (JStr <$> env)
                    (with_property "updated_at" (JStr <$> updated)
                       (<["duration_ms" := JNum (pretty duration_ms)]> ∅)))))
  | Provider.MetaError request_id duration_ms =>
      JObj (<["request_id" := JStr request_id]>
              (<["duration_ms" := JNum (pretty duration_ms)]> ∅))
  end.

(** What [response.json()] gives for a body sent with [res.json], in a
    process whose members of [Object.prototype] carry [members]. *)
Definition response_json (members : gmap string Provider.MemberProps)
    (b : Provider.ResponseBody) : jsval :=
  JObj (<["success" := JBool (Provider.success b)]>
          (with_property "flag_key" (Provider.r_flag_key b)
             (with_property "previous_state"
                (JBool <$> Provider.previous_state b)
                (with_property "new_state" (JBool <$> Provider.new_state b)
                   (with_property "error" (JStr <$> Provider.error b)
                      (with_property "provider_metadata"
                         (provider_metadata_json members
                            <$> Provider.provider_metadata b) ∅)))))).

(** The reference provider as the client's transport: a request that
    [fetch] accepts is answered by the webhook route; [text] renders a
    body as [response.text()] gives it, [env] and [ids] give the ambient
    inputs of the [n]-th exchange. *)
Definition provider_fetch (tr : Transport) (cfg : Config)
    (text : Provider.ResponseBody -> string)
    (env : nat -> Provider.Ambient) (ids : nat -> string)
    (request : RollbackRequest) (w : Provider.Database * nat)
  : FetchOutcome * (Provider.Database * nat) :=
  let '(db, n) := w in
  match http_request tr cfg (ids n) request with
  | inl e => (FetchRejected e, (db, S n))
  | inr req =>
      let '(resp, db') := Provider.webhook (env n) req db in
      (FetchResponded (Provider.status resp) (text (Provider.json resp))
         (inr (response_json (Provider.memberProps db') (Provider.json resp))),
       (db', S n))
  end.

(** The transport hands the three headers of the [n]-th exchange to the
    server as the client wrote them. *)
Definition carries (tr : Transport) (cfg : Config) (rid : string) : Prop :=
  carry_header tr (authorization_value cfg) = inr (authorization_value cfg)
  /\ carry_header tr user_agent_value = inr user_agent_value
  /\ carry_header tr (request_id_value rid) = inr (request_id_value rid).

End Wire.

(** ** More concrete inputs *)

Module MoreScenarios.
Import Provider Scenarios.

(** Test 5 of the suite: set [new-checkout-flow] back to [true]. *)
Definition req_toggle_on : Request :=
  post valid_auth (rollback_body "new-checkout-flow" true).

Definition req_beta_off : Request :=
  post valid_auth (rollback_body "beta-search" false).

(** A [GET] by the test customer. *)
Definition reader : Request := post valid_auth ∅.

Definition test_client : Client.Config :=
  IntegrationTest.createTestClient "http://localhost:3002/webhook/pathcanary"
    "test_sk_abc123def456" false.

Definition no_retry_client : Client.Config :=
  Client.constructor
    {| Client.cfg_webhookUrl := "http://localhost:3002/webhook/pathcanary";
       Client.cfg_apiKey := "test_sk_abc123def456";
       Client.cfg_timeout := None;
       Client.cfg_retryAttempts := Some 0%Z;
       Client.cfg_debug := None |}.

Definition stranger_client : Client.Config :=
  IntegrationTest.createTestClient "http://localhost:3002/webhook/pathcanary"
    "invalid_key_123" false.

(** A transport that changes no header, a rendering of response bodies,
    the ambient inputs and the request ids of the exchanges. *)
Definition loopback : Wire.Transport :=
  {| Wire.carry_header := inr; Wire.remote_address := Some "127.0.0.1" |}.

Definition some_text (b : ResponseBody) : string :=
  match error b with Some e => e | None => "ok" end.

Definition some_env (n : nat) : Ambient := amb0.

(** A later reading of the clock. *)
Definition amb1 : Ambient :=
  {| now_start := 2000; iso_update := "2025-10-26T14:33:00.000Z";
     iso_audit := "2025-10-26T14:33:00.001Z"; now_end := 2007;
     iso_audit_catch := "2025-10-26T14:33:00.002Z";
     fresh_request_id := "req_2000_cafef00d";
     builtin_property := fun _ _ => NoProperty |}.

Definition some_ids (n : nat) : string := "1000_k3j9x2a".

Definition some_clock : IntegrationTest.TestClock :=
  {| IntegrationTest.elapsed1 := 12; IntegrationTest.elapsed2 := 8;
     IntegrationTest.elapsed3 := 9; IntegrationTest.response_time3 := 9 |}.

Definition empty_key_request : IntegrationTest.RollbackRequest :=
  IntegrationTest.request_off "".

End MoreScenarios.

(** ** Strings *)

Section Strings.

Lemma append_cons (c : Ascii.ascii) (p s : string) :
  String c p ++ s = String c (p ++ s).
Proof. reflexivity. Qed.

Lemma append_nil_l (s : string) : "" ++ s = s.
Proof. reflexivity. Qed.

Lemma prefix_nil (s : string) : String.prefix "" s = true.
Proof. by destruct s. Qed.

Lemma substring_whole (s : string) :
  String.substring 0 (String.length s) s = s.
Proof. induction s as [|c s IH]; simpl; [reflexivity | by rewrite IH]. Qed.

Lemma prefix_app (p s : string) : String.prefix p (p ++ s) = true.
Proof.
  induction p as [|c p IH].
  - apply prefix_nil.
  - rewrite append_cons. simpl.
    destruct (Ascii.ascii_dec c c); [exact IH | congruence].
Qed.

Lemma substring_from_app (p s : string) :
  Provider.substring_from (String.length p) (p ++ s) = s.
Proof.
  unfold Provider.substring_from. induction p as [|c p IH].
  - rewrite append_nil_l. simpl String.length at 1.
    rewrite Nat.sub_0_r. apply substring_whole.
  - rewrite append_cons. simpl. exact IH.
Qed.

Lemma prefix_split (p s : string) :
  String.prefix p s = true ->
  s = p ++ Provider.substring_from (String.length p) s.
Proof.
  revert s. induction p as [|c p IH]; intros s H.
  - rewrite append_nil_l. unfold Provider.substring_from.
    simpl String.length at 2. rewrite Nat.sub_0_r.
    by rewrite substring_whole.
  - destruct s as [|d s]; simpl in H; [discriminate |].
    destruct (Ascii.ascii_dec c d) as [->|]; [|discriminate].
    rewrite append_cons. f_equal. apply IH in H. exact H.
Qed.

End Strings.


(** ** Property reads *)

Section Reads.
Import Provider.

Lemma read_own {A} (o : gmap string A) k a :
  o !! k = Some a -> read o k = Own a.
Proof. unfold read. by intros ->. Qed.

Lemma read_absent {A} (o : gmap string A) k :
  o !! k = None -> inherited k = false -> read o k = Absent.
Proof. unfold read. by intros -> ->. Qed.

Lemma read_inherited {A} (o : gmap string A) k :
  o !! k = None -> inherited k = true -> read o k = Inherited.
Proof. unfold read. by intros -> ->. Qed.

Lemma read_Own_inv {A} (o : gmap string A) k a :
  read o k = Own a -> o !! k = Some a.
Proof.
  unfold read. destruct (o !! k); [congruence |].
  by destruct (inherited k).
Qed.

Lemma read_Absent_inv {A} (o : gmap string A) k :
  read o k = Absent -> o !! k = None /\ inherited k = false.
Proof.
  unfold read. destruct (o !! k); [discriminate |].
  by destruct (inherited k).
Qed.

Lemma read_Inherited_inv {A} (o : gmap string A) k :
  read o k = Inherited -> o !! k = None /\ inherited k = true.
Proof.
  unfold read. destruct (o !! k); [discriminate |].
  by destruct (inherited k).
Qed.

Lemma inherited_cases k :
  inherited k = true -> k ∈ object_prototype_members.
Proof. unfold inherited. apply bool_decide_eq_true. Qed.

(** The text of a member of [Object.prototype] is not the name of
    one. *)
Lemma member_text_not_inherited name :
  inherited name = true -> inherited (member_text name) = false.
Proof.
  intros H. apply inherited_cases in H. unfold object_prototype_members in H.
  repeat (apply elem_of_cons in H as [-> | H]; [by vm_compute |]).
  by apply elem_of_nil in H.
Qed.

End Reads.

(** ** The authentication middleware, by cases *)

Section Authentication.
Import Provider Props.

(** A header of the form [Bearer <token>]: the key table decides. *)
Lemma validateApiKey_bearer amb req db token :
  authorization req = Some ("Bearer " ++ token) ->
  validateApiKey amb req db
  = match read (apiKeys db) token with
    | Own customerId =>
        if String.eqb customerId "" then
          (inl (unauthorized "Invalid API key"),
           logAuditEvent (iso_audit amb)
             (AUTH_FAILED (substring_to 10 token ++ "...")
                (req_ip req) (user_agent_header req)) db)
        else
          (inr {| cust_id := Tenant customerId; cust_apiKey := token |}, db)
    | Inherited =>
        (inr {| cust_id := Member token; cust_apiKey := token |}, db)
    | Absent =>
        (inl (unauthorized "Invalid API key"),
         logAuditEvent (iso_audit amb)
           (AUTH_FAILED (substring_to 10 token ++ "...")
              (req_ip req) (user_agent_header req)) db)
    end.
Proof.
  intros Hh. unfold validateApiKey. rewrite Hh.
  change (String.eqb ("Bearer " ++ token) "") with false.
  rewrite prefix_app. cbn [orb negb].
  pose proof (substring_from_app "Bearer " token) as Hsub.
  change (String.length "Bearer ") with 7 in Hsub. rewrite Hsub.
  reflexivity.
Qed.

(** Every header is absent, lacks the prefix, or has the form
    [Bearer <token>]. *)
Lemma header_cases req :
  authorization req = None
  \/ (exists h, authorization req = Some h
                /\ String.prefix "Bearer " h = false)
  \/ (exists token, authorization req = Some ("Bearer " ++ token)).
Proof.
  destruct (authorization req) as [h|]; [| by left].
  right. destruct (String.prefix "Bearer " h) eqn:Hp.
  - right. exists (substring_from 7 h).
    apply prefix_split in Hp. change (String.length "Bearer ") with 7 in Hp.
    by rewrite <- Hp.
  - left. by exists h.
Qed.

Lemma validateApiKey_no_bearer amb req db :
  authorization req = None
  \/ (exists h, authorization req = Some h
                /\ String.prefix "Bearer " h = false) ->
  validateApiKey amb req db = (inl (unauthorized missing_header_message), db).
Proof.
  unfold validateApiKey. intros [-> | (h & -> & ->)]; [done |].
  by rewrite orb_true_r.
Qed.

Lemma validateApiKey_accepts amb req db tenant :
  authenticated req db tenant ->
  exists token,
    authorization req = Some ("Bearer " ++ token)
    /\ validateApiKey amb req db
       = (inr {| cust_id := Tenant tenant; cust_apiKey := token |}, db).
Proof.
  intros (token & Hh & Hk & Hne). exists token. split; [exact Hh |].
  rewrite (validateApiKey_bearer amb req db token Hh).
  rewrite (read_own _ _ _ Hk).
  apply String.eqb_neq in Hne. by rewrite Hne.
Qed.

(** A token that is no property of the key table, own or inherited, or
    that maps to the empty string. *)
Lemma validateApiKey_rejects amb req db token :
  authorization req = Some ("Bearer " ++ token) ->
  (forall tenant, apiKeys db !! token = Some tenant -> tenant = "") ->
  inherited token = false ->
  validateApiKey amb req db
  = (inl (unauthorized "Invalid API key"),
     logAuditEvent (iso_audit amb)
       (AUTH_FAILED (substring_to 10 token ++ "...")
          (req_ip req) (user_agent_header req)) db).
Proof.
  intros Hh Hunknown Hord.
  rewrite (validateApiKey_bearer amb req db token Hh).
  unfold read. rewrite Hord.
  destruct (apiKeys db !! token) as [c|] eqn:Hk; [| reflexivity].
  by rewrite (Hunknown c eq_refl).
Qed.

(** The middleware changes the database only by logging an
    [AUTH_FAILED] entry, and only when it rejects. *)
Lemma validateApiKey_frame amb req db :
  (validateApiKey amb req db).2 = db
  \/ exists k resp,
       validateApiKey amb req db
       = (inl resp,
          logAuditEvent (iso_audit amb)
            (AUTH_FAILED k (req_ip req) (user_agent_header req)) db).
Proof.
  unfold validateApiKey.
  repeat case_match; cbn [snd]; eauto.
Qed.

Lemma validateApiKey_inr amb req db customer db1 :
  validateApiKey amb req db = (inr customer, db1) ->
  db1 = db
  /\ exists token,
       authorization req = Some ("Bearer " ++ token)
       /\ cust_apiKey customer = token
       /\ (cust_id customer = Member token
           /\ read (apiKeys db) token = Inherited
           \/ exists tenant,
                cust_id customer = Tenant tenant
                /\ apiKeys db !! token = Some tenant /\ tenant <> "").
Proof.
  intros Hv.
  destruct (header_cases req) as [Hn | [Hn | (token & Hh)]].
  - rewrite validateApiKey_no_bearer in Hv by auto. discriminate.
  - rewrite validateApiKey_no_bearer in Hv by auto. discriminate.
  - rewrite (validateApiKey_bearer amb req db token Hh) in Hv.
    destruct (read (apiKeys db) token) as [c| |] eqn:Hr.
    + destruct (String.eqb c "") eqn:Hc; [discriminate |].
      injection Hv as <- <-. split; [done |]. exists token.
      split; [done |]. split; [done |]. right. exists c.
      split; [done |]. split; [by apply read_Own_inv |].
      by apply String.eqb_neq.
    + injection Hv as <- <-. split; [done |]. exists token.
      split; [done |]. split; [done |]. by left.
    + discriminate.
Qed.

End Authentication.

(** ** The webhook handler, by cases *)

Section Handler.
Import Provider Props.

Lemma passes_validation_inv (b : gmap string jsval) :
  passes_validation b ->
  exists fk en iid imsg,
    b !! "flag_key" = Some fk /\ truthy fk = true
    /\ b !! "enabled" = Some (JBool en)
    /\ b !! "incident_id" = Some iid /\ truthy iid = true
    /\ b !! "incident_message" = Some imsg /\ truthy imsg = true
    /\ b !! "source" = Some (JStr "pathcanary").
Proof.
  unfold passes_validation, first_failed_check, falsy, is_boolean,
    strict_equal_string.
  intros H.
  destruct (b !! "flag_key") as [fk|]; [| discriminate].
  destruct (truthy fk) eqn:Hfk; [| discriminate]. cbn [negb] in H.
  destruct (b !! "enabled") as [[| en | | | |]|]; try discriminate.
  cbn [negb] in H.
  destruct (b !! "incident_id") as [iid|]; [| discriminate].
  destruct (truthy iid) eqn:Hiid; [| discriminate].
  destruct (b !! "incident_message") as [imsg|]; [| discriminate].
  destruct (truthy imsg) eqn:Himsg; [| discriminate]. cbn [negb orb] in H.
  destruct (b !! "source") as [[| | | s | |]|]; try discriminate.
  destruct (String.eqb s "pathcanary") eqn:Hs; [| discriminate].
  apply String.eqb_eq in Hs. subst s.
  exists fk, en, iid, imsg. repeat split; assumption.
Qed.

(** Past the four checks, the handler's [try] block is the flag lookup
    and what follows it. *)
Lemma handler_try_valid amb req customer rid db fk en iid imsg :
  body req !! "flag_key" = Some fk -> truthy fk = true ->
  body req !! "enabled" = Some (JBool en) ->
  body req !! "incident_id" = Some iid -> truthy iid = true ->
  body req !! "incident_message" = Some imsg -> truthy imsg = true ->
  body req !! "source" = Some (JStr "pathcanary") ->
  handler_try amb req customer rid db
  = rollback amb customer rid fk en iid imsg
      (default (JObj ∅) (body req !! "metadata")) db.
Proof.
  intros Hfk Tfk Hen Hiid Tiid Himsg Timsg Hsrc.
  unfold handler_try. rewrite Hfk, Tfk, Hen, Hiid, Himsg, Tiid, Timsg, Hsrc.
  reflexivity.
Qed.

Lemma handler_try_invalid amb req customer rid db n :
  first_failed_check (body req) = Some n ->
  handler_try amb req customer rid db
  = (inl (bad_request (echoed_key n (body req)) (check_reason n)), db).
Proof.
  unfold first_failed_check, handler_try, echoed_key, falsy, is_boolean.
  intros H.
  destruct (body req !! "flag_key") as [fk|];
    [| by injection H as <-].
  destruct (truthy fk); [| by injection H as <-]. cbn [negb] in H |- *.
  destruct (body req !! "enabled") as [[| en | | | |]|];
    try by injection H as <-.
  cbn [negb] in H.
  destruct (body req !! "incident_id") as [iid|];
    [| by injection H as <-].
  destruct (body req !! "incident_message") as [imsg|];
    [| destruct (truthy iid); by injection H as <-].
  destruct (truthy iid); [| by injection H as <-].
  destruct (truthy imsg); [| by injection H as <-]. cbn [negb orb] in H |- *.
  destruct (strict_equal_string (body req !! "source") "pathcanary");
    [discriminate | by injection H as <-].
Qed.

(** The handler on any request: a 400 of the validation, or the
    rollback. *)
Lemma handler_try_cases amb req customer rid db :
  (exists n, first_failed_check (body req) = Some n
             /\ handler_try amb req customer rid db
                = (inl (bad_request (echoed_key n (body req))
                          (check_reason n)), db))
  \/ (exists fk en iid imsg,
        passes_validation (body req)
        /\ body req !! "flag_key" = Some fk /\ truthy fk = true
        /\ body req !! "enabled" = Some (JBool en)
        /\ body req !! "incident_id" = Some iid
        /\ body req !! "incident_message" = Some imsg
        /\ handler_try amb req customer rid db
           = rollback amb customer rid fk en iid imsg
               (default (JObj ∅) (body req !! "metadata")) db).
Proof.
  destruct (first_failed_check (body req)) as [n|] eqn:Hn.
  - left. exists n. split; [done |]. by apply handler_try_invalid.
  - right. pose proof Hn as Hv. apply passes_validation_inv in Hn
      as (fk & en & iid & imsg & Hfk & Tfk & Hen & Hiid & Tiid & Himsg
            & Timsg & Hsrc).
    exists fk, en, iid, imsg. repeat (split; [done |]).
    by apply handler_try_valid.
Qed.

(** The rollback after a request that can be rendered: what it finds
    under the key. *)
Lemma rollback_record amb customer rid fk en iid imsg metadata db k flags
    flag reason :
  to_string fk = Some k ->
  featureFlags db !! customer_text (cust_id customer) = Some flags ->
  flags !! k = Some (SFlag flag) ->
  incident_text iid imsg = Some reason ->
  rollback amb customer rid fk en iid imsg metadata db
  = toggle_done amb customer rid fk en iid imsg metadata (Some (id flag))
      (Some (enabled flag)) (Some (environment flag)) (Some (iso_update amb))
      (with_featureFlags
         (<[customer_text (cust_id customer) :=
              <[k := SFlag (toggled flag en (iso_update amb) reason)]> flags]>
            (featureFlags db)) db).
Proof.
  intros Hk Hflags Hflag Hreason. unfold rollback.
  rewrite Hk, (read_own _ _ _ Hflags).
  change (default ∅ (Some flags)) with flags.
  rewrite (read_own _ _ _ Hflag). unfold toggle_record.
  by rewrite Hreason.
Qed.

(** The key is no property of the customer's table, own or inherited. *)
Lemma rollback_absent amb customer rid fk en iid imsg metadata db k :
  to_string fk = Some k ->
  read (featureFlags db) (customer_text (cust_id customer)) <> Inherited ->
  default ∅ (featureFlags db !! customer_text (cust_id customer)) !! k = None ->
  inherited k = false ->
  rollback amb customer rid fk en iid imsg metadata db
  = flag_not_found amb customer rid fk k iid metadata db.
Proof.
  intros Hk Hplain Hnone Hord. unfold rollback. rewrite Hk.
  destruct (read (featureFlags db) (customer_text (cust_id customer)))
    as [table| |] eqn:Hr; [| done |].
  - apply read_Own_inv in Hr. rewrite Hr in Hnone.
    change (default ∅ (Some table)) with table in *.
    by rewrite (read_absent _ _ Hnone Hord).
  - change (default ∅ None) with (∅ : gmap string Slot).
    by rewrite (read_absent _ _ (lookup_empty _) Hord).
Qed.

(** The key names a member of [Object.prototype], which the customer's
    table holds or inherits. *)
Lemma rollback_member amb customer rid fk en iid imsg metadata db k reason :
  to_string fk = Some k ->
  read (featureFlags db) (customer_text (cust_id customer)) <> Inherited ->
  default ∅ (featureFlags db !! customer_text (cust_id customer)) !! k
  = Some SMember
  \/ (default ∅ (featureFlags db !! customer_text (cust_id customer)) !! k
      = None /\ inherited k = true) ->
  incident_text iid imsg = Some reason ->
  exists db1,
    rollback amb customer rid fk en iid imsg metadata db
    = toggle_done amb customer rid fk en iid imsg metadata None
        (mp_enabled (default no_props (memberProps db !! k))) None
        (Some (iso_update amb)) db1
    /\ auditLog db1 = auditLog db
    /\ apiKeys db1 = apiKeys db
    /\ memberProps db1 !! k = Some (toggled_member en (iso_update amb) reason).
Proof.
  intros Hk Hplain Hmem Hreason. unfold rollback. rewrite Hk.
  assert (forall table : option (gmap string Slot),
            default ∅ table
            = default ∅ (featureFlags db !! customer_text (cust_id customer)) ->
            exists db1,
              match read (default ∅ table) k with
              | Own (SFlag flag) =>
                  toggle_record amb customer rid fk k en iid imsg metadata
                    (default ∅ table) flag db
              | Own SMember | Inherited =>
                  toggle_member amb customer rid fk k en iid imsg metadata
                    table db
              | Absent => flag_not_found amb customer rid fk k iid metadata db
              end
              = toggle_done amb customer rid fk en iid imsg metadata None
                  (mp_enabled (default no_props (memberProps db !! k))) None
                  (Some (iso_update amb)) db1
              /\ auditLog db1 = auditLog db
              /\ apiKeys db1 = apiKeys db
              /\ memberProps db1 !! k
                 = Some (toggled_member en (iso_update amb) reason)) as Hon.
  { intros table Htable.
    assert (read (default ∅ table) k = Own SMember
            \/ read (default ∅ table) k = Inherited) as [-> | ->].
    { unfold read. rewrite Htable.
      destruct Hmem as [-> | [-> ->]]; [by left | by right]. }
    all: unfold toggle_member; rewrite Hreason; eexists; (split; [reflexivity |]);
      destruct table as [own|]; destruct (String.eqb k "__proto__");
      cbn; by rewrite lookup_insert_eq. }
  destruct (read (featureFlags db) (customer_text (cust_id customer)))
    as [table| |] eqn:Hr; [| done |].
  - apply read_Own_inv in Hr. apply (Hon (Some table)). by rewrite Hr.
  - apply read_Absent_inv in Hr as [Hr _]. apply (Hon None). by rewrite Hr.
Qed.

(** Every way the rollback can end. *)
Lemma rollback_cases amb customer rid fk en iid imsg metadata db :
  let r := rollback amb customer rid fk en iid imsg metadata db in
  (exists exn, r = (inr exn, db))
  \/ (exists k, to_string fk = Some k
                /\ r = flag_not_found amb customer rid fk k iid metadata db)
  \/ (exists flag_id prev env upd db1,
        r = toggle_done amb customer rid fk en iid imsg metadata flag_id prev
              env upd db1
        /\ auditLog db1 = auditLog db /\ apiKeys db1 = apiKeys db)
  \/ (exists db1,
        r = (inr TypeError_to_primitive, db1)
        /\ incident_text iid imsg = None
        /\ auditLog db1 = auditLog db /\ apiKeys db1 = apiKeys db).
Proof.
  cbv zeta. unfold rollback.
  destruct (to_string fk) as [k|]; [| left; by eexists].
  assert (forall table : option (gmap string Slot),
    let r := match read (default ∅ table) k with
             | Own (SFlag flag) =>
                 toggle_record amb customer rid fk k en iid imsg metadata
                   (default ∅ table) flag db
             | Own SMember | Inherited =>
                 toggle_member amb customer rid fk k en iid imsg metadata
                   table db
             | Absent => flag_not_found amb customer rid fk k iid metadata db
             end in
    (exists exn, r = (inr exn, db))
    \/ (exists k0, Some k = Some k0
                  /\ r = flag_not_found amb customer rid fk k0 iid metadata db)
    \/ (exists flag_id prev env upd db1,
          r = toggle_done amb customer rid fk en iid imsg metadata flag_id
                prev env upd db1
          /\ auditLog db1 = auditLog db /\ apiKeys db1 = apiKeys db)
    \/ (exists db1,
          r = (inr TypeError_to_primitive, db1)
          /\ incident_text iid imsg = None
          /\ auditLog db1 = auditLog db /\ apiKeys db1 = apiKeys db)) as Hon.
  { intros table. cbv zeta.
    destruct (read (default ∅ table) k) as [[flag|]| |].
    - unfold toggle_record.
      destruct (incident_text iid imsg) as [reason|] eqn:Hreason.
      + right; right; left. by eexists _, _, _, _, _.
      + right; right; right. by eexists.
    - unfold toggle_member.
      destruct (incident_text iid imsg) as [reason|] eqn:Hreason.
      + right; right; left. eexists _, _, _, _, _. split; [reflexivity |].
        by destruct table, (String.eqb k "__proto__").
      + right; right; right. by eexists.
    - unfold toggle_member.
      destruct (incident_text iid imsg) as [reason|] eqn:Hreason.
      + right; right; left. eexists _, _, _, _, _. split; [reflexivity |].
        by destruct table, (String.eqb k "__proto__").
      + right; right; right. by eexists.
    - right; left. by exists k. }
  destruct (read (featureFlags db) (customer_text (cust_id customer)))
    as [table| |].
  - apply (Hon (Some table)).
  - destruct (builtin_property amb (customer_text (cust_id customer)) k).
    + right; left. by exists k.
    + unfold toggle_builtin.
      destruct (incident_text iid imsg) as [reason|] eqn:Hreason.
      * right; right; left. by eexists _, _, _, _, _.
      * right; right; right. by eexists.
    + unfold toggle_builtin.
      destruct (incident_text iid imsg) as [reason|] eqn:Hreason.
      * right; right; left. by eexists _, _, _, _, _.
      * right; right; right. by eexists.
    + left. by eexists.
  - apply (Hon None).
Qed.

End Handler.

(** ** The audit log *)

Section AuditLog.
Import Provider Props.
Context {A : Type}.
Implicit Types (a b : list A) (n : nat).

Lemma length_slice_last n a :
  length (slice_last n a) = Nat.min n (length a).
Proof. unfold slice_last. rewrite length_drop. lia. Qed.

Lemma slice_last_all n a : length a <= n -> slice_last n a = a.
Proof.
  intros H. unfold slice_last.
  replace (length a - n) with 0 by lia. reflexivity.
Qed.

Lemma elem_of_slice_last n a x : x ∈ slice_last n a -> x ∈ a.
Proof.
  unfold slice_last. intros H.
  rewrite <- (take_drop (length a - n) a). apply elem_of_app. by right.
Qed.

Lemma slice_last_suffix n a : slice_last n a `suffix_of` a.
Proof.
  exists (take (length a - n) a). unfold slice_last. by rewrite take_drop.
Qed.

(** Trimming before a further push changes nothing after the next trim. *)
Lemma slice_last_app_l n a b :
  slice_last n (slice_last n a ++ b) = slice_last n (a ++ b).
Proof.
  unfold slice_last. rewrite !drop_app, drop_drop, !length_app, !length_drop.
  destruct (decide (length a <= n)) as [Hle|Hgt].
  - replace (length a - n) with 0 by lia. cbn [drop].
    f_equal; f_equal; lia.
  - f_equal; f_equal; lia.
Qed.

Lemma last_slice_last_snoc n a x :
  last (slice_last (S n) (a ++ [x])) = Some x.
Proof.
  unfold slice_last. rewrite drop_app_le.
  - apply last_snoc.
  - rewrite length_app. cbn [length]. lia.
Qed.

End AuditLog.

Section AuditLogEvents.
Import Provider Props.

Lemma logAuditEvent_auditLog t e db :
  auditLog (logAuditEvent t e db)
  = slice_last 1000 (auditLog db ++ [{| timestamp := t; event := e |}]).
Proof.
  unfold logAuditEvent. cbn [auditLog].
  destruct (Nat.ltb_spec 1000
              (length (auditLog db ++ [{| timestamp := t; event := e |}])))
    as [Hlt|Hle]; [reflexivity |].
  by rewrite slice_last_all.
Qed.

Lemma logAuditEvent_featureFlags t e db :
  featureFlags (logAuditEvent t e db) = featureFlags db.
Proof. reflexivity. Qed.

Lemma logAuditEvent_apiKeys t e db :
  apiKeys (logAuditEvent t e db) = apiKeys db.
Proof. reflexivity. Qed.

Lemma log_all_auditLog evs db :
  evs <> [] ->
  auditLog (log_all evs db)
  = slice_last 1000 (auditLog db ++ map entry_of evs).
Proof.
  revert db. induction evs as [|[t e] evs IH]; intros db Hne; [done |].
  destruct evs as [|te' evs'].
  - cbn [log_all foldl map fst snd]. apply logAuditEvent_auditLog.
  - change (log_all ((t, e) :: te' :: evs') db)
      with (log_all (te' :: evs') (logAuditEvent t e db)).
    rewrite IH by done. rewrite logAuditEvent_auditLog.
    rewrite slice_last_app_l. by rewrite <- app_assoc.
Qed.

Lemma log_all_frame evs db :
  apiKeys (log_all evs db) = apiKeys db
  /\ featureFlags (log_all evs db) = featureFlags db.
Proof.
  revert db. induction evs as [|[t e] evs IH]; intros db; [done |].
  change (log_all ((t, e) :: evs) db)
    with (log_all evs (logAuditEvent t e db)).
  destruct (IH (logAuditEvent t e db)) as [-> ->]. done.
Qed.

End AuditLogEvents.


(** ** Properties of the provider *)

Section ProviderProperties.
Import Provider Props.

Lemma webhook_authenticated amb req db tenant :
  authenticated req db tenant ->
  exists token,
    webhook amb req db
    = handler amb req {| cust_id := Tenant tenant; cust_apiKey := token |}
        (logRequest amb req) db.
Proof.
  intros Ha. destruct (validateApiKey_accepts amb req db tenant Ha)
    as (token & _ & Hv).
  exists token. unfold webhook. by rewrite Hv.
Qed.



Lemma lookup_flag_Some db tenant k flag :
  lookup_flag db tenant k = Some flag <->
  exists flags,
    featureFlags db !! tenant = Some flags /\ flags !! k = Some (SFlag flag).
Proof.
  unfold lookup_flag, own_slot.
  destruct (featureFlags db !! tenant) as [flags|]; cbn [mbind option_bind].
  - destruct (flags !! k) as [[f|]|] eqn:Hk; split;
      try discriminate; try (intros (flags' & [= <-] & ?); congruence).
    + intros [= <-]. by exists flags.
  - split; [discriminate | by intros (? & ? & _)].
Qed.

Lemma own_slot_default db tenant k :
  own_slot db tenant k = default ∅ (featureFlags db !! tenant) !! k.
Proof.
  unfold own_slot. destruct (featureFlags db !! tenant); [done |].
  cbn [default mbind option_bind]. by rewrite lookup_empty.
Qed.

Lemma plain_tenant_read db tenant :
  plain_tenant db tenant <-> read (featureFlags db) tenant <> Inherited.
Proof.
  unfold plain_tenant, read.
  destruct (featureFlags db !! tenant) as [t|], (inherited tenant);
    split; try done; try (intros _; by right); try (intros _; by left).
  - by intros [[? ?] | ?].
Qed.

(** What a request that passes the validation and can be rendered
    holds. *)
Lemma valid_request_inv (b : gmap string jsval) :
  passes_validation b -> renders b = true ->
  exists fk k en iid imsg reason,
    b !! "flag_key" = Some fk /\ truthy fk = true
    /\ b !! "enabled" = Some (JBool en)
    /\ b !! "incident_id" = Some iid /\ truthy iid = true
    /\ b !! "incident_message" = Some imsg /\ truthy imsg = true
    /\ b !! "source" = Some (JStr "pathcanary")
    /\ to_string fk = Some k
    /\ incident_text iid imsg = Some reason.
Proof.
  intros Hv Hr. apply passes_validation_inv in Hv
    as (fk & en & iid & imsg & Hfk & Tfk & Hen & Hiid & Tiid & Himsg
          & Timsg & Hsrc).
  unfold renders, rendered in Hr. rewrite Hfk, Hiid, Himsg in Hr.
  apply andb_true_iff in Hr as [Hr H3]. apply andb_true_iff in Hr as [H1 H2].
  apply bool_decide_eq_true in H1 as [k Hk].
  apply bool_decide_eq_true in H2 as [i Hi].
  apply bool_decide_eq_true in H3 as [m Hm].
  exists fk, k, en, iid, imsg, ("Incident " ++ i ++ ": " ++ m).
  repeat (split; [assumption |]).
  unfold incident_text. by rewrite Hi, Hm.
Qed.

(** A valid request for an existing flag: the response and the database
    the handler leaves. *)
Lemma webhook_found amb req db tenant fk k en iid imsg reason flags flag :
  authenticated req db tenant ->
  body req !! "flag_key" = Some fk -> truthy fk = true ->
  body req !! "enabled" = Some (JBool en) ->
  body req !! "incident_id" = Some iid -> truthy iid = true ->
  body req !! "incident_message" = Some imsg -> truthy imsg = true ->
  body req !! "source" = Some (JStr "pathcanary") ->
  to_string fk = Some k ->
  incident_text iid imsg = Some reason ->
  featureFlags db !! tenant = Some flags ->
  flags !! k = Some (SFlag flag) ->
  webhook amb req db
  = ({| status := 200;
        json :=
          {| success := true; r_flag_key := Some fk;
             previous_state := Some (enabled flag);
             new_state := Some en;
             error := None;
             provider_metadata :=
               Some (MetaToggled (Some (id flag)) (Tenant tenant)
                       (Some (environment flag)) (Some (iso_update amb))
                       (now_end amb - now_start amb)) |} |},
     logAuditEvent (iso_audit amb)
       (FLAG_TOGGLED (Tenant tenant) fk (Some (id flag)) (Some (enabled flag))
          en iid imsg (logRequest amb req)
          (default (JObj ∅) (body req !! "metadata")))
       (with_featureFlags
          (<[tenant :=
               <[k := SFlag (toggled flag en (iso_update amb) reason)]> flags]>
             (featureFlags db)) db)).
Proof.
  intros Ha Hfk Tfk Hen Hiid Tiid Himsg Timsg Hsrc Hk Hreason Hflags Hflag.
  destruct (webhook_authenticated amb req db tenant Ha) as (token & ->).
  unfold handler.
  rewrite (handler_try_valid _ _ _ _ _ fk en iid imsg) by assumption.
  by rewrite (rollback_record _ _ _ _ _ _ _ _ _ k flags flag reason).
Qed.

(** A valid request for a key that is no property of the tenant's
    table. *)
Lemma webhook_not_found amb req db tenant fk k en iid imsg :
  authenticated req db tenant ->
  body req !! "flag_key" = Some fk -> truthy fk = true ->
  body req !! "enabled" = Some (JBool en) ->
  body req !! "incident_id" = Some iid -> truthy iid = true ->
  body req !! "incident_message" = Some imsg -> truthy imsg = true ->
  body req !! "source" = Some (JStr "pathcanary") ->
  to_string fk = Some k ->
  plain_tenant db tenant ->
  own_slot db tenant k = None ->
  inherited k = false ->
  exists token,
  webhook amb req db
  = let customer := {| cust_id := Tenant tenant; cust_apiKey := token |} in
    let db1 :=
      logAuditEvent (iso_audit amb)
        (FLAG_NOT_FOUND (Tenant tenant) fk iid (logRequest amb req)) db in
    match metadata_environment (default (JObj ∅) (body req !! "metadata")) with
    | inl exn => handler_catch amb req customer (logRequest amb req) exn db1
    | inr env =>
        ({| status := 200;
            json :=
              {| success := false; r_flag_key := Some fk;
                 previous_state := Some false;
                 new_state := Some false;
                 error :=
                   Some ("Feature flag '" ++ k
                           ++ "' not found for customer " ++ tenant);
                 provider_metadata :=
                   Some (MetaNotFound (Tenant tenant)
                           (or_else env (JStr "production"))) |} |},
         db1)
    end.
Proof.
  intros Ha Hfk Tfk Hen Hiid Tiid Himsg Timsg Hsrc Hk Hplain Hnone Hord.
  destruct (webhook_authenticated amb req db tenant Ha) as (token & ->).
  exists token. unfold handler.
  rewrite (handler_try_valid _ _ _ _ _ fk en iid imsg) by assumption.
  rewrite (rollback_absent _ _ _ _ _ _ _ _ _ k); try assumption.
  - unfold flag_not_found. cbn [cust_id customer_text]. cbv zeta.
    by destruct (metadata_environment _).
  - by apply plain_tenant_read.
  - cbn [cust_id customer_text]. by rewrite <- own_slot_default.
Qed.

Lemma valid_request_asks (b : gmap string jsval) :
  passes_validation b -> renders b = true ->
  exists fk k en iid imsg reason, asks b fk k en iid imsg reason.
Proof. apply valid_request_inv. Qed.

Lemma asks_passes b fk k en iid imsg reason :
  asks b fk k en iid imsg reason -> passes_validation b.
Proof.
  intros (Hfk & Tfk & Hen & Hiid & Tiid & Himsg & Timsg & Hsrc & _).
  unfold passes_validation, first_failed_check, falsy.
  by rewrite Hfk, Tfk, Hen, Hiid, Tiid, Himsg, Timsg, Hsrc.
Qed.

(** The toggle of an existing flag record, in terms of what the request
    asks. *)
Lemma webhook_toggles amb req db tenant fk k en iid imsg reason flag :
  authenticated req db tenant ->
  asks (body req) fk k en iid imsg reason ->
  lookup_flag db tenant k = Some flag ->
  exists flags,
    featureFlags db !! tenant = Some flags
    /\ flags !! k = Some (SFlag flag)
    /\ webhook amb req db
       = ({| status := 200;
             json :=
               {| success := true; r_flag_key := Some fk;
                  previous_state := Some (enabled flag);
                  new_state := Some en;
                  error := None;
                  provider_metadata :=
                    Some (MetaToggled (Some (id flag)) (Tenant tenant)
                            (Some (environment flag)) (Some (iso_update amb))
                            (now_end amb - now_start amb)) |} |},
          logAuditEvent (iso_audit amb)
            (FLAG_TOGGLED (Tenant tenant) fk (Some (id flag))
               (Some (enabled flag)) en iid imsg (logRequest amb req)
               (default (JObj ∅) (body req !! "metadata")))
            (with_featureFlags
               (<[tenant :=
                    <[k := SFlag (toggled flag en (iso_update amb) reason)]>
                      flags]> (featureFlags db)) db)).
Proof.
  intros Ha (Hfk & Tfk & Hen & Hiid & Tiid & Himsg & Timsg & Hsrc & Hk
             & Hreason) Hflag.
  apply lookup_flag_Some in Hflag as (flags & Hflags & Hflag).
  exists flags. split; [done |]. split; [done |].
  by apply webhook_found.
Qed.

Lemma authenticated_apiKeys req db db' tenant :
  apiKeys db' = apiKeys db ->
  authenticated req db tenant -> authenticated req db' tenant.
Proof.
  intros Hk (token & Hh & Ht & Hne). exists token. by rewrite Hk.
Qed.

(** C1 (idempotence of the set).  Two consecutive valid requests of the
    same tenant for the same existing flag and the same target state [v],
    whose flag key and incident fields are strings (or other values that
    can be turned into text), are both answered 200 with [success:true]
    and [new_state == v]; the second reports [previous_state == v], the
    first call's [new_state]; the flag is [v] after each. *)
Theorem toggle_idempotent amb1 amb2 req1 req2 db tenant fk k v flag :
  authenticated req1 db tenant ->
  authenticated req2 db tenant ->
  passes_validation (body req1) ->
  passes_validation (body req2) ->
  renders (body req1) = true ->
  renders (body req2) = true ->
  body req1 !! "flag_key" = Some fk ->
  body req2 !! "flag_key" = Some fk ->
  body req1 !! "enabled" = Some (JBool v) ->
  body req2 !! "enabled" = Some (JBool v) ->
  to_string fk = Some k ->
  lookup_flag db tenant k = Some flag ->
  let first := webhook amb1 req1 db in
  let second := webhook amb2 req2 first.2 in
  status first.1 = 200%Z
  /\ success (json first.1) = true
  /\ previous_state (json first.1) = Some (enabled flag)
  /\ new_state (json first.1) = Some v
  /\ status second.1 = 200%Z
  /\ success (json second.1) = true
  /\ previous_state (json second.1) = new_state (json first.1)
  /\ new_state (json second.1) = Some v
  /\ enabled <$> lookup_flag first.2 tenant k = Some v
  /\ enabled <$> lookup_flag second.2 tenant k = Some v.
Proof.
  intros Ha1 Ha2 Hv1 Hv2 Hr1 Hr2 Hfk1 Hfk2 Hen1 Hen2 Hk Hflag.
  destruct (valid_request_inv _ Hv1 Hr1)
    as (fk1 & k1 & en1 & iid1 & imsg1 & reason1 & Hfk1' & Tfk1 & Hen1'
          & Hiid1 & Tiid1 & Himsg1 & Timsg1 & Hsrc1 & Hk1 & Hreason1).
  destruct (valid_request_inv _ Hv2 Hr2)
    as (fk2 & k2 & en2 & iid2 & imsg2 & reason2 & Hfk2' & Tfk2 & Hen2'
          & Hiid2 & Tiid2 & Himsg2 & Timsg2 & Hsrc2 & Hk2 & Hreason2).
  assert (fk1 = fk) as -> by congruence.
  assert (fk2 = fk) as -> by congruence.
  assert (k1 = k) as -> by congruence.
  assert (k2 = k) as -> by congruence.
  assert (en1 = v) as -> by congruence.
  assert (en2 = v) as -> by congruence.
  apply lookup_flag_Some in Hflag as (flags & Hflags & Hflag).
  cbv zeta.
  rewrite (webhook_found amb1 req1 db tenant fk k v iid1 imsg1 reason1 flags
             flag) by assumption.
  cbn [fst snd].
  set (flag1 := toggled flag v (iso_update amb1) reason1).
  set (db1 := logAuditEvent _ _ _).
  assert (featureFlags db1 !! tenant = Some (<[k := SFlag flag1]> flags))
    as Hflags1.
  { subst db1. cbn [logAuditEvent with_featureFlags featureFlags].
    apply lookup_insert_eq. }
  assert (authenticated req2 db1 tenant) as Ha2'.
  { by apply (authenticated_apiKeys req2 db). }
  rewrite (webhook_found amb2 req2 db1 tenant fk k v iid2 imsg2 reason2
             (<[k := SFlag flag1]> flags) flag1)
    by (assumption || apply lookup_insert_eq).
  cbn [fst snd status json success previous_state new_state].
  unfold lookup_flag, own_slot.
  cbn [logAuditEvent with_featureFlags featureFlags].
  rewrite Hflags1, !lookup_insert_eq. cbn [mbind option_bind].
  rewrite !lookup_insert_eq.
  repeat split.
Qed.

(** What [toggle_done] and [flag_not_found] answer. *)
Lemma toggle_done_response amb customer rid fk en iid imsg metadata flag_id
    prev env upd db resp db' :
  toggle_done amb customer rid fk en iid imsg metadata flag_id prev env upd db
  = (resp, db') ->
  exists r,
    resp = inl r
    /\ status r = 200%Z /\ success (json r) = true
    /\ r_flag_key (json r) = Some fk
    /\ previous_state (json r) = prev
    /\ new_state (json r) = Some en
    /\ error (json r) = None
    /\ db' = logAuditEvent (iso_audit amb)
               (FLAG_TOGGLED (cust_id customer) fk flag_id prev en iid imsg
                  rid metadata) db.
Proof.
  unfold toggle_done. intros [= <- <-]. eexists. by repeat split.
Qed.

Lemma flag_not_found_cases amb customer rid fk k iid metadata db :
  let db1 :=
    logAuditEvent (iso_audit amb)
      (FLAG_NOT_FOUND (cust_id customer) fk iid rid) db in
  (metadata = JNull
   /\ flag_not_found amb customer rid fk k iid metadata db
      = (inr (TypeError_read_of_null "environment"), db1))
  \/ (metadata <> JNull
      /\ exists r,
           flag_not_found amb customer rid fk k iid metadata db = (inl r, db1)
           /\ status r = 200%Z /\ success (json r) = false
           /\ r_flag_key (json r) = Some fk
           /\ previous_state (json r) = Some false
           /\ new_state (json r) = Some false
           /\ error (json r)
              = Some ("Feature flag '" ++ k ++ "' not found for customer "
                        ++ customer_text (cust_id customer))).
Proof.
  cbv zeta. unfold flag_not_found.
  destruct metadata; cbn [metadata_environment];
    first [ left; by split | right; split; [done |]; eexists; by repeat split ].
Qed.

(** The [catch] block answers with the request's own flag key when that
    is truthy. *)
Lemma handler_catch_response amb req customer rid exn db fk :
  body req !! "flag_key" = Some fk -> truthy fk = true ->
  let r := (handler_catch amb req customer rid exn db).1 in
  status r = 500%Z /\ success (json r) = false
  /\ r_flag_key (json r) = Some fk
  /\ previous_state (json r) = Some false
  /\ new_state (json r) = Some false
  /\ error (json r) = Some "Internal server error. Please contact support.".
Proof.
  intros Hfk Tfk. cbv zeta. unfold handler_catch.
  cbn [fst status json success r_flag_key previous_state new_state error].
  rewrite Hfk. unfold or_else. rewrite Tfk. by repeat split.
Qed.

(** C6 (round trip).  Every authenticated request that passes the
    validation is answered with its own [flag_key], whether the flag
    exists or not. *)
Theorem flag_key_round_trip amb req db tenant fk :
  authenticated req db tenant ->
  passes_validation (body req) ->
  body req !! "flag_key" = Some fk ->
  r_flag_key (json (webhook amb req db).1) = Some fk.
Proof.
  intros Ha Hv Hfk.
  apply passes_validation_inv in Hv
    as (fk' & en & iid & imsg & Hfk' & Tfk & Hen & Hiid & Tiid & Himsg
          & Timsg & Hsrc).
  assert (fk' = fk) as -> by congruence.
  destruct (webhook_authenticated amb req db tenant Ha) as (token & ->).
  unfold handler.
  rewrite (handler_try_valid _ _ _ _ _ fk en iid imsg) by assumption.
  set (customer := {| cust_id := Tenant tenant; cust_apiKey := token |}).
  set (metadata := default (JObj ∅) (body req !! "metadata")).
  destruct (rollback_cases amb customer (logRequest amb req) fk en iid imsg
              metadata db)
    as [(exn & ->) | [(k & Hk & ->) | [(fid & prev & env & upd & db1 & -> & _)
       | (db1 & -> & _)]]].
  - by apply handler_catch_response.
  - destruct (flag_not_found_cases amb customer (logRequest amb req) fk k iid
                metadata db) as [(_ & ->) | (_ & r & -> & Hr)].
    + by apply handler_catch_response.
    + cbn [fst]. tauto.
  - destruct (toggle_done amb customer (logRequest amb req) fk en iid imsg
                metadata fid prev env upd db1) as [resp db'] eqn:Hd.
    apply toggle_done_response in Hd as (r & -> & Hr). cbn [fst]. tauto.
  - by apply handler_catch_response.
Qed.

(** C3, at a flag key that names a member of [Object.prototype].  The
    specification has a valid request for a key the tenant has no flag
    under answered [success:false] and logged as [FLAG_NOT_FOUND].  For
    a key such as [constructor] the handler finds the inherited member
    instead: it answers 200 with [success:true] and no error,
    [previous_state] being what [enabled] reads on that member (nothing,
    the first time), and the entry it logs is [FLAG_TOGGLED].
    The database is [pristine]: no earlier request has written on
    [Object.prototype]. *)
Theorem unknown_flag_inherited_key amb req db tenant fk k :
  pristine db ->
  authenticated req db tenant ->
  passes_validation (body req) ->
  renders (body req) = true ->
  body req !! "flag_key" = Some fk ->
  to_string fk = Some k ->
  plain_tenant db tenant ->
  lookup_flag db tenant k = None ->
  inherited k = true ->
  status (webhook amb req db).1 = 200%Z
  /\ success (json (webhook amb req db).1) = true
  /\ error (json (webhook amb req db).1) = None
  /\ previous_state (json (webhook amb req db).1)
     = mp_enabled (default no_props (memberProps db !! k))
  /\ (exists e, last (auditLog (webhook amb req db).2) = Some e
                /\ is_flag_toggled e = true)
  /\ forall e, e ∈ auditLog (webhook amb req db).2 ->
               is_flag_not_found e = true -> e ∈ auditLog db.
Proof.
  intros _ Ha Hv Hr Hfk Hk Hplain Hnone Hinh.
  destruct (valid_request_inv _ Hv Hr)
    as (fk' & k' & en & iid & imsg & reason & Hfk' & Tfk & Hen
          & Hiid & Tiid & Himsg & Timsg & Hsrc & Hk' & Hreason).
  assert (fk' = fk) as -> by congruence.
  assert (k' = k) as -> by congruence.
  destruct (webhook_authenticated amb req db tenant Ha) as (token & ->).
  unfold handler.
  rewrite (handler_try_valid _ _ _ _ _ fk en iid imsg) by assumption.
  set (customer := {| cust_id := Tenant tenant; cust_apiKey := token |}).
  destruct (rollback_member amb customer (logRequest amb req) fk en iid imsg
              (default (JObj ∅) (body req !! "metadata")) db k reason)
    as (db1 & -> & Hlog & _); try assumption.
  - by apply plain_tenant_read.
  - cbn [customer cust_id customer_text]. rewrite <- own_slot_default.
    unfold lookup_flag in Hnone.
    destruct (own_slot db tenant k) as [[flag|]|]; [done | by left | by right].
  - unfold toggle_done.
    cbn [fst snd status json success error previous_state].
    repeat (split; [reflexivity |]). split.
    + eexists. split.
      * rewrite logAuditEvent_auditLog. apply (last_slice_last_snoc 999).
      * reflexivity.
    + intros e He Hnf. rewrite logAuditEvent_auditLog in He.
      apply elem_of_slice_last, elem_of_app in He as [He | He].
      * by rewrite <- Hlog.
      * apply list_elem_of_singleton in He. subst e. discriminate.
Qed.

(** Every status the handler answers with. *)
Lemma handler_status amb req customer rid db :
  status (handler amb req customer rid db).1 = 200%Z
  \/ status (handler amb req customer rid db).1 = 400%Z
  \/ status (handler amb req customer rid db).1 = 500%Z.
Proof.
  unfold handler.
  destruct (handler_try_cases amb req customer rid db)
    as [(n & _ & ->) | (fk & en & iid & imsg & _ & _ & _ & _ & _ & _ & ->)].
  - right; by left.
  - destruct (rollback_cases amb customer rid fk en iid imsg
                (default (JObj ∅) (body req !! "metadata")) db)
      as [(exn & ->) | [(k & Hk & ->) | [(fid & prev & env & upd & db1 & -> & _)
         | (db1 & -> & _)]]].
    + right; by right.
    + destruct (flag_not_found_cases amb customer rid fk k iid
                  (default (JObj ∅) (body req !! "metadata")) db)
        as [(_ & ->) | (_ & r & -> & Hr & _)].
      * right; by right.
      * by left.
    + by left.
    + right; by right.
Qed.

(** A valid request that can be rendered, for a key that names a member
    of [Object.prototype]: the handler toggles, whatever the customer. *)
Lemma rollback_inherited_key amb customer rid fk en iid imsg metadata db k
    reason :
  to_string fk = Some k ->
  read (featureFlags db) (customer_text (cust_id customer)) <> Inherited ->
  inherited k = true ->
  incident_text iid imsg = Some reason ->
  exists flag_id prev env upd db1,
    rollback amb customer rid fk en iid imsg metadata db
    = toggle_done amb customer rid fk en iid imsg metadata flag_id prev env
        upd db1
    /\ auditLog db1 = auditLog db.
Proof.
  intros Hk Hplain Hinh Hreason.
  destruct (default ∅ (featureFlags db !! customer_text (cust_id customer))
              !! k) as [[flag|]|] eqn:Hs.
  - destruct (featureFlags db !! customer_text (cust_id customer))
      as [flags|] eqn:Hflags;
      [| cbn [default from_option] in Hs; by rewrite lookup_empty in Hs].
    change (default ∅ (Some flags)) with flags in Hs.
    rewrite (rollback_record _ _ _ _ _ _ _ _ _ k flags flag reason)
      by assumption.
    by eexists _, _, _, _, _.
  - destruct (rollback_member amb customer rid fk en iid imsg metadata db k
                reason) as (db1 & -> & Hlog & _); try assumption.
    + by left.
    + by eexists _, _, _, _, _.
  - destruct (rollback_member amb customer rid fk en iid imsg metadata db k
                reason) as (db1 & -> & Hlog & _); try assumption.
    + by right.
    + by eexists _, _, _, _, _.
Qed.

(** C5, at a token that names a member of [Object.prototype].  The
    specification has a request whose token maps to no tenant answered
    401, with no flag changed and no [FLAG_TOGGLED] logged.  A token
    such as [constructor] is in no way a tenant's, yet the middleware
    lets it through: the answer is never 401, and a valid request under
    it for a key that names such a member is answered [success:true],
    with a [FLAG_TOGGLED] entry logged. *)
Theorem auth_gate_inherited_token amb req db token :
  authorization req = Some ("Bearer " ++ token) ->
  apiKeys db !! token = None ->
  inherited token = true ->
  ~ (exists tenant, authenticated req db tenant)
  /\ status (webhook amb req db).1 <> 401%Z
  /\ forall fk k,
       passes_validation (body req) ->
       renders (body req) = true ->
       body req !! "flag_key" = Some fk ->
       to_string fk = Some k ->
       inherited k = true ->
       status (webhook amb req db).1 = 200%Z
       /\ success (json (webhook amb req db).1) = true
       /\ exists e, last (auditLog (webhook amb req db).2) = Some e
                    /\ is_flag_toggled e = true.
Proof.
  intros Hh Hnone Hinh.
  assert (webhook amb req db
          = handler amb req {| cust_id := Member token; cust_apiKey := token |}
              (logRequest amb req) db) as Hw.
  { unfold webhook. rewrite (validateApiKey_bearer amb req db token Hh).
    by rewrite (read_inherited _ _ Hnone Hinh). }
  split; [| split].
  - intros (tenant & token' & Hh' & Hk & _).
    rewrite Hh in Hh'. injection Hh' as Heq.
    change (token = token') in Heq. congruence.
  - rewrite Hw.
    destruct (handler_status amb req
                {| cust_id := Member token; cust_apiKey := token |}
                (logRequest amb req) db) as [-> | [-> | ->]]; done.
  - intros fk k Hv Hr Hfk Hk Hkinh. rewrite Hw.
    destruct (valid_request_inv _ Hv Hr)
      as (fk' & k' & en & iid & imsg & reason & Hfk' & Tfk & Hen
            & Hiid & Tiid & Himsg & Timsg & Hsrc & Hk' & Hreason).
    assert (fk' = fk) as -> by congruence.
    assert (k' = k) as -> by congruence.
    unfold handler.
    rewrite (handler_try_valid _ _ _ _ _ fk en iid imsg) by assumption.
    destruct (rollback_inherited_key amb
                {| cust_id := Member token; cust_apiKey := token |}
                (logRequest amb req) fk en iid imsg
                (default (JObj ∅) (body req !! "metadata")) db k reason)
      as (fid & prev & env & upd & db1 & -> & Hlog); try assumption.
    { cbn [cust_id customer_text]. unfold read.
      rewrite (member_text_not_inherited _ Hinh).
      by destruct (featureFlags db !! member_text token). }
    unfold toggle_done. cbn [fst snd status json success].
    repeat (split; [reflexivity |]).
    eexists. split.
    + rewrite logAuditEvent_auditLog. apply (last_slice_last_snoc 999).
    + reflexivity.
Qed.

Lemma with_featureFlags_lookup_ne db tenant t (table : gmap string Slot) :
  t <> tenant ->
  featureFlags (with_featureFlags (<[tenant := table]> (featureFlags db)) db)
    !! t
  = featureFlags db !! t.
Proof. intros H. cbn [with_featureFlags featureFlags]. by rewrite lookup_insert_ne. Qed.

(** A toggle is answered [success:true] only once the flag key and the
    two incident fields have been turned into text. *)
Lemma rollback_success_text amb customer rid fk en iid imsg metadata db r db' :
  rollback amb customer rid fk en iid imsg metadata db = (inl r, db') ->
  success (json r) = true ->
  is_Some (to_string fk) /\ is_Some (incident_text iid imsg).
Proof.
  unfold rollback, toggle_record, toggle_member, toggle_builtin,
    flag_not_found, toggle_done.
  destruct (to_string fk) as [k|]; [| discriminate].
  destruct (incident_text iid imsg) as [reason|]; [by eauto |].
  intros H Hs. exfalso.
  repeat match type of H with
         | context [match ?x with _ => _ end] => destruct x
         end;
    try discriminate; injection H as <- _; discriminate.
Qed.

(** An authenticated request is answered [success:true] only if it
    passes the four checks and its fields can be turned into text. *)
Lemma webhook_success_inv amb req db tenant :
  authenticated req db tenant ->
  success (json (webhook amb req db).1) = true ->
  passes_validation (body req) /\ renders (body req) = true.
Proof.
  intros Ha Hs. destruct (webhook_authenticated amb req db tenant Ha)
    as (token & Hw).
  rewrite Hw in Hs. unfold handler in Hs.
  destruct (handler_try_cases amb req
              {| cust_id := Tenant tenant; cust_apiKey := token |}
              (logRequest amb req) db)
    as [(n & _ & Ht) | (fk & en & iid & imsg & Hv & Hfk & Tfk & Hen & Hiid
                          & Himsg & Ht)];
    rewrite Ht in Hs; [discriminate |].
  split; [exact Hv |].
  destruct (rollback amb _ (logRequest amb req) fk en iid imsg _ db)
    as [[r|exn] db'] eqn:Hr; [| discriminate].
  destruct (rollback_success_text _ _ _ _ _ _ _ _ _ _ _ Hr Hs)
    as ([k Hk] & [reason Hreason]).
  unfold renders, rendered. rewrite Hfk, Hiid, Himsg.
  unfold incident_text in Hreason.
  destruct (to_string iid), (to_string imsg); try discriminate.
  rewrite Hk. by rewrite !bool_decide_eq_true_2 by eauto.
Qed.

(** C9 (toggle frame).  A successful toggle of the flag
    [(tenant, flag_key)] changes that one record, and of it only
    [enabled], [updated_at], [updated_by] and [update_reason]: every
    other flag of the tenant, every table of another tenant and the
    API-key table are left as they were.  The toggle of an existing flag
    is successful whenever the request passes the validation and its
    flag key and incident fields are strings (or other values that can
    be turned into text). *)
Theorem toggle_frame amb req db tenant fk k flag :
  authenticated req db tenant ->
  body req !! "flag_key" = Some fk ->
  to_string fk = Some k ->
  lookup_flag db tenant k = Some flag ->
  (passes_validation (body req) -> renders (body req) = true ->
   success (json (webhook amb req db).1) = true)
  /\ (success (json (webhook amb req db).1) = true ->
      apiKeys (webhook amb req db).2 = apiKeys db
      /\ (forall t, t <> tenant ->
            featureFlags (webhook amb req db).2 !! t = featureFlags db !! t)
      /\ (forall t k', (t, k') <> (tenant, k) ->
            own_slot (webhook amb req db).2 t k' = own_slot db t k')
      /\ memberProps (webhook amb req db).2 = memberProps db
      /\ builtinsWritten (webhook amb req db).2 = builtinsWritten db
      /\ exists flag',
           lookup_flag (webhook amb req db).2 tenant k = Some flag'
           /\ id flag' = id flag
           /\ key flag' = key flag
           /\ environment flag' = environment flag
           /\ description flag' = description flag
           /\ created_at flag' = created_at flag).
Proof.
  intros Ha Hfk Hk Hflag.
  assert (passes_validation (body req) -> renders (body req) = true ->
          exists en iid imsg reason flags,
            featureFlags db !! tenant = Some flags
            /\ flags !! k = Some (SFlag flag)
            /\ webhook amb req db
               = ({| status := 200;
                     json :=
                       {| success := true; r_flag_key := Some fk;
                          previous_state := Some (enabled flag);
                          new_state := Some en;
                          error := None;
                          provider_metadata :=
                            Some (MetaToggled (Some (id flag)) (Tenant tenant)
                                    (Some (environment flag))
                                    (Some (iso_update amb))
                                    (now_end amb - now_start amb)) |} |},
                  logAuditEvent (iso_audit amb)
                    (FLAG_TOGGLED (Tenant tenant) fk (Some (id flag))
                       (Some (enabled flag)) en iid imsg (logRequest amb req)
                       (default (JObj ∅) (body req !! "metadata")))
                    (with_featureFlags
                       (<[tenant :=
                            <[k := SFlag (toggled flag en (iso_update amb)
                                            reason)]> flags]>
                          (featureFlags db)) db))) as Hfound.
  { intros Hv Hr.
    destruct (valid_request_inv _ Hv Hr)
      as (fk' & k' & en & iid & imsg & reason & Hfk' & Tfk & Hen
            & Hiid & Tiid & Himsg & Timsg & Hsrc & Hk' & Hreason).
    assert (fk' = fk) as -> by congruence.
    assert (k' = k) as -> by congruence.
    apply lookup_flag_Some in Hflag as (flags & Hflags & Hflag).
    exists en, iid, imsg, reason, flags.
    split; [exact Hflags |]. split; [exact Hflag |].
    by apply webhook_found. }
  split.
  { intros Hv Hr.
    destruct (Hfound Hv Hr) as (en & iid & imsg & reason & flags & _ & _ & ->).
    reflexivity. }
  intros Hs.
  destruct (webhook_success_inv amb req db tenant Ha Hs) as [Hv Hr].
  destruct (Hfound Hv Hr)
    as (en & iid & imsg & reason & flags & Hflags & Hflag' & Hw).
  clear Hs Hfound. rewrite Hw.
  cbn [fst snd json success].
  unfold lookup_flag, own_slot.
  cbn [logAuditEvent with_featureFlags featureFlags apiKeys memberProps
         builtinsWritten].
  repeat split.
  - intros t Ht. by rewrite lookup_insert_ne.
  - intros t k' Hne. destruct (decide (t = tenant)) as [->|Ht].
    + rewrite lookup_insert_eq, Hflags. cbn [mbind option_bind].
      rewrite lookup_insert_ne; [done | congruence].
    + by rewrite lookup_insert_ne.
  - eexists. rewrite lookup_insert_eq. cbn [mbind option_bind].
    rewrite lookup_insert_eq. repeat split.
Qed.

Lemma length_substring_to n s :
  String.length (substring_to n s) = Nat.min n (String.length s).
Proof.
  unfold substring_to. revert s.
  induction n as [|n IH]; intros [|c s]; cbn; try reflexivity.
  by rewrite IH.
Qed.

Lemma prefix_substring_to n s :
  String.prefix (substring_to n s) s = true.
Proof.
  unfold substring_to. revert s.
  induction n as [|n IH]; intros [|c s]; cbn; try reflexivity.
  destruct (Ascii.ascii_dec c c); [apply IH | congruence].
Qed.

(** C4, as amended (auditing of a rejected key).  A request whose header
    has the form [Bearer <token>], with a token of more than 10
    characters that is no property of the key table (it maps to no
    tenant, and it names no member of [Object.prototype]), is answered
    401 and adds one [AUTH_FAILED] entry to the audit log; the entry's
    [api_key] is the first 10 characters of the token followed by three
    dots.
    The database is [pristine]: no earlier request has written on
    [Object.prototype]. *)
Theorem auth_failure_audit amb req db token :
  pristine db ->
  authorization req = Some ("Bearer " ++ token) ->
  (forall tenant, apiKeys db !! token = Some tenant -> tenant = "") ->
  inherited token = false ->
  10 < String.length token ->
  webhook amb req db
  = (unauthorized "Invalid API key",
     logAuditEvent (iso_audit amb)
       (AUTH_FAILED (substring_to 10 token ++ "...")
          (req_ip req) (user_agent_header req)) db)
  /\ last (auditLog (webhook amb req db).2)
     = Some {| timestamp := iso_audit amb;
               event := AUTH_FAILED (substring_to 10 token ++ "...")
                          (req_ip req) (user_agent_header req) |}
  /\ String.length (substring_to 10 token) = 10
  /\ String.prefix (substring_to 10 token) token = true.
Proof.
  intros _ Hh Hunknown Hord Hlen.
  assert (webhook amb req db
          = (unauthorized "Invalid API key",
             logAuditEvent (iso_audit amb)
               (AUTH_FAILED (substring_to 10 token ++ "...")
                  (req_ip req) (user_agent_header req)) db)) as Hw.
  { unfold webhook.
    by rewrite (validateApiKey_rejects amb req db token Hh Hunknown Hord). }
  rewrite Hw. cbn [snd]. repeat split.
  - rewrite logAuditEvent_auditLog. apply (last_slice_last_snoc 999).
  - rewrite length_substring_to. lia.
  - apply prefix_substring_to.
Qed.

Lemma logAuditEvent_congr t e db db' :
  auditLog db' = auditLog db ->
  auditLog (logAuditEvent t e db') = auditLog (logAuditEvent t e db).
Proof. intros H. unfold logAuditEvent. cbn [auditLog]. by rewrite H. Qed.

Lemma handler_appends amb req customer rid db :
  exists new,
    auditLog (handler amb req customer rid db).2 = auditLog (log_all new db).
Proof.
  unfold handler.
  destruct (handler_try_cases amb req customer rid db)
    as [(n & _ & ->) | (fk & en & iid & imsg & _ & _ & _ & _ & _ & _ & ->)].
  - by exists [].
  - destruct (rollback_cases amb customer rid fk en iid imsg
                (default (JObj ∅) (body req !! "metadata")) db)
      as [(exn & ->) | [(k & Hk & ->) | [(fid & prev & env & upd & db1 & -> & Hlog & _)
         | (db1 & -> & _ & Hlog & _)]]].
    + by eexists [(_, _)].
    + destruct (flag_not_found_cases amb customer rid fk k iid
                  (default (JObj ∅) (body req !! "metadata")) db)
        as [(_ & ->) | (_ & r & -> & _)].
      * by eexists [(_, _); (_, _)].
      * by eexists [(_, _)].
    + unfold toggle_done. cbn [snd]. eexists [(_, _)].
      cbn [log_all foldl fst snd]. by apply logAuditEvent_congr.
    + unfold handler_catch. cbn [snd]. eexists [(_, _)].
      cbn [log_all foldl fst snd]. by apply logAuditEvent_congr.
Qed.

(** C10 (audit-log retention).  After any run of appends the audit log
    is the last 1000 entries of what was there followed by what was
    appended, in append order: at most 1000 entries, each exactly as it
    was appended; and the webhook route touches the log only by
    appending. *)
Theorem audit_log_retention db te evs :
  auditLog (log_all (te :: evs) db)
  = slice_last 1000 (auditLog db ++ map entry_of (te :: evs))
  /\ length (auditLog (log_all (te :: evs) db)) <= 1000
  /\ auditLog (log_all (te :: evs) db)
       `suffix_of` (auditLog db ++ map entry_of (te :: evs))%list
  /\ forall amb req,
       exists new,
         auditLog (webhook amb req db).2 = auditLog (log_all new db).
Proof.
  rewrite log_all_auditLog by done. repeat split.
  - rewrite length_slice_last. lia.
  - apply slice_last_suffix.
  - intros amb req. unfold webhook.
    destruct (validateApiKey amb req db) as [[resp|customer] db1] eqn:Hv.
    + destruct (validateApiKey_frame amb req db) as [H | (k & resp' & H)];
        rewrite Hv in H.
      * cbn [snd] in H |- *. subst db1. by exists [].
      * injection H as _ ->. cbn [snd].
        by exists [(iso_audit amb,
                    AUTH_FAILED k (req_ip req) (user_agent_header req))].
    + apply validateApiKey_inr in Hv as [-> _].
      apply handler_appends.
Qed.

End ProviderProperties.

(** ** Properties of the SDK client *)


Section ClientProperties.
Import Client ClientProps.

Lemma missing_fields_obj fields m :
  missing_fields fields (JObj m)
  = inr (filter (fun f => m !! f = None) fields).
Proof.
  induction fields as [|f rest IH]; [reflexivity |].
  cbn [missing_fields has_field]. rewrite IH.
  rewrite filter_cons. destruct (m !! f) as [v|] eqn:E.
  - rewrite bool_decide_eq_true_2 by eauto.
    by rewrite decide_False by done.
  - rewrite bool_decide_eq_false_2 by (intros [? ?]; congruence).
    by rewrite decide_True by done.
Qed.

Lemma missing_fields_arr fields l :
  missing_fields fields (JArr l) = inr fields.
Proof.
  induction fields as [|f rest IH]; [reflexivity |].
  cbn [missing_fields has_field]. by rewrite IH.
Qed.

Lemma validateResponse_accepts data :
  validateResponse data = None <-> schema_ok data = true.
Proof.
  unfold validateResponse, schema_ok.
  destruct data as [| b | z | s | l | m].
  1-4: unfold required; cbn [missing_fields has_field]; split; discriminate.
  - rewrite missing_fields_arr. split; discriminate.
  - rewrite missing_fields_obj. unfold required.
    rewrite !filter_cons, filter_nil. cbn [get_field].
    assert (forall (o : option jsval) (f : string) (rest : list string)
              (x y : option JsError) (b : bool),
              o = None ->
              (if Nat.ltb 0 (length (if decide (o = None) then f :: rest
                                     else rest))
               then x else y) = x) as Habsent.
    { intros o f rest x y b ->. by rewrite decide_True. }
    destruct (m !! "success") as [vs|] eqn:E1.
    2: { rewrite (Habsent None _ _ _ _ true eq_refl). split; discriminate. }
    rewrite (decide_False (P := Some vs = None)) by done.
    destruct (m !! "flag_key") as [vf|] eqn:E2.
    2: { rewrite (Habsent None _ _ _ _ true eq_refl).
         split; [discriminate |]. by rewrite andb_false_r. }
    rewrite (decide_False (P := Some vf = None)) by done.
    destruct (m !! "previous_state") as [vp|] eqn:E3.
    2: { rewrite (Habsent None _ _ _ _ true eq_refl).
         split; [discriminate |]. by rewrite andb_false_r. }
    rewrite (decide_False (P := Some vp = None)) by done.
    destruct (m !! "new_state") as [vn|] eqn:E4.
    2: { rewrite decide_True by done. cbn [length Nat.ltb Nat.leb].
         split; [discriminate |]. by rewrite andb_false_r. }
    rewrite (decide_False (P := Some vn = None)) by done.
    cbn [length Nat.ltb Nat.leb].
    destruct (is_boolean (Some vs)); cbn [negb andb]; [| split; discriminate].
    destruct (is_string (Some vf)); cbn [negb andb]; [| split; discriminate].
    destruct (is_boolean (Some vp)); cbn [negb andb]; [| split; discriminate].
    destruct (is_boolean (Some vn)); cbn [negb andb]; [| split; discriminate].
    destruct (falsy (m !! "error")), (is_string (m !! "error"));
      cbn; split; (reflexivity || discriminate).
Qed.

(** What [validateResponse] throws on an object or an array is one of
    its own errors. *)
Lemma validateResponse_error data e :
  validateResponse data = Some e ->
  match data with
  | JObj _ | JArr _ =>
      name e = "Error" /\ String.prefix "Invalid response: " (message e) = true
  | _ => name e = "TypeError"
  end.
Proof.
  unfold validateResponse.
  destruct data as [| b | z | s | l | m].
  1-4: unfold required; cbn [missing_fields has_field]; by intros [= <-].
  - rewrite missing_fields_arr. cbn. by intros [= <-].
  - rewrite missing_fields_obj.
    repeat case_match; intros [= <-]; split; reflexivity.
Qed.

Lemma rethrow_id cfg e : name e <> "AbortError" -> rethrow cfg e = e.
Proof.
  intros H. unfold rethrow. apply String.eqb_neq in H. by rewrite H.
Qed.

(** C8, as amended (response-schema validation).  On a 2xx response whose
    body parses to [data], [testToggleFlag] returns [data] exactly when
    the four required fields are present with their types and [error] is
    a string or falsy (absent, [null], [false], [0] or empty); otherwise
    it throws, with an [Invalid response: ...] [Error] for an object or an
    array and a [TypeError] for a primitive body, never the [HTTP ...]
    error of a non-2xx status; a well-formed [success:false] body is
    returned, not thrown. *)
Theorem response_schema_validation cfg status text data :
  ok status = true ->
  (schema_ok data = true <->
     testToggleFlag cfg (FetchResponded status text (inr data)) = inr data)
  /\ (schema_ok data = false ->
       exists e,
         testToggleFlag cfg (FetchResponded status text (inr data)) = inl e
         /\ validateResponse data = Some e
         /\ match data with
            | JObj _ | JArr _ =>
                name e = "Error"
                /\ String.prefix "Invalid response: " (message e) = true
            | _ => name e = "TypeError"
            end
         /\ forall status' text', e <> transport_error status' text')
  /\ (forall status' text' parsed,
       ok status' = false ->
       testToggleFlag cfg (FetchResponded status' text' parsed)
       = inl (transport_error status' text')).
Proof.
  intros Hok. unfold testToggleFlag. rewrite Hok. cbn [negb].
  repeat split.
  - intros H. apply validateResponse_accepts in H. by rewrite H.
  - intros H. apply validateResponse_accepts.
    destruct (validateResponse data); [discriminate | reflexivity].
  - intros Hbad.
    destruct (validateResponse data) as [e|] eqn:Hv.
    2: { apply validateResponse_accepts in Hv. congruence. }
    pose proof (validateResponse_error data e Hv) as Hshape.
    exists e. rewrite rethrow_id.
    2: { destruct data; destruct_and?; congruence. }
    repeat split; [exact Hshape |].
    intros status' text' ->. unfold transport_error in Hshape.
    destruct data; destruct_and?; discriminate.
  - intros status' text' parsed Hno. rewrite Hno. cbn [negb].
    by rewrite rethrow_id.
Qed.

Section Retry.
Variable cfg : Config.
Variable net : nat -> FetchOutcome.

Local Abbreviation N := (Z.to_nat (retryAttempts cfg)).
Local Abbreviation throws := (throws cfg net).

Lemma expected_trace_last k : expected_trace k k = [Call k].
Proof. unfold expected_trace. by rewrite Nat.sub_diag. Qed.

Lemma expected_trace_step a k :
  a < k ->
  expected_trace a k
  = (Call a :: Sleep (delay a) :: expected_trace (S a) k)%list.
Proof.
  intros H. unfold expected_trace.
  replace (k - a) with (S (k - S a)) by lia. reflexivity.
Qed.

Lemma sleeps_between a :
  a < N -> (Z.of_nat a <? retryAttempts cfg)%Z = true.
Proof. intros H. apply Z.ltb_lt. lia. Qed.

Lemma no_sleep_after_last a :
  N <= a -> (Z.of_nat a <? retryAttempts cfg)%Z = false.
Proof. intros H. apply Z.ltb_ge. lia. Qed.

(** The loop stops at the first attempt that returns. *)
Lemma retry_loop_returns k data :
  testToggleFlag cfg (net k) = inr data ->
  forall remaining a lastError,
    a + remaining = S N -> a <= k <= N ->
    (forall i, a <= i < k -> throws i) ->
    retry_loop cfg net remaining a lastError
    = (inr data, expected_trace a k).
Proof.
  intros Hk. induction remaining as [|r IH]; intros a lastError Hsum Hak Hthrow.
  - lia.
  - cbn [retry_loop]. destruct (decide (a = k)) as [->|Hne].
    + by rewrite Hk, expected_trace_last.
    + destruct (Hthrow a) as [e He]; [lia |]. rewrite He.
      rewrite sleeps_between by lia.
      rewrite (IH (S a) (Some e)); [| lia | lia | intros; apply Hthrow; lia].
      by rewrite (expected_trace_step a k) by lia.
Qed.

(** When every attempt throws, the loop runs them all and reports the
    last error. *)
Lemma retry_loop_exhausted :
  forall remaining a lastError e_last,
    a + remaining = S N -> 1 <= remaining ->
    (forall i, a <= i <= N -> throws i) ->
    testToggleFlag cfg (net N) = inl e_last ->
    retry_loop cfg net remaining a lastError
    = (inl (Error ("Failed after " ++ pretty (retryAttempts cfg)
                     ++ " attempts: " ++ message e_last)),
       expected_trace a N).
Proof.
  induction remaining as [|r IH]; intros a lastError e_last Hsum Hr Hthrow Hlast.
  - lia.
  - cbn [retry_loop]. destruct (Hthrow a) as [e He]; [lia |]. rewrite He.
    destruct r as [|r'].
    + assert (a = N) as -> by lia.
      rewrite no_sleep_after_last by lia. cbn [retry_loop app].
      rewrite expected_trace_last. congruence.
    + rewrite sleeps_between by lia.
      rewrite (IH (S a) (Some e) e_last);
        [| lia | lia | intros; apply Hthrow; lia | exact Hlast].
      by rewrite (expected_trace_step a N) by lia.
Qed.

Lemma count_calls_cons_call a events :
  count_calls (Call a :: events) = S (count_calls events).
Proof. unfold count_calls. by rewrite filter_cons_True. Qed.

Lemma count_calls_cons_sleep ms events :
  count_calls (Sleep ms :: events) = count_calls events.
Proof. unfold count_calls. by rewrite filter_cons_False. Qed.

Lemma retry_loop_calls remaining a lastError :
  count_calls (retry_loop cfg net remaining a lastError).2 <= remaining.
Proof.
  revert a lastError. induction remaining as [|r IH]; intros a lastError.
  - cbn. lia.
  - cbn [retry_loop]. destruct (testToggleFlag cfg (net a)) as [e|data].
    + specialize (IH (S a) (Some e)).
      destruct (retry_loop cfg net r (S a) (Some e)) as [result events].
      cbn [snd] in IH |- *. rewrite count_calls_cons_call.
      destruct (Z.of_nat a <? retryAttempts cfg)%Z; cbn [app];
        rewrite ?count_calls_cons_sleep; lia.
    + cbn [snd]. rewrite count_calls_cons_call. cbn. lia.
Qed.

End Retry.

Lemma delay_values :
  delay 1 = 1000%Z /\ delay 2 = 2000%Z /\ delay 3 = 4000%Z
  /\ delay 4 = 8000%Z /\ forall i, 5 <= i -> delay i = 10000%Z.
Proof.
  repeat split. intros i Hi. unfold delay.
  apply Z.min_r.
  assert (2 ^ 4 <= 2 ^ (Z.of_nat i - 1))%Z
    by (apply Z.pow_le_mono_r; lia).
  lia.
Qed.

(** C7 (client retry policy).  [testToggleFlagWithRetry] makes at most
    [retryAttempts] calls (3 by default); it stops at the first call that
    returns, whatever [success] says, and goes on only after a throw;
    between consecutive attempts it sleeps
    [min(1000 * 2^(attempt-1), 10000)] ms; when all attempts throw it
    throws [Failed after <retryAttempts> attempts: <last message>]. *)
Theorem retry_policy cfg net :
  (forall base, cfg_retryAttempts base = None ->
                retryAttempts (constructor base) = 3%Z)
  /\ count_calls (testToggleFlagWithRetry cfg net).2
     <= Z.to_nat (retryAttempts cfg)
  /\ (forall k data,
        1 <= k <= Z.to_nat (retryAttempts cfg) ->
        (forall i, 1 <= i < k -> throws cfg net i) ->
        testToggleFlag cfg (net k) = inr data ->
        testToggleFlagWithRetry cfg net = (inr data, expected_trace 1 k))
  /\ (forall e_last,
        1 <= Z.to_nat (retryAttempts cfg) ->
        (forall i, 1 <= i <= Z.to_nat (retryAttempts cfg) ->
                   throws cfg net i) ->
        testToggleFlag cfg (net (Z.to_nat (retryAttempts cfg))) = inl e_last ->
        testToggleFlagWithRetry cfg net
        = (inl (Error ("Failed after " ++ pretty (retryAttempts cfg)
                         ++ " attempts: " ++ message e_last)),
           expected_trace 1 (Z.to_nat (retryAttempts cfg))))
  /\ (forall i, delay i = Z.min (1000 * 2 ^ (Z.of_nat i - 1)) 10000)
  /\ delay 1 = 1000%Z /\ delay 2 = 2000%Z /\ delay 3 = 4000%Z
  /\ delay 4 = 8000%Z /\ (forall i, 5 <= i -> delay i = 10000%Z).
Proof.
  unfold testToggleFlagWithRetry.
  split; [| split; [| split; [| split; [| split; [| exact delay_values]]]]].
  - intros base H. unfold constructor. cbn [retryAttempts]. by rewrite H.
  - apply retry_loop_calls.
  - intros k data Hk Hthrow Hret.
    apply retry_loop_returns; [exact Hret | lia | lia | exact Hthrow].
  - intros e_last HN Hthrow Hlast.
    apply retry_loop_exhausted; [lia | lia | exact Hthrow | exact Hlast].
  - reflexivity.
Qed.

End ClientProperties.


(** ** The properties at the requests of the test suite *)

Section Instances.
Import Provider Props Scenarios Client ClientProps.

(** The test key authenticates as [customer_001]. *)
Ltac test_key_authenticates :=
  exists "test_sk_abc123def456";
  split; [reflexivity | split; [vm_compute; reflexivity | discriminate]].

(** Scenarios A and B: [new-checkout-flow] set to [false] twice. *)
Lemma toggle_idempotent_witness :
  let first := webhook amb0 req_toggle_off database in
  let second := webhook amb0 req_toggle_off first.2 in
  previous_state (json first.1) = Some true
  /\ new_state (json first.1) = Some false
  /\ success (json second.1) = true
  /\ previous_state (json second.1) = Some false
  /\ new_state (json second.1) = Some false.
Proof.
  destruct (toggle_idempotent amb0 amb0 req_toggle_off req_toggle_off
              database "customer_001" (JStr "new-checkout-flow")
              "new-checkout-flow" false flag_001)
    as (_ & _ & Hp1 & Hn1 & _ & Hs2 & Hp2 & Hn2 & _);
    try (vm_compute; reflexivity); [test_key_authenticates .. |].
  cbv zeta in *. rewrite Hn1 in Hp2. auto.
Defined.


(** The test customer has no flag called [constructor]; a rollback of
    it is answered as a success, and logged as a toggle. *)
Lemma unknown_flag_inherited_key_witness :
  lookup_flag database "customer_001" "constructor" = None
  /\ status (webhook amb0 req_constructor_flag database).1 = 200%Z
  /\ success (json (webhook amb0 req_constructor_flag database).1) = true
  /\ previous_state (json (webhook amb0 req_constructor_flag database).1)
     = None
  /\ exists e,
       last (auditLog (webhook amb0 req_constructor_flag database).2) = Some e
       /\ is_flag_toggled e = true.
Proof.
  destruct (unknown_flag_inherited_key amb0 req_constructor_flag database
              "customer_001" (JStr "constructor") "constructor")
    as (Hst & Hsu & _ & Hp & Hlog & _).
  - reflexivity.
  - test_key_authenticates.
  - vm_compute. reflexivity.
  - vm_compute. reflexivity.
  - vm_compute. reflexivity.
  - vm_compute. reflexivity.
  - right. vm_compute. reflexivity.
  - vm_compute. reflexivity.
  - vm_compute. reflexivity.
  - split; [vm_compute; reflexivity |]. auto.
Defined.

(** The same request, evaluated: the table of the customer now has a
    third own property, and [GET /flags] would count it. *)
Example constructor_flag_stored :
  own_slot database "customer_001" "constructor" = None
  /\ own_slot (webhook amb0 req_constructor_flag database).2
       "customer_001" "constructor" = Some SMember
  /\ size (default ∅ (featureFlags database !! "customer_001")) = 2
  /\ size (default ∅
             (featureFlags (webhook amb0 req_constructor_flag database).2
                !! "customer_001")) = 3.
Proof. repeat split; vm_compute; reflexivity. Qed.

(** With [metadata: null] a request for a flag that does not exist is
    logged as not found and then answered 500: building the response
    reads a property of [null]. *)
Example unknown_flag_null_metadata :
  status (webhook amb0 req_unknown_flag_null_metadata database).1 = 500%Z
  /\ map is_flag_not_found
       (auditLog (webhook amb0 req_unknown_flag_null_metadata database).2)
     = [true; false].
Proof. vm_compute. split; reflexivity. Qed.

(** Scenario D, evaluated: the business failure for a flag that does not
    exist. *)
Example scenario_D :
  status (webhook amb0 req_unknown_flag database).1 = 200%Z
  /\ success (json (webhook amb0 req_unknown_flag database).1) = false
  /\ error (json (webhook amb0 req_unknown_flag database).1)
     = Some "Feature flag 'does-not-exist' not found for customer customer_001"
  /\ featureFlags (webhook amb0 req_unknown_flag database).2
     = featureFlags database.
Proof. repeat split; vm_compute; reflexivity. Qed.

(** [Bearer constructor] is nobody's key, yet a rollback sent with it is
    answered 200 as a success and logged as a toggle. *)
Lemma auth_gate_inherited_token_witness :
  apiKeys database !! "constructor" = None
  /\ status (webhook amb0 req_constructor_key database).1 = 200%Z
  /\ success (json (webhook amb0 req_constructor_key database).1) = true
  /\ exists e,
       last (auditLog (webhook amb0 req_constructor_key database).2) = Some e
       /\ is_flag_toggled e = true.
Proof.
  destruct (auth_gate_inherited_token amb0 req_constructor_key database
              "constructor") as (_ & _ & H).
  - reflexivity.
  - vm_compute. reflexivity.
  - vm_compute. reflexivity.
  - split; [vm_compute; reflexivity |].
    apply (H (JStr "constructor") "constructor");
      vm_compute; reflexivity.
Defined.

Lemma flag_key_round_trip_witness :
  r_flag_key (json (webhook amb0 req_unknown_flag_null_metadata database).1)
  = Some (JStr "does-not-exist").
Proof.
  apply (flag_key_round_trip amb0 req_unknown_flag_null_metadata database
           "customer_001" (JStr "does-not-exist")).
  - test_key_authenticates.
  - vm_compute. reflexivity.
  - vm_compute. reflexivity.
Defined.

(** Toggling [new-checkout-flow] leaves [beta-search] and the other
    customer's flag alone. *)
Lemma toggle_frame_witness :
  lookup_flag (webhook amb0 req_toggle_off database).2
    "customer_001" "beta-search" = Some flag_002
  /\ lookup_flag (webhook amb0 req_toggle_off database).2
       "customer_002" "mobile-app-redesign" = Some flag_003
  /\ apiKeys (webhook amb0 req_toggle_off database).2 = apiKeys database.
Proof.
  destruct (toggle_frame amb0 req_toggle_off database "customer_001"
              (JStr "new-checkout-flow") "new-checkout-flow" flag_001)
    as (Hiff & Hframe).
  - test_key_authenticates.
  - vm_compute. reflexivity.
  - vm_compute. reflexivity.
  - vm_compute. reflexivity.
  - destruct Hframe as (Hk & _ & Hother & _).
    { apply Hiff; vm_compute; reflexivity. }
    unfold lookup_flag. split; [| split; [| exact Hk]].
    + rewrite Hother; [vm_compute; reflexivity | discriminate].
    + rewrite Hother; [vm_compute; reflexivity | discriminate].
Defined.

(** Scenario C: an unknown key is answered 401 and logged by its first
    ten characters. *)
Lemma auth_failure_audit_witness :
  webhook amb0 req_invalid_key database
  = (unauthorized "Invalid API key",
     logAuditEvent (iso_audit amb0)
       (AUTH_FAILED "invalid_ke..." (Some "127.0.0.1") (Some "curl/8.0"))
       database).
Proof.
  destruct (auth_failure_audit amb0 req_invalid_key database "invalid_key_123")
    as (Hw & _).
  - reflexivity.
  - reflexivity.
  - intros tenant H. vm_compute in H. discriminate.
  - vm_compute. reflexivity.
  - vm_compute. lia.
  - exact Hw.
Defined.

(** C4 as stated fails: a request without an [Authorization] header is
    answered 401 and leaves the audit log empty, so no [AUTH_FAILED]
    entry is recorded for it. *)
Lemma missing_header_not_audited :
  status (webhook amb0 req_no_header database).1 = 401%Z
  /\ auditLog (webhook amb0 req_no_header database).2 = []
  /\ ~ (exists e,
          e ∈ auditLog (webhook amb0 req_no_header database).2
          /\ is_auth_failed e = true).
Proof.
  assert (auditLog (webhook amb0 req_no_header database).2 = []) as Hlog
    by (vm_compute; reflexivity).
  split; [vm_compute; reflexivity | split; [exact Hlog |]].
  intros (e & He & _). rewrite Hlog in He. by apply not_elem_of_nil in He.
Qed.

(** The timeouts of attempts 1 and 2 are retried after 1000 and 2000 ms;
    the business failure of attempt 3 is returned. *)
Lemma retry_policy_witness :
  testToggleFlagWithRetry cfg0 net_two_timeouts
  = (inr body_not_found,
     [Call 1; Sleep 1000; Call 2; Sleep 2000; Call 3]).
Proof.
  destruct (retry_policy cfg0 net_two_timeouts) as (_ & _ & Hret & _).
  rewrite (Hret 3 body_not_found).
  - reflexivity.
  - vm_compute. lia.
  - intros i Hi. assert (i = 1 \/ i = 2) as [-> | ->] by lia;
      eexists; vm_compute; reflexivity.
  - vm_compute. reflexivity.
Defined.

(** Three 500s: three calls, two sleeps, and the aggregate error. *)
Example retry_exhausted :
  testToggleFlagWithRetry cfg0 net_always_500
  = (inl (Error "Failed after 3 attempts: HTTP 500: oops"),
     [Call 1; Sleep 1000; Call 2; Sleep 2000; Call 3]).
Proof. vm_compute. reflexivity. Qed.

(** A body without [new_state] is refused with the client's own error,
    the business failure is returned. *)
Lemma response_schema_validation_witness :
  testToggleFlag cfg0 (FetchResponded 200 "" (inr body_not_found))
  = inr body_not_found
  /\ exists e,
       testToggleFlag cfg0 (FetchResponded 200 "" (inr body_missing_field))
       = inl e
       /\ message e = "Invalid response: missing required fields: new_state".
Proof.
  split.
  - destruct (response_schema_validation cfg0 200 "" body_not_found)
      as ([Hret _] & _); [reflexivity |].
    apply Hret. vm_compute. reflexivity.
  - destruct (response_schema_validation cfg0 200 "" body_missing_field)
      as (_ & Hbad & _); [reflexivity |].
    destruct Hbad as (e & He & Hv & _); [vm_compute; reflexivity |].
    exists e. split; [exact He |].
    vm_compute in Hv. injection Hv as <-. reflexivity.
Defined.

(** C8 as stated fails: a body whose [error] is present and is [false],
    not a string, is returned as valid. *)
Lemma falsy_error_accepted :
  strict_schema_ok body_error_false = false
  /\ testToggleFlag cfg0 (FetchResponded 200 "" (inr body_error_false))
     = inr body_error_false.
Proof. split; vm_compute; reflexivity. Qed.

(** Scenario A, evaluated. *)
Example scenario_A :
  status (webhook amb0 req_toggle_off database).1 = 200%Z
  /\ json (webhook amb0 req_toggle_off database).1
     = {| success := true; r_flag_key := Some (JStr "new-checkout-flow");
          previous_state := Some true; new_state := Some false;
          error := None;
          provider_metadata :=
            Some (MetaToggled (Some "flag_001") (Tenant "customer_001")
                    (Some "production") (Some "2025-10-26T14:32:00.000Z")
                    15) |}.
Proof. vm_compute. split; reflexivity. Qed.

Example to_string_arr :
  to_string (JArr [JStr "a"; JNull; JNum "-12"; JArr [JBool true; JObj ∅]])
  = Some "a,,-12,true,[object Object]"
  /\ to_string (JArr [JStr "a"; unprintable]) = None.
Proof. vm_compute. split; reflexivity. Qed.

End Instances.

(** ** Invariants of the webhook route *)

Section WebhookInvariants.
Import Provider Props.

Lemma authenticated_unique req db t1 t2 :
  authenticated req db t1 -> authenticated req db t2 -> t1 = t2.
Proof.
  intros (k1 & H1 & L1 & _) (k2 & H2 & L2 & _).
  rewrite H1 in H2. injection H2 as Heq. change (k1 = k2) in Heq.
  congruence.
Qed.

(** Every way a request to the webhook route can go. *)
Lemma webhook_outcomes amb req db :
  (exists msg,
     (webhook amb req db).1 = unauthorized msg
     /\ ((webhook amb req db).2 = db
         \/ exists k,
              (webhook amb req db).2
              = logAuditEvent (iso_audit amb)
                  (AUTH_FAILED k (req_ip req) (user_agent_header req)) db))
  \/ (exists n,
        first_failed_check (body req) = Some n
        /\ webhook amb req db
           = (bad_request (echoed_key n (body req)) (check_reason n), db))
  \/ (exists customer fk en iid imsg,
        validateApiKey amb req db = (inr customer, db)
        /\ passes_validation (body req)
        /\ body req !! "flag_key" = Some fk /\ truthy fk = true
        /\ body req !! "enabled" = Some (JBool en)
        /\ body req !! "incident_id" = Some iid
        /\ body req !! "incident_message" = Some imsg
        /\ webhook amb req db
           = match rollback amb customer (logRequest amb req) fk en iid imsg
                     (default (JObj ∅) (body req !! "metadata")) db with
             | (inl resp, db1) => (resp, db1)
             | (inr exn, db1) =>
                 handler_catch amb req customer (logRequest amb req) exn db1
             end).
Proof.
  unfold webhook.
  destruct (validateApiKey amb req db) as [[resp|customer] db1] eqn:Hv.
  - left. cbn [fst snd].
    destruct (validateApiKey_frame amb req db) as [H | (k & resp' & H)];
      rewrite Hv in H.
    + cbn [snd] in H. subst db1.
      revert Hv. unfold validateApiKey.
      repeat case_match; intros [= <-]; eexists; split; eauto.
    + injection H as -> ->.
      revert Hv. unfold validateApiKey.
      repeat case_match; intros [= <- Hdb]; eexists; split; eauto.
  - apply validateApiKey_inr in Hv as Hc. destruct Hc as [-> _].
    unfold handler.
    destruct (handler_try_cases amb req customer (logRequest amb req) db)
      as [(n & Hn & ->) | (fk & en & iid & imsg & Hpass & Hfk & Tfk & Hen
                             & Hiid & Himsg & ->)].
    + right; left. by exists n.
    + right; right. exists customer, fk, en, iid, imsg. by repeat split.
Qed.

(** X1 (shape of every webhook response).  Whatever the request, the
    status is 200, 400, 401 or 500; [success:true] comes only with 200,
    without an [error] and with a [new_state]; [success:false] always
    carries an [error]; every answer other than a 401 carries [flag_key]
    and [new_state], and [previous_state] too when it reports a
    failure, both states being [false] then. *)
Theorem webhook_response_shape amb req db :
  status (webhook amb req db).1 ∈ [200%Z; 400%Z; 401%Z; 500%Z]
  /\ (success (json (webhook amb req db).1) = true ->
      status (webhook amb req db).1 = 200%Z
      /\ error (json (webhook amb req db).1) = None
      /\ is_Some (new_state (json (webhook amb req db).1)))
  /\ (success (json (webhook amb req db).1) = false ->
      is_Some (error (json (webhook amb req db).1)))
  /\ (status (webhook amb req db).1 <> 401%Z ->
      is_Some (r_flag_key (json (webhook amb req db).1))
      /\ is_Some (new_state (json (webhook amb req db).1)))
  /\ (status (webhook amb req db).1 <> 401%Z ->
      success (json (webhook amb req db).1) = false ->
      previous_state (json (webhook amb req db).1) = Some false
      /\ new_state (json (webhook amb req db).1) = Some false).
Proof.
  assert (forall r : Response,
            (r = (webhook amb req db).1) ->
            (exists msg, r = unauthorized msg)
            \/ (exists fk msg, r = bad_request fk msg)
            \/ (status r = 200%Z /\ success (json r) = true
                /\ error (json r) = None /\ is_Some (r_flag_key (json r))
                /\ is_Some (new_state (json r)))
            \/ ((status r = 200%Z \/ status r = 500%Z)
                /\ success (json r) = false
                /\ is_Some (error (json r)) /\ is_Some (r_flag_key (json r))
                /\ previous_state (json r) = Some false
                /\ new_state (json r) = Some false)) as Hshape.
  { intros r ->.
    destruct (webhook_outcomes amb req db)
      as [(msg & -> & _) | [(n & _ & ->)
         | (customer & fk & en & iid & imsg & _ & _ & Hfk & Tfk & _ & _ & _
              & ->)]].
    - left. by eexists.
    - right; left. by eexists _, _.
    - set (rid := logRequest amb req).
      set (metadata := default (JObj ∅) (body req !! "metadata")).
      assert (forall exn db1,
                let r := (handler_catch amb req customer rid exn db1).1 in
                (status r = 200%Z \/ status r = 500%Z)
                /\ success (json r) = false
                /\ is_Some (error (json r)) /\ is_Some (r_flag_key (json r))
                /\ previous_state (json r) = Some false
                /\ new_state (json r) = Some false) as Hcatch.
      { intros exn db1. cbv zeta.
        pose proof (handler_catch_response amb req customer rid exn db1 fk
                      Hfk Tfk) as H.
        cbv zeta in H. destruct H as (-> & -> & -> & -> & -> & ->).
        repeat split; eauto. }
      destruct (rollback_cases amb customer rid fk en iid imsg metadata db)
        as [(exn & ->) | [(k & Hk & ->)
           | [(fid & prev & env & upd & db1 & -> & _) | (db1 & -> & _)]]].
      + right; right; right. apply Hcatch.
      + destruct (flag_not_found_cases amb customer rid fk k iid metadata db)
          as [(_ & ->) | (_ & r & -> & Hr)].
        * right; right; right. apply Hcatch.
        * right; right; right. cbn [fst].
          destruct Hr as (-> & -> & -> & -> & -> & ->). repeat split; eauto.
      + right; right; left. unfold toggle_done. cbn. repeat split; eauto.
      + right; right; right. apply Hcatch. }
  destruct (Hshape _ eq_refl)
    as [(msg & ->) | [(fk & msg & ->) | [(-> & -> & -> & Hk & Hn)
       | ([-> | ->] & -> & He & Hk & -> & ->)]]];
    cbn [unauthorized bad_request status json success error r_flag_key
           previous_state new_state];
    (split; [set_solver |]); repeat split; intros; eauto; done.
Qed.


Lemma own_slot_insert db name flags k s t k' :
  featureFlags db !! name = Some flags ->
  own_slot (with_featureFlags (<[name := <[k := s]> flags]> (featureFlags db))
              db) t k'
  = if decide (t = name /\ k' = k) then Some s else own_slot db t k'.
Proof.
  intros Hflags. unfold own_slot. cbn [with_featureFlags featureFlags].
  destruct (decide (t = name)) as [->|Hne].
  - rewrite lookup_insert_eq, Hflags. cbn [mbind option_bind].
    destruct (decide (k' = k)) as [->|Hk].
    + rewrite lookup_insert_eq. by rewrite decide_True.
    + rewrite lookup_insert_ne by done. rewrite decide_False; [done | tauto].
  - rewrite lookup_insert_ne by done. rewrite decide_False; [done | tauto].
Qed.

Lemma tables_insert db name flags (table : gmap string Slot) t :
  featureFlags db !! name = Some flags ->
  is_Some (featureFlags
             (with_featureFlags (<[name := table]> (featureFlags db)) db) !! t)
  <-> is_Some (featureFlags db !! t).
Proof.
  intros Hflags. cbn [with_featureFlags featureFlags].
  destruct (decide (t = name)) as [->|Hne].
  - rewrite lookup_insert_eq, Hflags. split; eauto.
  - by rewrite lookup_insert_ne.
Qed.

(** What the rollback does to the tables: nothing; or it replaces the
    flag record under the key by one that differs in the four fields of
    an update; or it gives the table an own property named like the
    member of [Object.prototype] it found there. *)
Lemma rollback_slots amb customer rid fk en iid imsg metadata db :
  let db' := (rollback amb customer rid fk en iid imsg metadata db).2 in
  apiKeys db' = apiKeys db
  /\ (forall t, is_Some (featureFlags db' !! t)
                <-> is_Some (featureFlags db !! t))
  /\ forall t k,
       own_slot db' t k = own_slot db t k
       \/ (t = customer_text (cust_id customer) /\ to_string fk = Some k
           /\ ((exists flag flag',
                  own_slot db t k = Some (SFlag flag)
                  /\ own_slot db' t k = Some (SFlag flag')
                  /\ kept flag flag')
               \/ (inherited k = true /\ own_slot db t k = None
                   /\ own_slot db' t k = Some SMember))).
Proof.
  cbv zeta. unfold rollback.
  destruct (to_string fk) as [k0|] eqn:Hk0; [| by auto].
  set (name := customer_text (cust_id customer)).
  assert (forall table : option (gmap string Slot),
    featureFlags db !! name = table ->
    let r := match read (default ∅ table) k0 with
             | Own (SFlag flag) =>
                 toggle_record amb customer rid fk k0 en iid imsg metadata
                   (default ∅ table) flag db
             | Own SMember | Inherited =>
                 toggle_member amb customer rid fk k0 en iid imsg metadata
                   table db
             | Absent => flag_not_found amb customer rid fk k0 iid metadata db
             end in
    apiKeys r.2 = apiKeys db
    /\ (forall t, is_Some (featureFlags r.2 !! t)
                  <-> is_Some (featureFlags db !! t))
    /\ forall t k,
         own_slot r.2 t k = own_slot db t k
         \/ (t = name /\ Some k0 = Some k
             /\ ((exists flag flag',
                    own_slot db t k = Some (SFlag flag)
                    /\ own_slot r.2 t k = Some (SFlag flag')
                    /\ kept flag flag')
                 \/ (inherited k = true /\ own_slot db t k = None
                     /\ own_slot r.2 t k = Some SMember)))) as Hon.
  { intros table Htable. cbv zeta.
    destruct (read (default ∅ table) k0) as [[flag|]| |] eqn:Hr.
    - (* a record *)
      apply read_Own_inv in Hr.
      destruct table as [flags|];
        [| cbn [default from_option] in Hr; by rewrite lookup_empty in Hr].
      change (default ∅ (Some flags)) with flags in *.
      assert (own_slot db name k0 = Some (SFlag flag)) as Hold.
      { unfold own_slot. by rewrite Htable. }
      unfold toggle_record.
      destruct (incident_text iid imsg) as [reason|];
        unfold toggle_done; cbn [snd logAuditEvent apiKeys];
        (split; [reflexivity |]);
        (split; [intros t; by apply (tables_insert db name flags) |]);
        intros t k;
        [ change (own_slot (logAuditEvent ?a ?b ?d) t k)
            with (own_slot d t k) | ];
        rewrite (own_slot_insert db name flags) by done;
        (case_decide as Heq; [| by left]);
        destruct Heq as [-> ->]; right;
        (split; [done |]); (split; [done |]); left;
        eexists _, _; (split; [exact Hold |]); (split; [reflexivity |]);
        by repeat split.
    - (* a member stored before *)
      apply read_Own_inv in Hr.
      destruct table as [flags|];
        [| cbn [default from_option] in Hr; by rewrite lookup_empty in Hr].
      change (default ∅ (Some flags)) with flags in *.
      assert (own_slot db name k0 = Some SMember) as Hold.
      { unfold own_slot. by rewrite Htable. }
      unfold toggle_member.
      destruct (incident_text iid imsg) as [reason|];
        unfold toggle_done; cbn [snd logAuditEvent apiKeys];
        destruct (String.eqb k0 "__proto__");
        (split; [reflexivity |]); try (split; [done |]; by left).
      split; [intros t; by apply (tables_insert db name flags) |].
      intros t k. left.
      change (own_slot (logAuditEvent ?a ?b ?d) t k) with (own_slot d t k).
      change (own_slot (with_featureFlags ?f (with_builtinsWritten ?w
                (with_memberProps ?m db))) t k)
        with (own_slot (with_featureFlags f db) t k).
      cbn [with_builtinsWritten with_memberProps featureFlags].
      rewrite (own_slot_insert db name flags) by done.
      case_decide as Heq; [| done]. destruct Heq as [-> ->]. by rewrite Hold.
    - (* an inherited member *)
      apply read_Inherited_inv in Hr as [Hnone Hinh].
      assert (own_slot db name k0 = None) as Hold.
      { unfold own_slot. rewrite Htable. by destruct table. }
      unfold toggle_member.
      destruct (incident_text iid imsg) as [reason|];
        unfold toggle_done; cbn [snd logAuditEvent apiKeys];
        destruct table as [flags|]; destruct (String.eqb k0 "__proto__");
        (split; [reflexivity |]); try (split; [done |]; by left).
      split; [intros t; by apply (tables_insert db name flags) |].
      intros t k.
      change (own_slot (logAuditEvent ?a ?b ?d) t k) with (own_slot d t k).
      change (own_slot (with_featureFlags ?f (with_builtinsWritten ?w
                (with_memberProps ?m db))) t k)
        with (own_slot (with_featureFlags f db) t k).
      cbn [with_builtinsWritten with_memberProps featureFlags].
      rewrite (own_slot_insert db name flags) by done.
      case_decide as Heq; [| by left]. destruct Heq as [-> ->].
      right. split; [done |]. split; [done |]. right. by repeat split.
    - unfold flag_not_found.
      destruct (metadata_environment metadata); cbn [snd];
        (split; [reflexivity |]); (split; [done |]); by left. }
  destruct (read (featureFlags db) name) as [table| |] eqn:Hr.
  - apply read_Own_inv in Hr. apply (Hon (Some table) Hr).
  - destruct (builtin_property amb name k0);
      unfold flag_not_found, toggle_builtin, toggle_done;
      repeat case_match; cbn [snd];
      (split; [reflexivity |]); (split; [done |]); by left.
  - apply read_Absent_inv in Hr as [Hr _]. apply (Hon None Hr).
Qed.

(** The same for the whole route. *)
Lemma webhook_slots amb req db :
  apiKeys (webhook amb req db).2 = apiKeys db
  /\ (forall t, is_Some (featureFlags (webhook amb req db).2 !! t)
                <-> is_Some (featureFlags db !! t))
  /\ forall t k,
       own_slot (webhook amb req db).2 t k = own_slot db t k
       \/ (exists fk,
             body req !! "flag_key" = Some fk /\ to_string fk = Some k
             /\ passes_validation (body req)
             /\ ((exists flag flag',
                    own_slot db t k = Some (SFlag flag)
                    /\ own_slot (webhook amb req db).2 t k = Some (SFlag flag')
                    /\ kept flag flag')
                 \/ (inherited k = true /\ own_slot db t k = None
                     /\ own_slot (webhook amb req db).2 t k = Some SMember))).
Proof.
  destruct (webhook_outcomes amb req db)
    as [(msg & _ & [-> | (k0 & ->)]) | [(n & _ & ->)
       | (customer & fk & en & iid & imsg & _ & Hpass & Hfk & Tfk & _ & _ & _
            & ->)]];
    try (split; [reflexivity |]; split; [done |]; intros; by left).
  destruct (rollback_slots amb customer (logRequest amb req) fk en iid imsg
              (default (JObj ∅) (body req !! "metadata")) db)
    as (Hkeys & Htables & Hslots).
  destruct (rollback amb customer (logRequest amb req) fk en iid imsg
              (default (JObj ∅) (body req !! "metadata")) db)
    as [[resp|exn] db1]; cbn [snd] in *.
  - split; [done |]. split; [done |]. intros t k.
    destruct (Hslots t k) as [H | (_ & Hk & H)]; [by left |].
    right. by exists fk.
  - split; [done |]. split; [done |]. intros t k.
    change (own_slot (handler_catch ?a ?r ?c ?i ?e db1).2 t k)
      with (own_slot db1 t k).
    destruct (Hslots t k) as [H | (_ & Hk & H)]; [by left |].
    right. by exists fk.
Qed.

Lemma webhook_apiKeys amb req db :
  apiKeys (webhook amb req db).2 = apiKeys db.
Proof. apply webhook_slots. Qed.

(** X2 (the flag set is fixed).  No request, valid or not, creates,
    deletes or renames a flag record or touches the API keys: after any
    request every tenant has the records it had, each with its [id],
    [key], [environment], [description] and [created_at].  The one
    property a request can add to a table is an own property named like
    a member of [Object.prototype], holding that member.
    The database is [pristine]: no earlier request has written on
    [Object.prototype]. *)
Theorem webhook_preserves_flag_set amb req db :
  pristine db ->
  apiKeys (webhook amb req db).2 = apiKeys db
  /\ (forall t, is_Some (featureFlags (webhook amb req db).2 !! t)
                <-> is_Some (featureFlags db !! t))
  /\ (forall t k flag,
        lookup_flag db t k = Some flag ->
        exists flag',
          lookup_flag (webhook amb req db).2 t k = Some flag'
          /\ kept flag flag')
  /\ (forall t k flag',
        lookup_flag (webhook amb req db).2 t k = Some flag' ->
        exists flag, lookup_flag db t k = Some flag /\ kept flag flag')
  /\ (forall t k,
        own_slot db t k = None ->
        own_slot (webhook amb req db).2 t k <> None ->
        inherited k = true
        /\ own_slot (webhook amb req db).2 t k = Some SMember).
Proof.
  intros _.
  destruct (webhook_slots amb req db) as (Hkeys & Htables & Hslots).
  split; [done |]. split; [done |].
  assert (forall f : Flag, kept f f) as Hrefl by (by intros f; repeat split).
  split; [| split].
  - intros t k flag Hflag. unfold lookup_flag in *.
    destruct (Hslots t k)
      as [-> | (fk & _ & _ & _ & [(f & f' & Ho & -> & Hkept)
                                  | (_ & Ho & _)])].
    + exists flag. by split.
    + rewrite Ho in Hflag. injection Hflag as ->. by exists f'.
    + by rewrite Ho in Hflag.
  - intros t k flag' Hflag. unfold lookup_flag in *.
    destruct (Hslots t k)
      as [<- | (fk & _ & _ & _ & [(f & f' & -> & Hn & Hkept)
                                  | (_ & _ & Hn)])].
    + exists flag'. by split.
    + rewrite Hn in Hflag. injection Hflag as ->. by exists f.
    + by rewrite Hn in Hflag.
  - intros t k Hold Hnew.
    destruct (Hslots t k)
      as [H | (fk & _ & _ & _ & [(f & f' & Ho & _) | (Hinh & _ & Hn)])].
    + congruence.
    + congruence.
    + done.
Qed.

Lemma metadata_null_iff (b : gmap string jsval) :
  default (JObj ∅) (b !! "metadata") = JNull <-> b !! "metadata" = Some JNull.
Proof.
  destruct (b !! "metadata") as [m|]; cbn; split; congruence.
Qed.

Lemma asks_unique b fk k en iid imsg reason fk' k' en' iid' imsg' reason' :
  asks b fk k en iid imsg reason ->
  asks b fk' k' en' iid' imsg' reason' ->
  fk' = fk /\ k' = k /\ en' = en /\ iid' = iid /\ imsg' = imsg
  /\ reason' = reason.
Proof.
  intros (Hfk & _ & Hen & Hiid & _ & Himsg & _ & _ & Hk & Hreason)
         (Hfk' & _ & Hen' & Hiid' & _ & Himsg' & _ & _ & Hk' & Hreason').
  assert (fk' = fk) as -> by congruence.
  assert (iid' = iid) as -> by congruence.
  assert (imsg' = imsg) as -> by congruence.
  repeat split; congruence.
Qed.

(** X3 (when the handler answers 500 to a well-typed request).  For an
    authenticated tenant whose flag table is its own, and a request whose
    flag key and incident fields are strings (or other values that can be
    turned into text), the answer is 500 exactly when the request passes
    the four checks, names a key that is no property of the tenant's
    table, own or inherited, and carries [metadata: null]; the body then
    has the fixed generic error text and the request's [flag_key], the
    flags are untouched, and the log ends with the [WEBHOOK_ERROR]
    entry.
    The database is [pristine]: no earlier request has written on
    [Object.prototype]. *)
Theorem internal_error_iff amb req db tenant :
  pristine db ->
  authenticated req db tenant ->
  plain_tenant db tenant ->
  renders (body req) = true ->
  (status (webhook amb req db).1 = 500%Z <->
     exists fk k,
       passes_validation (body req)
       /\ body req !! "flag_key" = Some fk /\ to_string fk = Some k
       /\ own_slot db tenant k = None /\ inherited k = false
       /\ body req !! "metadata" = Some JNull)
  /\ (status (webhook amb req db).1 = 500%Z ->
      error (json (webhook amb req db).1)
      = Some "Internal server error. Please contact support."
      /\ success (json (webhook amb req db).1) = false
      /\ r_flag_key (json (webhook amb req db).1) = body req !! "flag_key"
      /\ featureFlags (webhook amb req db).2 = featureFlags db
      /\ memberProps (webhook amb req db).2 = memberProps db
      /\ last (auditLog (webhook amb req db).2)
         = Some {| timestamp := iso_audit_catch amb;
                   event :=
                     WEBHOOK_ERROR (Tenant tenant)
                       (TypeError_read_of_null "environment")
                       (logRequest amb req)
                       (now_end amb - now_start amb) |}).
Proof.
  intros _ Ha Hplain Hr.
  destruct (first_failed_check (body req)) as [n|] eqn:Hn.
  { destruct (webhook_authenticated amb req db tenant Ha) as (token & ->).
    unfold handler. rewrite (handler_try_invalid _ _ _ _ _ n Hn).
    cbn [fst status bad_request]. split; [split |]; try discriminate.
    intros (_ & _ & Hv & _). unfold passes_validation in Hv. congruence. }
  destruct (valid_request_asks _ Hn Hr)
    as (fk & k & en & iid & imsg & reason & Hasks).
  pose proof Hasks as (Hfk & Tfk & Hen & Hiid & Tiid & Himsg & Timsg & Hsrc
                       & Hk & Hreason).
  destruct (own_slot db tenant k) as [[flag|]|] eqn:Hslot.
  - (* a record *)
    destruct (webhook_toggles amb req db tenant fk k en iid imsg reason flag
                Ha Hasks) as (flags & _ & _ & ->).
    { unfold lookup_flag. by rewrite Hslot. }
    cbn [fst status]. split; [split |]; try discriminate.
    intros (fk' & k' & _ & Hfk' & Hk' & Hnone & _).
    assert (fk' = fk) as -> by congruence.
    assert (k' = k) as -> by congruence. congruence.
  - (* a member stored in the table *)
    destruct (webhook_authenticated amb req db tenant Ha) as (token & ->).
    unfold handler.
    rewrite (handler_try_valid _ _ _ _ _ fk en iid imsg) by assumption.
    destruct (rollback_member amb
                {| cust_id := Tenant tenant; cust_apiKey := token |}
                (logRequest amb req) fk en iid imsg
                (default (JObj ∅) (body req !! "metadata")) db k reason)
      as (db1 & -> & _); try assumption.
    { by apply plain_tenant_read. }
    { left. cbn [cust_id customer_text]. by rewrite <- own_slot_default. }
    unfold toggle_done. cbn [fst status].
    split; [split |]; try discriminate.
    intros (fk' & k' & _ & Hfk' & Hk' & Hnone & _).
    assert (fk' = fk) as -> by congruence.
    assert (k' = k) as -> by congruence. congruence.
  - destruct (inherited k) eqn:Hinh.
    + (* an inherited member *)
      destruct (webhook_authenticated amb req db tenant Ha) as (token & ->).
      unfold handler.
      rewrite (handler_try_valid _ _ _ _ _ fk en iid imsg) by assumption.
      destruct (rollback_member amb
                  {| cust_id := Tenant tenant; cust_apiKey := token |}
                  (logRequest amb req) fk en iid imsg
                  (default (JObj ∅) (body req !! "metadata")) db k reason)
        as (db1 & -> & _); try assumption.
      { by apply plain_tenant_read. }
      { right. cbn [cust_id customer_text]. by rewrite <- own_slot_default. }
      unfold toggle_done. cbn [fst status].
      split; [split |]; try discriminate.
      intros (fk' & k' & _ & Hfk' & Hk' & _ & Hord & _).
      assert (fk' = fk) as -> by congruence.
      assert (k' = k) as -> by congruence. congruence.
    + (* nothing under the key *)
      destruct (webhook_not_found amb req db tenant fk k en iid imsg)
        as (token & ->); try assumption.
      cbv zeta.
      destruct (metadata_environment _) as [exn|env] eqn:Hm.
      * assert (default (JObj ∅) (body req !! "metadata") = JNull
                /\ exn = TypeError_read_of_null "environment") as [Hnull ->].
        { revert Hm. destruct (default (JObj ∅) (body req !! "metadata"));
            intros [= <-] || discriminate. done. }
        apply metadata_null_iff in Hnull.
        unfold handler_catch.
        cbn [fst snd status json error success r_flag_key cust_id].
        split; [split; [intros _ | done] |].
        -- exists fk, k. done.
        -- intros _. rewrite Hfk. unfold or_else. rewrite Tfk.
           repeat split.
           rewrite logAuditEvent_auditLog. apply (last_slice_last_snoc 999).
      * cbn [fst status]. split; [split |]; try discriminate.
        intros (fk' & k' & _ & _ & _ & _ & _ & Hnull).
        apply metadata_null_iff in Hnull. rewrite Hnull in Hm. discriminate.
Qed.

Lemma elem_of_logAuditEvent t ev db e :
  e ∈ auditLog (logAuditEvent t ev db) ->
  e ∈ auditLog db \/ e = {| timestamp := t; event := ev |}.
Proof.
  rewrite logAuditEvent_auditLog. intros He.
  apply elem_of_slice_last, elem_of_app in He as [He | He]; [by left |].
  right. by apply list_elem_of_singleton in He.
Qed.

Lemma logRequest_header amb req h :
  x_request_id req = Some h -> h <> "" -> logRequest amb req = h.
Proof.
  intros Hh Hne. unfold logRequest. rewrite Hh.
  apply String.eqb_neq in Hne. by rewrite Hne.
Qed.

(** X4 (the response and the audit trail agree).  When a response says
    [success:true], the log ends with the [FLAG_TOGGLED] entry of that
    request, carrying the states the response reports and the request id
    (the [X-PathCanary-Request-ID] header when it is non-empty).  A
    response with [success:false] adds no [FLAG_TOGGLED] entry and,
    unless its status is 500, leaves every table and every member of
    [Object.prototype] as it was.
    The database is [pristine]: no earlier request has written on
    [Object.prototype]. *)
Theorem toggled_entry_iff_success amb req db :
  pristine db ->
  (success (json (webhook amb req db).1) = true ->
     exists customer fk flag_id en iid imsg,
       body req !! "flag_key" = Some fk
       /\ body req !! "enabled" = Some (JBool en)
       /\ new_state (json (webhook amb req db).1) = Some en
       /\ last (auditLog (webhook amb req db).2)
          = Some {| timestamp := iso_audit amb;
                    event :=
                      FLAG_TOGGLED customer fk flag_id
                        (previous_state (json (webhook amb req db).1)) en
                        iid imsg (logRequest amb req)
                        (default (JObj ∅) (body req !! "metadata")) |})
  /\ (success (json (webhook amb req db).1) = false ->
      (forall e, e ∈ auditLog (webhook amb req db).2 ->
                 is_flag_toggled e = true -> e ∈ auditLog db)
      /\ (status (webhook amb req db).1 <> 500%Z ->
          featureFlags (webhook amb req db).2 = featureFlags db
          /\ memberProps (webhook amb req db).2 = memberProps db
          /\ builtinsWritten (webhook amb req db).2 = builtinsWritten db))
  /\ (forall h, x_request_id req = Some h -> h <> "" ->
                logRequest amb req = h).
Proof.
  intros _.
  split; [| split; [| apply logRequest_header]].
  - destruct (webhook_outcomes amb req db)
      as [(msg & -> & _) | [(n & _ & ->)
         | (customer & fk & en & iid & imsg & _ & _ & Hfk & Tfk & Hen & _ & _
              & ->)]]; [discriminate | discriminate |].
    set (rid := logRequest amb req).
    set (metadata := default (JObj ∅) (body req !! "metadata")).
    destruct (rollback_cases amb customer rid fk en iid imsg metadata db)
      as [(exn & ->) | [(k & Hk & ->)
         | [(fid & prev & env & upd & db1 & -> & _) | (db1 & -> & _)]]];
      try discriminate.
    + destruct (flag_not_found_cases amb customer rid fk k iid metadata db)
        as [(_ & ->) | (_ & r & -> & _ & Hs & _)]; [discriminate |].
      cbn [fst]. congruence.
    + intros _. exists (cust_id customer), fk, fid, en, iid, imsg.
      unfold toggle_done.
      cbn [fst snd json previous_state new_state].
      repeat (split; [done |]).
      rewrite logAuditEvent_auditLog. apply (last_slice_last_snoc 999).
  - destruct (webhook_outcomes amb req db)
      as [(msg & Hresp & [-> | (k & ->)]) | [(n & _ & ->)
         | (customer & fk & en & iid & imsg & _ & _ & Hfk & Tfk & Hen & _ & _
              & ->)]].
    + intros _. by split.
    + intros _. split; [| done].
      intros e He Ht.
      apply elem_of_logAuditEvent in He as [He | ->]; [done | discriminate].
    + intros _. by split.
    + set (rid := logRequest amb req).
      set (metadata := default (JObj ∅) (body req !! "metadata")).
      assert (forall exn db1,
                auditLog db1 = auditLog db ->
                (forall e,
                   e ∈ auditLog (handler_catch amb req customer rid exn db1).2 ->
                   is_flag_toggled e = true -> e ∈ auditLog db)
                /\ (status (handler_catch amb req customer rid exn db1).1
                    <> 500%Z ->
                    featureFlags (handler_catch amb req customer rid exn db1).2
                    = featureFlags db
                    /\ memberProps (handler_catch amb req customer rid exn db1).2
                       = memberProps db
                    /\ builtinsWritten
                         (handler_catch amb req customer rid exn db1).2
                       = builtinsWritten db)) as Hcatch.
      { intros exn db1 Hlog. split; [| done].
        intros e He Ht. unfold handler_catch in He. cbn [snd] in He.
        apply elem_of_logAuditEvent in He as [He | ->]; [| discriminate].
        by rewrite <- Hlog. }
      destruct (rollback_cases amb customer rid fk en iid imsg metadata db)
        as [(exn & ->) | [(k & Hk & ->)
           | [(fid & prev & env & upd & db1 & -> & _)
             | (db1 & -> & _ & Hlog & _)]]].
      * intros _. by apply Hcatch.
      * destruct (flag_not_found_cases amb customer rid fk k iid metadata db)
          as [(_ & ->) | (_ & r & -> & _)].
        -- intros _. split; [| done].
           intros e He Ht. unfold handler_catch in He. cbn [snd] in He.
           apply elem_of_logAuditEvent in He as [He | ->]; [| discriminate].
           apply elem_of_logAuditEvent in He as [He | ->];
             [done | discriminate].
        -- intros _. cbn [snd]. split; [| done].
           intros e He Ht.
           apply elem_of_logAuditEvent in He as [He | ->];
             [done | discriminate].
      * discriminate.
      * intros _. by apply Hcatch.
Qed.

(** X5 (a set, and the last writer wins).  Of two consecutive valid
    requests of one tenant that name the same existing flag, with flag
    keys and incident fields that can be turned into text, the second
    reports the first one's target as [previous_state] and its own as
    [new_state], and the flag ends at the second target, whatever the
    first was. *)
Theorem last_writer_wins amb1 amb2 req1 req2 db tenant fk1 fk2 k v1 v2 flag :
  authenticated req1 db tenant ->
  authenticated req2 db tenant ->
  passes_validation (body req1) ->
  passes_validation (body req2) ->
  renders (body req1) = true ->
  renders (body req2) = true ->
  body req1 !! "flag_key" = Some fk1 ->
  body req2 !! "flag_key" = Some fk2 ->
  to_string fk1 = Some k ->
  to_string fk2 = Some k ->
  body req1 !! "enabled" = Some (JBool v1) ->
  body req2 !! "enabled" = Some (JBool v2) ->
  lookup_flag db tenant k = Some flag ->
  success (json (webhook amb2 req2 (webhook amb1 req1 db).2).1) = true
  /\ previous_state (json (webhook amb2 req2 (webhook amb1 req1 db).2).1)
     = Some v1
  /\ new_state (json (webhook amb2 req2 (webhook amb1 req1 db).2).1)
     = Some v2
  /\ enabled <$> lookup_flag (webhook amb2 req2 (webhook amb1 req1 db).2).2
                   tenant k = Some v2.
Proof.
  intros Ha1 Ha2 Hv1 Hv2 Hr1 Hr2 Hfk1 Hfk2 Hk1 Hk2 Hen1 Hen2 Hflag.
  destruct (valid_request_asks _ Hv1 Hr1)
    as (fk1' & k1 & en1 & iid1 & imsg1 & reason1 & Hasks1).
  destruct (valid_request_asks _ Hv2 Hr2)
    as (fk2' & k2 & en2 & iid2 & imsg2 & reason2 & Hasks2).
  pose proof Hasks1 as (Hfk1' & _ & Hen1' & _ & _ & _ & _ & _ & Hk1' & _).
  pose proof Hasks2 as (Hfk2' & _ & Hen2' & _ & _ & _ & _ & _ & Hk2' & _).
  assert (fk1' = fk1) as -> by congruence.
  assert (fk2' = fk2) as -> by congruence.
  assert (k1 = k) as -> by congruence.
  assert (k2 = k) as -> by congruence.
  assert (en1 = v1) as -> by congruence.
  assert (en2 = v2) as -> by congruence.
  destruct (webhook_toggles amb1 req1 db tenant fk1 k v1 iid1 imsg1 reason1
              flag Ha1 Hasks1 Hflag) as (flags & Hflags & Hslot & ->).
  cbn [snd].
  set (flag1 := toggled flag v1 (iso_update amb1) reason1).
  set (db1 := logAuditEvent _ _ _).
  assert (lookup_flag db1 tenant k = Some flag1) as Hflag1.
  { unfold lookup_flag, db1.
    change (own_slot (logAuditEvent ?a ?b ?d) tenant k)
      with (own_slot d tenant k).
    rewrite (own_slot_insert db tenant flags) by done.
    by rewrite decide_True. }
  assert (authenticated req2 db1 tenant) as Ha2'.
  { by apply (authenticated_apiKeys req2 db). }
  destruct (webhook_toggles amb2 req2 db1 tenant fk2 k v2 iid2 imsg2 reason2
              flag1 Ha2' Hasks2 Hflag1) as (flags1 & Hflags1 & Hslot1 & ->).
  cbn [fst snd json success previous_state new_state].
  repeat (split; [reflexivity |]).
  unfold lookup_flag.
  change (own_slot (logAuditEvent ?a ?b ?d) tenant k)
    with (own_slot d tenant k).
  rewrite (own_slot_insert db1 tenant flags1) by done.
  by rewrite decide_True.
Qed.

(** After the toggle of one flag record, every record reads as before
    but that one, which reads as toggled. *)
Lemma lookup_flag_after_toggle amb req db tenant fk k en iid imsg reason flag
    t k' :
  authenticated req db tenant ->
  asks (body req) fk k en iid imsg reason ->
  lookup_flag db tenant k = Some flag ->
  lookup_flag (webhook amb req db).2 t k'
  = if decide (t = tenant /\ k' = k)
    then Some (toggled flag en (iso_update amb) reason)
    else lookup_flag db t k'.
Proof.
  intros Ha Hasks Hflag.
  destruct (webhook_toggles amb req db tenant fk k en iid imsg reason flag
              Ha Hasks Hflag) as (flags & Hflags & Hslot & ->).
  cbn [snd]. unfold lookup_flag.
  change (own_slot (logAuditEvent ?a ?b ?d) t k') with (own_slot d t k').
  rewrite (own_slot_insert db tenant flags) by done.
  by case_decide.
Qed.

(** The answer to the toggle of a flag record depends on the database
    only through that record's [id], [enabled] and [environment]. *)
Lemma toggle_answer amb amb' req db db' tenant fk k en iid imsg reason flag :
  authenticated req db tenant ->
  authenticated req db' tenant ->
  asks (body req) fk k en iid imsg reason ->
  lookup_flag db tenant k = Some flag ->
  lookup_flag db' tenant k = Some flag ->
  same_answer (webhook amb req db).1 (webhook amb' req db').1.
Proof.
  intros Ha Ha' Hasks Hflag Hflag'.
  destruct (webhook_toggles amb req db tenant fk k en iid imsg reason flag
              Ha Hasks Hflag) as (flags & _ & _ & ->).
  destruct (webhook_toggles amb' req db' tenant fk k en iid imsg reason flag
              Ha' Hasks Hflag') as (flags' & _ & _ & ->).
  by repeat split.
Qed.

(** X6 (toggles of different flags commute, up to the clock).  Two
    valid requests for two different existing flags (of one tenant or of
    two), with flag keys and incident fields that can be turned into
    text, are served in one order at the clock readings [a1], [a2] and in
    the other order at [b2], [b1].  Each request gets the same status,
    [success], [flag_key], states and [error] in either order, and every
    flag ends with the same fields in either order but for its
    [updated_at]. *)
Theorem toggles_commute a1 a2 b1 b2 req1 req2 db t1 t2 fk1 fk2 k1 k2
    flag1 flag2 :
  authenticated req1 db t1 ->
  authenticated req2 db t2 ->
  passes_validation (body req1) ->
  passes_validation (body req2) ->
  renders (body req1) = true ->
  renders (body req2) = true ->
  body req1 !! "flag_key" = Some fk1 ->
  body req2 !! "flag_key" = Some fk2 ->
  to_string fk1 = Some k1 ->
  to_string fk2 = Some k2 ->
  lookup_flag db t1 k1 = Some flag1 ->
  lookup_flag db t2 k2 = Some flag2 ->
  (t1, k1) <> (t2, k2) ->
  same_answer (webhook a1 req1 db).1
    (webhook b1 req1 (webhook b2 req2 db).2).1
  /\ same_answer (webhook b2 req2 db).1
       (webhook a2 req2 (webhook a1 req1 db).2).1
  /\ forall t k,
       match lookup_flag (webhook a2 req2 (webhook a1 req1 db).2).2 t k,
             lookup_flag (webhook b1 req1 (webhook b2 req2 db).2).2 t k with
       | Some flag, Some flag' => same_settings flag flag'
       | None, None => True
       | _, _ => False
       end.
Proof.
  intros Ha1 Ha2 Hv1 Hv2 Hr1 Hr2 Hfk1 Hfk2 Hk1 Hk2 Hflag1 Hflag2 Hne.
  destruct (valid_request_asks _ Hv1 Hr1)
    as (fk1' & k1' & en1 & iid1 & imsg1 & reason1 & Hasks1).
  destruct (valid_request_asks _ Hv2 Hr2)
    as (fk2' & k2' & en2 & iid2 & imsg2 & reason2 & Hasks2).
  pose proof Hasks1 as (Hfk1' & _ & _ & _ & _ & _ & _ & _ & Hk1' & _).
  pose proof Hasks2 as (Hfk2' & _ & _ & _ & _ & _ & _ & _ & Hk2' & _).
  assert (fk1' = fk1) as -> by congruence.
  assert (fk2' = fk2) as -> by congruence.
  assert (k1' = k1) as -> by congruence.
  assert (k2' = k2) as -> by congruence.
  assert (forall amb, apiKeys (webhook amb req1 db).2 = apiKeys db) as K1
    by (intros; apply webhook_apiKeys).
  assert (forall amb, apiKeys (webhook amb req2 db).2 = apiKeys db) as K2
    by (intros; apply webhook_apiKeys).
  assert (forall amb, lookup_flag (webhook amb req1 db).2 t2 k2 = Some flag2)
    as Hafter1.
  { intros amb.
    rewrite (lookup_flag_after_toggle amb req1 db t1 fk1 k1 en1 iid1 imsg1
               reason1 flag1) by assumption.
    rewrite decide_False; [done |]. intros [-> ->]. by apply Hne. }
  assert (forall amb, lookup_flag (webhook amb req2 db).2 t1 k1 = Some flag1)
    as Hafter2.
  { intros amb.
    rewrite (lookup_flag_after_toggle amb req2 db t2 fk2 k2 en2 iid2 imsg2
               reason2 flag2) by assumption.
    rewrite decide_False; [done |]. intros [-> ->]. by apply Hne. }
  split; [| split].
  - apply (toggle_answer a1 b1 req1 db _ t1 fk1 k1 en1 iid1 imsg1 reason1
             flag1); try assumption.
    + by apply (authenticated_apiKeys req1 db).
    + apply Hafter2.
  - apply (toggle_answer b2 a2 req2 db _ t2 fk2 k2 en2 iid2 imsg2 reason2
             flag2); try assumption.
    + by apply (authenticated_apiKeys req2 db).
    + apply Hafter1.
  - intros t k.
    rewrite (lookup_flag_after_toggle a2 req2 (webhook a1 req1 db).2 t2 fk2 k2
               en2 iid2 imsg2 reason2 flag2);
      [| by apply (authenticated_apiKeys req2 db) | done | apply Hafter1].
    rewrite (lookup_flag_after_toggle b1 req1 (webhook b2 req2 db).2 t1 fk1 k1
               en1 iid1 imsg1 reason1 flag1);
      [| by apply (authenticated_apiKeys req1 db) | done | apply Hafter2].
    rewrite (lookup_flag_after_toggle a1 req1 db t1 fk1 k1 en1 iid1 imsg1
               reason1 flag1) by assumption.
    rewrite (lookup_flag_after_toggle b2 req2 db t2 fk2 k2 en2 iid2 imsg2
               reason2 flag2) by assumption.
    destruct (decide (t = t2 /\ k = k2)) as [[E3 E4]|H2];
      destruct (decide (t = t1 /\ k = k1)) as [[E1 E2]|H1].
    + exfalso. apply Hne. congruence.
    + by repeat split.
    + by repeat split.
    + destruct (lookup_flag db t k); [by repeat split | done].
Qed.

(** X20 (an incident that cannot be turned into text).  When a valid
    request of an authenticated tenant names an existing flag but its
    [incident_id] or [incident_message] cannot be converted to a string,
    the template of [update_reason] throws after the first three
    assignments: the answer is 500 with the generic error, the log ends
    with the [WEBHOOK_ERROR] entry and gains no [FLAG_TOGGLED] entry, and
    yet the record is left with the requested [enabled], the new
    [updated_at] and [updated_by], its [update_reason] unchanged. *)
Theorem unprintable_incident_half_update amb req db tenant fk k en iid imsg
    flag :
  authenticated req db tenant ->
  passes_validation (body req) ->
  body req !! "flag_key" = Some fk ->
  body req !! "enabled" = Some (JBool en) ->
  body req !! "incident_id" = Some iid ->
  body req !! "incident_message" = Some imsg ->
  to_string fk = Some k ->
  incident_text iid imsg = None ->
  lookup_flag db tenant k = Some flag ->
  status (webhook amb req db).1 = 500%Z
  /\ success (json (webhook amb req db).1) = false
  /\ error (json (webhook amb req db).1)
     = Some "Internal server error. Please contact support."
  /\ last (auditLog (webhook amb req db).2)
     = Some {| timestamp := iso_audit_catch amb;
               event :=
                 WEBHOOK_ERROR (Tenant tenant) TypeError_to_primitive
                   (logRequest amb req) (now_end amb - now_start amb) |}
  /\ (forall e, e ∈ auditLog (webhook amb req db).2 ->
                is_flag_toggled e = true -> e ∈ auditLog db)
  /\ lookup_flag (webhook amb req db).2 tenant k
     = Some (stamped flag en (iso_update amb))
  /\ enabled (stamped flag en (iso_update amb)) = en
  /\ update_reason (stamped flag en (iso_update amb)) = update_reason flag.
Proof.
  intros Ha Hv Hfk Hen Hiid Himsg Hk Hreason Hflag.
  apply passes_validation_inv in Hv
    as (fk' & en' & iid' & imsg' & Hfk' & Tfk & Hen' & Hiid' & Tiid & Himsg'
          & Timsg & Hsrc).
  assert (fk' = fk) as -> by congruence.
  assert (en' = en) as -> by congruence.
  assert (iid' = iid) as -> by congruence.
  assert (imsg' = imsg) as -> by congruence.
  apply lookup_flag_Some in Hflag as (flags & Hflags & Hslot).
  destruct (webhook_authenticated amb req db tenant Ha) as (token & ->).
  unfold handler.
  rewrite (handler_try_valid _ _ _ _ _ fk en iid imsg) by assumption.
  unfold rollback. rewrite Hk. cbn [cust_id customer_text].
  rewrite (read_own _ _ _ Hflags).
  change (default ∅ (Some flags)) with flags.
  rewrite (read_own _ _ _ Hslot). unfold toggle_record. rewrite Hreason.
  unfold handler_catch.
  cbn [fst snd status json success error cust_id customer_text].
  repeat (split; [reflexivity |]). split; [| split; [| split]].
  - rewrite logAuditEvent_auditLog. apply (last_slice_last_snoc 999).
  - intros e He Ht.
    apply elem_of_logAuditEvent in He as [He | ->]; [done | discriminate].
  - unfold lookup_flag.
    change (own_slot (logAuditEvent ?a ?b ?d) tenant k)
      with (own_slot d tenant k).
    rewrite (own_slot_insert db tenant flags) by done.
    by rewrite decide_True.
  - done.
Qed.

(** X21 (a flag key that cannot be turned into text).  When the
    [flag_key] of a request that passes the four checks cannot be
    converted to a string, the lookup itself throws: the answer is 500
    with the generic error and the request's own [flag_key], and nothing
    changes but the log, which gains the [WEBHOOK_ERROR] entry. *)
Theorem unprintable_flag_key amb req db tenant fk :
  authenticated req db tenant ->
  passes_validation (body req) ->
  body req !! "flag_key" = Some fk ->
  to_string fk = None ->
  (webhook amb req db).1
  = {| status := 500;
       json :=
         {| success := false; r_flag_key := Some fk;
            previous_state := Some false; new_state := Some false;
            error := Some "Internal server error. Please contact support.";
            provider_metadata :=
              Some (MetaError (logRequest amb req)
                      (now_end amb - now_start amb)) |} |}
  /\ (webhook amb req db).2
     = logAuditEvent (iso_audit_catch amb)
         (WEBHOOK_ERROR (Tenant tenant) TypeError_to_primitive
            (logRequest amb req) (now_end amb - now_start amb)) db.
Proof.
  intros Ha Hv Hfk Hk.
  apply passes_validation_inv in Hv
    as (fk' & en & iid & imsg & Hfk' & Tfk & Hen & Hiid & Tiid & Himsg
          & Timsg & Hsrc).
  assert (fk' = fk) as -> by congruence.
  destruct (webhook_authenticated amb req db tenant Ha) as (token & ->).
  unfold handler.
  rewrite (handler_try_valid _ _ _ _ _ fk en iid imsg) by assumption.
  unfold rollback. rewrite Hk. unfold handler_catch. cbn [fst snd cust_id].
  rewrite Hfk. unfold or_else. by rewrite Tfk.
Qed.

(** X24 (an unknown flag under a plain key).  For an authenticated
    request that passes the validation, whose [metadata] is not [null]
    and whose flag key is the name of no property of the tenant's flag
    table, own or inherited, the answer is 200 with [success:false],
    both states [false] and the error text naming the key; the entry
    logged is [FLAG_NOT_FOUND], and the flags, the API keys and the
    members of [Object.prototype] are as before.
    The database is [pristine]: no earlier request has written on
    [Object.prototype]. *)
Theorem unknown_flag_plain_key amb req db tenant fk k :
  pristine db ->
  authenticated req db tenant ->
  passes_validation (body req) ->
  body req !! "flag_key" = Some fk ->
  to_string fk = Some k ->
  plain_tenant db tenant ->
  own_slot db tenant k = None ->
  inherited k = false ->
  body req !! "metadata" <> Some JNull ->
  status (webhook amb req db).1 = 200%Z
  /\ success (json (webhook amb req db).1) = false
  /\ r_flag_key (json (webhook amb req db).1) = Some fk
  /\ previous_state (json (webhook amb req db).1) = Some false
  /\ new_state (json (webhook amb req db).1) = Some false
  /\ error (json (webhook amb req db).1)
     = Some ("Feature flag '" ++ k ++ "' not found for customer " ++ tenant)
  /\ (exists e, error (json (webhook amb req db).1) = Some e /\ contains e k)
  /\ (exists iid,
        body req !! "incident_id" = Some iid
        /\ last (auditLog (webhook amb req db).2)
           = Some {| timestamp := iso_audit amb;
                     event := FLAG_NOT_FOUND (Tenant tenant) fk iid
                                (logRequest amb req) |})
  /\ featureFlags (webhook amb req db).2 = featureFlags db
  /\ apiKeys (webhook amb req db).2 = apiKeys db
  /\ memberProps (webhook amb req db).2 = memberProps db
  /\ builtinsWritten (webhook amb req db).2 = builtinsWritten db.
Proof.
  intros _ Ha Hv Hfk Hk Hplain Hnone Hinh Hmeta.
  destruct (passes_validation_inv _ Hv)
    as (fk' & en & iid & imsg & Hfk' & Tfk & Hen & Hiid & Tiid & Himsg
          & Timsg & Hsrc).
  assert (fk' = fk) as -> by congruence.
  destruct (webhook_not_found amb req db tenant fk k en iid imsg)
    as (token & Hw); try assumption.
  rewrite Hw. cbv zeta.
  assert (default (JObj ∅) (body req !! "metadata") <> JNull) as Hm
    by (by rewrite metadata_null_iff).
  destruct (default (JObj ∅) (body req !! "metadata")) as [| | | | |] eqn:Hd;
    try done;
    cbn [metadata_environment fst snd status json success r_flag_key
           previous_state new_state error];
    (repeat split; try done;
     [ eexists; split; [reflexivity |];
       by exists "Feature flag '", ("' not found for customer " ++ tenant)
     | exists iid; split; [exact Hiid |];
       rewrite logAuditEvent_auditLog; apply (last_slice_last_snoc 999) ]).
Qed.

(** X25 (the auth gate under a plain token).  A request with no
    [Authorization] header, with one that does not start with
    [Bearer ], or with a token that is the name of no property of the
    key table, own or inherited, is answered 401 with
    [{success:false, error}]; the flags, the API keys and the members of
    [Object.prototype] are as before, and no [FLAG_TOGGLED] entry is
    added to the audit log.
    The database is [pristine]: no earlier request has written on
    [Object.prototype]. *)
Theorem auth_gate_plain_token amb req db :
  pristine db ->
  authorization req = None
  \/ (exists h, authorization req = Some h
                /\ String.prefix "Bearer " h = false)
  \/ (exists token,
        authorization req = Some ("Bearer " ++ token)
        /\ (forall tenant, apiKeys db !! token = Some tenant -> tenant = "")
        /\ inherited token = false) ->
  status (webhook amb req db).1 = 401%Z
  /\ success (json (webhook amb req db).1) = false
  /\ (error (json (webhook amb req db).1) = Some missing_header_message
      \/ error (json (webhook amb req db).1) = Some "Invalid API key")
  /\ r_flag_key (json (webhook amb req db).1) = None
  /\ previous_state (json (webhook amb req db).1) = None
  /\ new_state (json (webhook amb req db).1) = None
  /\ provider_metadata (json (webhook amb req db).1) = None
  /\ featureFlags (webhook amb req db).2 = featureFlags db
  /\ apiKeys (webhook amb req db).2 = apiKeys db
  /\ memberProps (webhook amb req db).2 = memberProps db
  /\ builtinsWritten (webhook amb req db).2 = builtinsWritten db
  /\ forall e, e ∈ auditLog (webhook amb req db).2 ->
               is_flag_toggled e = true -> e ∈ auditLog db.
Proof.
  intros _ H. unfold webhook.
  assert (validateApiKey amb req db
          = (inl (unauthorized missing_header_message), db)
          \/ exists token,
               validateApiKey amb req db
               = (inl (unauthorized "Invalid API key"),
                  logAuditEvent (iso_audit amb)
                    (AUTH_FAILED (substring_to 10 token ++ "...")
                       (req_ip req) (user_agent_header req)) db)) as Hv.
  { destruct H as [H | [H | (token & Hh & Hnone & Hinh)]].
    - left. apply validateApiKey_no_bearer. by left.
    - left. apply validateApiKey_no_bearer. by right.
    - right. exists token. by apply validateApiKey_rejects. }
  destruct Hv as [-> | (token & ->)].
  - cbn. repeat split; eauto.
  - cbn [fst snd status json success error r_flag_key previous_state
           new_state provider_metadata unauthorized].
    repeat split; eauto.
    intros e He Ht. rewrite logAuditEvent_auditLog in He.
    apply elem_of_slice_last, elem_of_app in He as [He | He]; [exact He |].
    apply list_elem_of_singleton in He. subst e. discriminate.
Qed.



End WebhookInvariants.

(** ** The read routes *)

Section ReadRoutes.
Import Provider Props Routes.

Lemma slice_from_negative {A} (L : Z) (a : list A) :
  (1 <= L)%Z -> slice_from (- L) a = slice_last (Z.to_nat L) a.
Proof.
  intros HL. unfold slice_from, slice_last.
  destruct (Z.ltb_spec (- L) 0) as [_|]; [| lia].
  f_equal. lia.
Qed.

Lemma slice_from_positive {A} (n : Z) (a : list A) :
  (0 <= n)%Z -> slice_from n a = drop (Z.to_nat n) a.
Proof.
  intros Hn. unfold slice_from.
  destruct (Z.ltb_spec n 0) as [|_]; [lia |].
  destruct (decide (Z.to_nat n <= length a)) as [Hle|Hgt].
  - f_equal. lia.
  - rewrite !drop_ge; [done | lia | lia].
Qed.

Lemma reverse_slice_last {A} n (a : list A) :
  reverse (slice_last n a) = take n (reverse a).
Proof.
  unfold slice_last. rewrite reverse_drop.
  destruct (decide (n <= length a)) as [Hle|Hgt].
  - f_equal. lia.
  - replace (length a - n) with 0 by lia. rewrite Nat.sub_0_r.
    rewrite !take_ge; [done | | ]; rewrite length_reverse; lia.
Qed.

Lemma last_filter_keeps {A} (P : A -> Prop) `{!forall x, Decision (P x)}
    (l : list A) x :
  last l = Some x -> P x -> last (filter P l) = Some x.
Proof.
  intros Hl Hx. apply last_Some in Hl as [l' ->].
  rewrite filter_app, filter_cons_True, filter_nil by done.
  apply last_snoc.
Qed.

Lemma last_slice_last {A} n (l : list A) x :
  last l = Some x -> last (slice_last (S n) l) = Some x.
Proof.
  intros Hl. apply last_Some in Hl as [l' ->]. apply last_slice_last_snoc.
Qed.

(** An entry is logged for the tenant exactly when its [customer_id] is
    the tenant's string. *)
Lemma logged_for_tenant tenant e :
  logged_for (Tenant tenant) e = true <-> entry_customer e = Some tenant.
Proof.
  unfold logged_for, entry_customer.
  destruct (entry_customer_id e) as [[id|name]|]; cbn; [| done | done].
  rewrite String.eqb_eq. split; congruence.
Qed.

(** The route handlers behind [validateApiKey], for a request that
    authenticates. *)
Lemma get_audit_log_authenticated amb req parsed db tenant :
  authenticated req db tenant ->
  get_audit_log amb req parsed db
  = (let logs :=
       reverse
         (slice_from (- effective_limit parsed)
            (filter (fun log => entry_customer log = Some tenant)
               (auditLog db))) in
     {| route_status := 200; route_body := BodyAuditLog logs (length logs) |},
     db).
Proof.
  intros Ha. destruct (validateApiKey_accepts amb req db tenant Ha)
    as (token & _ & Hv).
  unfold get_audit_log. rewrite Hv. cbn [cust_id]. cbv zeta.
  by rewrite (list_filter_iff _ (fun log => entry_customer log = Some tenant)
                (auditLog db) (logged_for_tenant tenant)).
Qed.

(** X7 (audit log, most recent first and capped).  For an authenticated
    tenant and a limit of at least 1, [GET /audit-log] returns the tenant's
    own entries only, newest first, at most [limit] of them, namely the
    most recent ones, with [count] their number; the database is not
    changed. *)
Theorem audit_log_recent_first amb req db tenant L :
  authenticated req db tenant ->
  (1 <= L)%Z ->
  exists logs,
    get_audit_log amb req (Some L) db
    = ({| route_status := 200;
          route_body := BodyAuditLog logs (length logs) |}, db)
    /\ logs = take (Z.to_nat L)
                (reverse (filter (fun log => entry_customer log = Some tenant)
                            (auditLog db)))
    /\ length logs <= Z.to_nat L
    /\ forall e, e ∈ logs -> entry_customer e = Some tenant /\ e ∈ auditLog db.
Proof.
  intros Ha HL. rewrite (get_audit_log_authenticated amb req _ db tenant Ha).
  cbv zeta. eexists. split; [reflexivity |].
  assert (effective_limit (Some L) = L) as ->.
  { unfold effective_limit. destruct (Z.eqb_spec L 0); [lia | done]. }
  rewrite slice_from_negative, reverse_slice_last by done.
  split; [reflexivity |]. split.
  - rewrite length_take. lia.
  - intros e He.
    assert (e ∈ reverse (filter (fun log => entry_customer log = Some tenant)
                           (auditLog db))) as He'.
    { rewrite <- (take_drop (Z.to_nat L) (reverse _)).
      apply elem_of_app. by left. }
    rewrite elem_of_reverse, list_elem_of_filter in He'. exact He'.
Qed.

(** X8 (audit log, the limits that do not cap).  A limit that is
    missing, not a number or 0 stands for 50.  A negative limit [-n] does
    not cap at all: the route returns all of the tenant's entries but the
    [n] oldest. *)
Theorem audit_log_limit_edges amb req db tenant :
  authenticated req db tenant ->
  (forall parsed,
     parsed = None \/ parsed = Some 0%Z ->
     get_audit_log amb req parsed db = get_audit_log amb req (Some 50%Z) db)
  /\ (forall n,
       (1 <= n)%Z ->
       exists logs,
         get_audit_log amb req (Some (- n)%Z) db
         = ({| route_status := 200;
               route_body := BodyAuditLog logs (length logs) |}, db)
         /\ logs = reverse
                     (drop (Z.to_nat n)
                        (filter (fun log => entry_customer log = Some tenant)
                           (auditLog db)))
         /\ length logs
            = length (filter (fun log => entry_customer log = Some tenant)
                        (auditLog db)) - Z.to_nat n).
Proof.
  intros Ha. split.
  - intros parsed [-> | ->];
      by rewrite !(get_audit_log_authenticated amb req _ db tenant Ha).
  - intros n Hn. rewrite (get_audit_log_authenticated amb req _ db tenant Ha).
    cbv zeta. eexists. split; [reflexivity |].
    assert (effective_limit (Some (- n)%Z) = (- n)%Z) as ->.
    { unfold effective_limit. destruct (Z.eqb_spec (- n) 0); [lia | done]. }
    rewrite Z.opp_involutive, slice_from_positive by lia.
    split; [reflexivity |]. by rewrite length_reverse, length_drop.
Qed.

(** X9 (a toggle shows first in the audit log).  After a successful
    toggle of an existing flag, asked for with a flag key and incident
    fields that can be turned into text, [GET /audit-log] by the same
    tenant, with any limit that is not negative, lists the
    [FLAG_TOGGLED] entry of that toggle first. *)
Theorem audit_log_after_toggle amb amb' req reader parsed db tenant fk k
    flag :
  authenticated req db tenant ->
  passes_validation (body req) ->
  renders (body req) = true ->
  body req !! "flag_key" = Some fk ->
  to_string fk = Some k ->
  lookup_flag db tenant k = Some flag ->
  authenticated reader db tenant ->
  (1 <= effective_limit parsed)%Z ->
  exists logs en iid imsg,
    get_audit_log amb' reader parsed (webhook amb req db).2
    = ({| route_status := 200;
          route_body := BodyAuditLog logs (length logs) |},
       (webhook amb req db).2)
    /\ body req !! "enabled" = Some (JBool en)
    /\ head logs
       = Some {| timestamp := iso_audit amb;
                 event :=
                   FLAG_TOGGLED (Tenant tenant) fk (Some (id flag))
                     (Some (enabled flag)) en iid imsg (logRequest amb req)
                     (default (JObj ∅) (body req !! "metadata")) |}.
Proof.
  intros Ha Hv Hr Hfk Hk Hflag Hrd HL.
  destruct (valid_request_asks _ Hv Hr)
    as (fk' & k' & en & iid & imsg & reason & Hasks).
  pose proof Hasks as (Hfk' & _ & Hen & _ & _ & _ & _ & _ & Hk' & _).
  assert (fk' = fk) as -> by congruence.
  assert (k' = k) as -> by congruence.
  assert (authenticated reader (webhook amb req db).2 tenant) as Hr'.
  { apply (authenticated_apiKeys reader db); [apply webhook_apiKeys | done]. }
  rewrite (get_audit_log_authenticated amb' reader _ _ tenant Hr').
  cbv zeta. eexists _, en, iid, imsg. split; [reflexivity |].
  split; [exact Hen |].
  destruct (webhook_toggles amb req db tenant fk k en iid imsg reason flag
              Ha Hasks Hflag) as (flags & _ & _ & ->).
  cbn [snd]. rewrite head_reverse, slice_from_negative by done.
  replace (Z.to_nat (effective_limit parsed))
    with (S (Z.to_nat (effective_limit parsed) - 1)) by lia.
  apply last_slice_last, last_filter_keeps; [| reflexivity].
  rewrite logAuditEvent_auditLog. apply (last_slice_last_snoc 999).
Qed.

Lemma get_flag_authenticated amb req k db tenant :
  authenticated req db tenant ->
  plain_tenant db tenant ->
  get_flag amb req k db
  = (match own_slot db tenant k with
     | Some (SFlag flag) =>
         {| route_status := 200; route_body := BodyFlag flag |}
     | Some SMember => {| route_status := 200; route_body := BodyMember k |}
     | None =>
         if inherited k
         then {| route_status := 200; route_body := BodyMember k |}
         else flag_missing k
     end, db).
Proof.
  intros Ha Hplain. destruct (validateApiKey_accepts amb req db tenant Ha)
    as (token & _ & Hv).
  unfold get_flag. rewrite Hv. cbn [cust_id customer_text]. cbv zeta.
  apply plain_tenant_read in Hplain.
  unfold own_slot. unfold read in *.
  destruct (featureFlags db !! tenant) as [table|]; cbn [mbind option_bind].
  - by destruct (table !! k) as [[flag|]|], (inherited k).
  - destruct (inherited tenant); [done |].
    rewrite lookup_empty. by destruct (inherited k).
Qed.

(** X10 (read your write).  After a successful toggle to [en] of an
    existing flag, asked for with a flag key and incident fields that can
    be turned into text, [GET /flags/<key>] by the same tenant returns
    the record with [enabled = en], stamped with the handler's time,
    [updated_by = pathcanary] and the incident as [update_reason];
    reading changes nothing. *)
Theorem get_flag_after_toggle amb amb' req reader db tenant fk k flag :
  authenticated req db tenant ->
  passes_validation (body req) ->
  renders (body req) = true ->
  body req !! "flag_key" = Some fk ->
  to_string fk = Some k ->
  lookup_flag db tenant k = Some flag ->
  authenticated reader db tenant ->
  exists flag' en iid imsg i m,
    get_flag amb' reader k (webhook amb req db).2
    = ({| route_status := 200; route_body := BodyFlag flag' |},
       (webhook amb req db).2)
    /\ body req !! "enabled" = Some (JBool en)
    /\ body req !! "incident_id" = Some iid
    /\ body req !! "incident_message" = Some imsg
    /\ to_string iid = Some i
    /\ to_string imsg = Some m
    /\ enabled flag' = en
    /\ updated_at flag' = iso_update amb
    /\ updated_by flag' = Some "pathcanary"
    /\ update_reason flag' = Some ("Incident " ++ i ++ ": " ++ m)
    /\ kept flag flag'.
Proof.
  intros Ha Hv Hr Hfk Hk Hflag Hrd.
  destruct (valid_request_asks _ Hv Hr)
    as (fk' & k' & en & iid & imsg & reason & Hasks).
  pose proof Hasks as (Hfk' & _ & Hen & Hiid & _ & Himsg & _ & _ & Hk'
                       & Hreason).
  assert (fk' = fk) as -> by congruence.
  assert (k' = k) as -> by congruence.
  assert (exists i m, to_string iid = Some i /\ to_string imsg = Some m
                      /\ reason = "Incident " ++ i ++ ": " ++ m)
    as (i & m & Hi & Hm & ->).
  { unfold incident_text in Hreason.
    destruct (to_string iid) as [i|]; [| discriminate].
    destruct (to_string imsg) as [m|]; [| discriminate].
    injection Hreason as <-. by exists i, m. }
  assert (authenticated reader (webhook amb req db).2 tenant) as Hr'.
  { apply (authenticated_apiKeys reader db); [apply webhook_apiKeys | done]. }
  pose proof (lookup_flag_after_toggle amb req db tenant fk k en iid imsg _
                flag tenant k Ha Hasks Hflag) as Hafter.
  rewrite decide_True in Hafter by done.
  rewrite (get_flag_authenticated amb' reader _ _ tenant Hr').
  2: { left. apply lookup_flag_Some in Hafter as (flags & -> & _). eauto. }
  unfold lookup_flag in Hafter.
  destruct (own_slot (webhook amb req db).2 tenant k) as [[f|]|];
    try discriminate.
  injection Hafter as ->.
  eexists _, en, iid, imsg, i, m. split; [reflexivity |].
  by repeat split.
Qed.

(** X11 (reads are scoped to the tenant).  [GET /flags/<key>] answers a
    request without a bearer token, or with a token that is no property
    of the key table, with 401 and no record.  For an authenticated
    tenant whose flag table is its own it answers with a record exactly
    when the tenant has one under that key, whatever other tenants have
    there, and with 404 naming the key when the key is no property of the
    tenant's table, own or inherited.  It never changes flags or API
    keys.
    The database is [pristine]: no earlier request has written on
    [Object.prototype]. *)
Theorem get_flag_scoped amb req k db :
  pristine db ->
  (authorization req = None
   \/ (exists h, authorization req = Some h
                 /\ String.prefix "Bearer " h = false)
   \/ (exists token, authorization req = Some ("Bearer " ++ token)
                     /\ apiKeys db !! token = None
                     /\ inherited token = false) ->
   route_status (get_flag amb req k db).1 = 401%Z
   /\ forall flag, route_body (get_flag amb req k db).1 <> BodyFlag flag)
  /\ (forall tenant,
        authenticated req db tenant ->
        plain_tenant db tenant ->
        (get_flag amb req k db).2 = db
        /\ (forall flag,
              route_body (get_flag amb req k db).1 = BodyFlag flag
              <-> lookup_flag db tenant k = Some flag)
        /\ (own_slot db tenant k = None -> inherited k = false ->
            (get_flag amb req k db).1
            = {| route_status := 404;
                 route_body := BodyError ("Flag '" ++ k ++ "' not found") |}))
  /\ featureFlags (get_flag amb req k db).2 = featureFlags db
  /\ apiKeys (get_flag amb req k db).2 = apiKeys db.
Proof.
  intros _.
  split; [| split].
  - intros Hno. unfold get_flag.
    destruct Hno as [Hn | [Hn | (token & Hh & Hk & Hord)]].
    + rewrite validateApiKey_no_bearer by auto.
      cbn. split; (reflexivity || discriminate).
    + rewrite validateApiKey_no_bearer by auto.
      cbn. split; (reflexivity || discriminate).
    + rewrite (validateApiKey_rejects amb req db token Hh); [| | done].
      * cbn. split; (reflexivity || discriminate).
      * intros tenant Ht. congruence.
  - intros tenant Ha Hplain.
    rewrite (get_flag_authenticated amb req k db tenant Ha Hplain).
    cbn [fst snd]. split; [reflexivity |]. split.
    + intros flag. unfold lookup_flag.
      destruct (own_slot db tenant k) as [[f|]|]; [| | destruct (inherited k)];
        cbn; split; congruence.
    + by intros -> ->.
  - unfold get_flag.
    destruct (validateApiKey amb req db) as [[resp|customer] db1] eqn:Hv.
    + destruct (validateApiKey_frame amb req db) as [H | (k0 & resp' & H)];
        rewrite Hv in H.
      * cbn [snd] in H |- *. by subst db1.
      * injection H as _ ->. done.
    + apply validateApiKey_inr in Hv as [-> _]. done.
Qed.

Lemma get_flags_authenticated amb req db tenant :
  authenticated req db tenant ->
  plain_tenant db tenant ->
  get_flags amb req db
  = (let values :=
       slot_value <$> map_to_list (default ∅ (featureFlags db !! tenant)) in
     {| route_status := 200;
        route_body := BodyFlags values (length values) |}, db).
Proof.
  intros Ha Hplain. destruct (validateApiKey_accepts amb req db tenant Ha)
    as (token & _ & Hv).
  unfold get_flags. rewrite Hv. cbn [cust_id customer_text]. cbv zeta.
  apply plain_tenant_read in Hplain. unfold read in *.
  destruct (featureFlags db !! tenant) as [table|]; [done |].
  destruct (inherited tenant); [done |].
  cbn [default from_option]. by rewrite map_to_list_empty.
Qed.

(** The number of own properties of a tenant's table. *)
Lemma size_table_after amb req db tenant :
  (forall fk k, body req !! "flag_key" = Some fk -> to_string fk = Some k ->
                inherited k = false) ->
  size (default ∅ (featureFlags (webhook amb req db).2 !! tenant))
  = size (default ∅ (featureFlags db !! tenant)).
Proof.
  intros Hord.
  destruct (webhook_slots amb req db) as (_ & Htables & Hslots).
  assert (dom (default ∅ (featureFlags (webhook amb req db).2 !! tenant))
          ≡@{gset string} dom (default ∅ (featureFlags db !! tenant))) as Hdom.
  { intros k. rewrite !elem_of_dom, <- !own_slot_default.
    destruct (Hslots tenant k)
      as [-> | (fk & Hfk & Hk & _ & [(f & f' & -> & -> & _)
                                     | (Hinh & _ & _)])].
    - done.
    - split; eauto.
    - rewrite (Hord fk k Hfk Hk) in Hinh. discriminate. }
  rewrite <- !size_dom. by rewrite Hdom.
Qed.

(** X12 (listing the flags).  For an authenticated tenant whose flag
    table is its own, [GET /flags] lists exactly the own properties of
    that table, the tenant's flag records among them, with [count] their
    number; and no webhook request changes that count, unless its flag
    key names a member of [Object.prototype].
    The database is [pristine]: no earlier request has written on
    [Object.prototype]. *)
Theorem get_flags_count amb req db tenant :
  pristine db ->
  authenticated req db tenant ->
  plain_tenant db tenant ->
  exists values,
    get_flags amb req db
    = ({| route_status := 200;
          route_body := BodyFlags values (length values) |}, db)
    /\ length values = size (default ∅ (featureFlags db !! tenant))
    /\ (forall flag,
          VFlag flag ∈ values <-> exists k, lookup_flag db tenant k = Some flag)
    /\ forall amb' req',
         (forall fk k, body req' !! "flag_key" = Some fk ->
                       to_string fk = Some k -> inherited k = false) ->
         listed_count (get_flags amb req (webhook amb' req' db).2).1
         = Some (length values).
Proof.
  intros _ Ha Hplain.
  rewrite (get_flags_authenticated amb req db tenant Ha Hplain). cbv zeta.
  eexists. split; [reflexivity |].
  rewrite length_fmap, length_map_to_list. split; [reflexivity |]. split.
  - intros flag. rewrite list_elem_of_fmap. split.
    + intros ([k s] & Hv & Hin). apply elem_of_map_to_list in Hin.
      exists k. unfold lookup_flag. rewrite own_slot_default, Hin.
      unfold slot_value in Hv. cbn [snd fst] in Hv.
      destruct s; [congruence | discriminate].
    + intros (k & Hk). unfold lookup_flag in Hk.
      rewrite own_slot_default in Hk.
      destruct (default ∅ (featureFlags db !! tenant) !! k) as [[f|]|] eqn:Hs;
        try discriminate.
      injection Hk as ->.
      exists (k, SFlag flag). split; [done |]. by apply elem_of_map_to_list.
  - intros amb' req' Hord.
    destruct (webhook_slots amb' req' db) as (Hkeys & Htables & _).
    rewrite (get_flags_authenticated amb req _ tenant).
    + cbv zeta. cbn [fst route_body listed_count]. f_equal.
      rewrite length_fmap, length_map_to_list.
      by apply size_table_after.
    + by apply (authenticated_apiKeys req db).
    + destruct Hplain as [Hsome | Hord']; [left | by right].
      by apply Htables.
Qed.

End ReadRoutes.

(** ** The client on every outcome *)

Section ClientOutcomes.
Import Client ClientProps ClientMore.

Lemma testToggleFlag_returns cfg o data :
  testToggleFlag cfg o = inr data <->
  exists status text,
    o = FetchResponded status text (inr data)
    /\ ok status = true /\ schema_ok data = true.
Proof.
  split.
  - unfold testToggleFlag.
    destruct o as [e | status text [e | data']]; [discriminate | |].
    + destruct (ok status); discriminate.
    + destruct (ok status) eqn:Hok; [| discriminate]. cbn [negb].
      destruct (validateResponse data') eqn:Hv; [discriminate |].
      intros [= ->]. exists status, text.
      by apply validateResponse_accepts in Hv.
  - intros (status & text & -> & Hok & Hs). unfold testToggleFlag.
    rewrite Hok. cbn [negb]. apply validateResponse_accepts in Hs.
    by rewrite Hs.
Qed.

(** X13 (what [testToggleFlag] returns and what it throws).  It returns
    a body only when the status is 2xx, the body parses and passes the
    schema, and then returns that body unchanged; a rejection named
    [AbortError] becomes the [Request timeout after <timeout>ms] error,
    which is never the error of a non-2xx status; any other rejection of
    [fetch] is rethrown as it is. *)
Theorem testToggleFlag_outcomes cfg o :
  (forall data,
     testToggleFlag cfg o = inr data <->
     exists status text,
       o = FetchResponded status text (inr data)
       /\ ok status = true /\ schema_ok data = true)
  /\ (forall e, o = FetchRejected e -> name e = "AbortError" ->
                testToggleFlag cfg o = inl (timeout_error cfg))
  /\ (forall e, o = FetchRejected e -> name e <> "AbortError" ->
                testToggleFlag cfg o = inl e)
  /\ (forall status text, timeout_error cfg <> transport_error status text).
Proof.
  split; [| split; [| split]].
  - intros data. apply testToggleFlag_returns.
  - intros e -> He. unfold testToggleFlag, rethrow, timeout_error.
    by rewrite He.
  - intros e -> He. unfold testToggleFlag. by rewrite rethrow_id.
  - intros status text. unfold timeout_error, transport_error. discriminate.
Qed.

Section Runs.
Variable cfg : Config.
Variable net : nat -> FetchOutcome.

Local Abbreviation N := (Z.to_nat (retryAttempts cfg)).

Lemma delay_bounds i : (0 <= delay i <= 10000)%Z.
Proof.
  unfold delay. split; [| apply Z.le_min_r].
  apply Z.min_glb; [| lia].
  pose proof (Z.pow_nonneg 2 (Z.of_nat i - 1)). lia.
Qed.

Lemma total_sleep_expected a k :
  a <= k ->
  (0 <= total_sleep (expected_trace a k) <= 10000 * Z.of_nat (k - a))%Z.
Proof.
  intros Hak. remember (k - a) as d eqn:Hd. revert a Hak Hd.
  induction d as [|d IH]; intros a Hak Hd.
  - assert (a = k) as -> by lia. rewrite expected_trace_last. cbn. lia.
  - rewrite expected_trace_step by lia.
    cbn [total_sleep foldr]. fold (total_sleep (expected_trace (S a) k)).
    pose proof (delay_bounds a). specialize (IH (S a) ltac:(lia) ltac:(lia)).
    lia.
Qed.

(** The loop, whatever the network does. *)
Lemma retry_loop_shape remaining a lastError :
  a + remaining = S N -> 1 <= remaining ->
  exists k,
    a <= k <= N
    /\ (retry_loop cfg net remaining a lastError).2 = expected_trace a k
    /\ (forall i, a <= i < k -> throws cfg net i)
    /\ match (retry_loop cfg net remaining a lastError).1 with
       | inr data => testToggleFlag cfg (net k) = inr data
       | inl e =>
           k = N
           /\ exists e_last,
                testToggleFlag cfg (net N) = inl e_last
                /\ e = Error ("Failed after " ++ pretty (retryAttempts cfg)
                                ++ " attempts: " ++ message e_last)
       end.
Proof.
  revert a lastError. induction remaining as [|r IH];
    intros a lastError Hsum Hr; [lia |].
  cbn [retry_loop]. destruct (testToggleFlag cfg (net a)) as [e|data] eqn:Ha.
  - destruct r as [|r'].
    + assert (a = N) as -> by lia.
      rewrite no_sleep_after_last by lia. cbn [retry_loop app fst snd].
      exists N. rewrite expected_trace_last.
      split; [lia |]. split; [reflexivity |]. split; [intros; lia |].
      split; [reflexivity |]. by exists e.
    + rewrite sleeps_between by lia.
      destruct (IH (S a) (Some e)) as (k & Hk & Htr & Hth & Hres); [lia | lia |].
      destruct (retry_loop cfg net (S r') (S a) (Some e)) as [result events].
      cbn [fst snd] in *. exists k.
      rewrite (expected_trace_step a k) by lia. subst events.
      split; [lia |]. split; [reflexivity |]. split; [| exact Hres].
      intros i Hi. destruct (decide (i = a)) as [->|Hne]; [by exists e |].
      apply Hth. lia.
  - exists a. cbn [fst snd]. rewrite expected_trace_last.
    split; [lia |]. split; [reflexivity |]. split; [intros; lia | exact Ha].
Qed.

End Runs.

(** X14 (every run of the retry loop).  With [retryAttempts] at least 1
    and whatever the network does, the run is attempts [1..k] for some
    [k] up to [retryAttempts], each but the last followed by its backoff
    sleep; a run that returns gives the body attempt [k] returned, which
    passes the schema; a run that throws made all the attempts; and the
    run sleeps at most 10 s per retry. *)
Theorem retry_every_run cfg net :
  1 <= Z.to_nat (retryAttempts cfg) ->
  exists k,
    1 <= k <= Z.to_nat (retryAttempts cfg)
    /\ (testToggleFlagWithRetry cfg net).2 = expected_trace 1 k
    /\ count_calls (testToggleFlagWithRetry cfg net).2 = k
    /\ (0 <= total_sleep (testToggleFlagWithRetry cfg net).2
         <= 10000 * Z.of_nat (k - 1))%Z
    /\ (forall i, 1 <= i < k -> throws cfg net i)
    /\ match (testToggleFlagWithRetry cfg net).1 with
       | inr data =>
           testToggleFlag cfg (net k) = inr data /\ schema_ok data = true
       | inl e =>
           k = Z.to_nat (retryAttempts cfg)
           /\ exists e_last,
                testToggleFlag cfg (net k) = inl e_last
                /\ e = Error ("Failed after " ++ pretty (retryAttempts cfg)
                                ++ " attempts: " ++ message e_last)
       end.
Proof.
  intros HN. unfold testToggleFlagWithRetry.
  destruct (retry_loop_shape cfg net (Z.to_nat (retryAttempts cfg)) 1 None)
    as (k & Hk & Htr & Hth & Hres); [lia | lia |].
  exists k. rewrite Htr.
  split; [lia |]. split; [reflexivity |].
  split; [| split; [apply total_sleep_expected; lia | split; [exact Hth |]]].
  - clear -Hk. destruct Hk as [Hk _]. remember (k - 1) as d eqn:Hd.
    assert (forall a, a <= k -> k - a = d ->
              count_calls (expected_trace a k) = S d) as Hcount.
    { clear Hk Hd. induction d as [|d IH]; intros a Ha Hd.
      - assert (a = k) as -> by lia. by rewrite expected_trace_last.
      - rewrite expected_trace_step by lia.
        rewrite count_calls_cons_call, count_calls_cons_sleep.
        rewrite (IH (S a)); lia. }
    rewrite (Hcount 1); lia.
  - destruct (retry_loop cfg net _ 1 None).1 as [e|data].
    + destruct Hres as (-> & e_last & He & ->). split; [done |]. by exists e_last.
    + split; [exact Hres |].
      apply testToggleFlag_returns in Hres as (? & ? & _ & _ & Hs).
      exact Hs.
Qed.

(** X15 (no attempts).  With [retryAttempts] 0 or negative the loop
    makes no call and does not sleep; it throws at once, and the message
    reads [undefined] where the last error would be. *)
Theorem retry_no_attempts cfg net :
  (retryAttempts cfg <= 0)%Z ->
  testToggleFlagWithRetry cfg net
  = (inl (Error ("Failed after " ++ pretty (retryAttempts cfg)
                   ++ " attempts: undefined")), []).
Proof.
  intros H. unfold testToggleFlagWithRetry.
  replace (Z.to_nat (retryAttempts cfg)) with 0 by lia. reflexivity.
Qed.

End ClientOutcomes.


(** ** The client against the reference provider *)

Section EndToEnd.
Import Provider Props Client ClientProps IntegrationTest Wire.

Lemma truthy_JStr s : s <> "" -> truthy (JStr s) = true.
Proof. intros H. cbn. apply String.eqb_neq in H. by rewrite H. Qed.

Lemma lookup_with_property_ne k k' o (m : gmap string jsval) :
  k <> k' -> with_property k o m !! k' = m !! k'.
Proof.
  intros H. unfold with_property. destruct o; [| done].
  by rewrite lookup_insert_ne.
Qed.

Lemma lookup_with_property_eq k o (m : gmap string jsval) :
  m !! k = None -> with_property k o m !! k = o.
Proof.
  intros H. unfold with_property. destruct o; [| done].
  by rewrite lookup_insert_eq.
Qed.

(** What the server finds in the body of a typed request. *)
Lemma request_json_fields request :
  request_json request !! "flag_key" = Some (JStr (rq_flag_key request))
  /\ request_json request !! "enabled" = Some (JBool (rq_enabled request))
  /\ request_json request !! "incident_id"
     = Some (JStr (rq_incident_id request))
  /\ request_json request !! "incident_message"
     = Some (JStr (rq_incident_message request))
  /\ request_json request !! "source" = Some (JStr "pathcanary")
  /\ request_json request !! "metadata" = metadata_json <$> rq_metadata request.
Proof.
  unfold request_json.
  repeat split;
    repeat (rewrite lookup_insert_ne by done);
    rewrite ?lookup_insert_eq; try done.
  by rewrite lookup_with_property_eq.
Qed.

(** The [metadata] of a typed request is absent or an object. *)
Lemma request_json_metadata request :
  exists env,
    metadata_environment
      (default (JObj ∅) (request_json request !! "metadata")) = inr env.
Proof.
  destruct (request_json_fields request) as (_ & _ & _ & _ & _ & ->).
  destruct (rq_metadata request); cbn; by eexists.
Qed.

(** A typed request whose three texts are not empty asks for what it
    says. *)
Lemma typed_request_asks request :
  rq_flag_key request <> "" ->
  rq_incident_id request <> "" ->
  rq_incident_message request <> "" ->
  asks (request_json request) (JStr (rq_flag_key request))
    (rq_flag_key request) (rq_enabled request)
    (JStr (rq_incident_id request)) (JStr (rq_incident_message request))
    ("Incident " ++ rq_incident_id request ++ ": "
       ++ rq_incident_message request).
Proof.
  intros H1 H2 H3.
  destruct (request_json_fields request)
    as (Hfk & Hen & Hiid & Himsg & Hsrc & _).
  unfold asks. rewrite Hfk, Hen, Hiid, Himsg, Hsrc.
  by rewrite !truthy_JStr.
Qed.

Lemma http_request_carried tr cfg rid request :
  carries tr cfg rid ->
  http_request tr cfg rid request = inr (sent_request tr cfg rid request).
Proof. intros (H1 & H2 & H3). unfold http_request. by rewrite H1, H2, H3. Qed.

Lemma sent_request_authenticated tr cfg rid request db tenant :
  apiKeys db !! apiKey cfg = Some tenant -> tenant <> "" ->
  authenticated (sent_request tr cfg rid request) db tenant.
Proof. intros Hk Hne. by exists (apiKey cfg). Qed.

(** One call, when the headers arrive as written. *)
Lemma provider_call tr cfg text env ids request db n :
  carries tr cfg (ids n) ->
  call cfg (provider_fetch tr cfg text env ids) request (db, n)
  = (let r := webhook (env n) (sent_request tr cfg (ids n) request) db in
     (testToggleFlag cfg
        (FetchResponded (status r.1) (text (json r.1))
           (inr (response_json (memberProps r.2) (json r.1)))),
      (r.2, S n))).
Proof.
  intros Hc. unfold call, provider_fetch.
  rewrite (http_request_carried tr cfg (ids n) request Hc).
  by destruct (webhook (env n) (sent_request tr cfg (ids n) request) db).
Qed.

(** A body the provider sends with [flag_key] a string and both states
    passes the client's schema. *)
Lemma response_json_schema_ok members b fk prev new :
  r_flag_key b = Some (JStr fk) ->
  previous_state b = Some prev ->
  new_state b = Some new ->
  schema_ok (response_json members b) = true
  /\ get_field "success" (response_json members b) = Some (JBool (success b))
  /\ get_field "flag_key" (response_json members b) = Some (JStr fk)
  /\ get_field "previous_state" (response_json members b) = Some (JBool prev)
  /\ get_field "new_state" (response_json members b) = Some (JBool new)
  /\ get_field "error" (response_json members b) = JStr <$> error b.
Proof.
  intros Hfk Hp Hn.
  assert (forall k, k <> "provider_metadata" ->
            with_property "provider_metadata"
              (provider_metadata_json members <$> provider_metadata b) ∅ !! k
            = None) as Hmd.
  { intros k Hk. by rewrite lookup_with_property_ne. }
  assert (get_field "success" (response_json members b)
          = Some (JBool (success b)))
    as H1 by (cbn; by rewrite lookup_insert_eq).
  assert (get_field "flag_key" (response_json members b) = Some (JStr fk))
    as H2.
  { cbn. rewrite lookup_insert_ne by done. rewrite Hfk.
    cbn. by rewrite lookup_insert_eq. }
  assert (get_field "previous_state" (response_json members b)
          = Some (JBool prev)) as H3.
  { cbn. rewrite lookup_insert_ne by done.
    rewrite lookup_with_property_ne by done. rewrite Hp.
    cbn. by rewrite lookup_insert_eq. }
  assert (get_field "new_state" (response_json members b) = Some (JBool new))
    as H4.
  { cbn. rewrite lookup_insert_ne by done.
    rewrite !lookup_with_property_ne by done. rewrite Hn.
    cbn. by rewrite lookup_insert_eq. }
  assert (get_field "error" (response_json members b) = JStr <$> error b)
    as H5.
  { cbn. rewrite lookup_insert_ne by done.
    rewrite !lookup_with_property_ne by done.
    rewrite lookup_with_property_eq; [done |]. by apply Hmd. }
  repeat split; try assumption.
  unfold schema_ok. cbn [get_field response_json] in H1, H2, H3, H4, H5.
  cbn [response_json]. rewrite H1, H2, H3, H4, H5.
  destruct (error b) as [e|]; cbn; [by rewrite orb_true_r | done].
Qed.

(** A call answered 200 with a string [flag_key] and both states
    returns the body. *)
Lemma provider_call_returns tr cfg text env ids request db n b db' fk prev
    new :
  carries tr cfg (ids n) ->
  webhook (env n) (sent_request tr cfg (ids n) request) db
  = ({| status := 200; json := b |}, db') ->
  r_flag_key b = Some (JStr fk) ->
  previous_state b = Some prev ->
  new_state b = Some new ->
  call cfg (provider_fetch tr cfg text env ids) request (db, n)
  = (inr (response_json (memberProps db') b), (db', S n)).
Proof.
  intros Hc Hw Hfk Hp Hn.
  rewrite (provider_call tr cfg text env ids request db n Hc). cbv zeta.
  rewrite Hw. cbn [fst snd status json].
  destruct (response_json_schema_ok (memberProps db') b fk prev new Hfk Hp Hn)
    as (Hs & _).
  unfold testToggleFlag. cbn [ok Z.leb andb negb].
  apply validateResponse_accepts in Hs. by rewrite Hs.
Qed.

(** A status outside 2xx reaches the caller as the [HTTP ...] error. *)
Lemma provider_call_not_ok tr cfg text env ids request db n resp db' :
  carries tr cfg (ids n) ->
  webhook (env n) (sent_request tr cfg (ids n) request) db = (resp, db') ->
  ok (status resp) = false ->
  call cfg (provider_fetch tr cfg text env ids) request (db, n)
  = (inl (transport_error (status resp) (text (json resp))), (db', S n)).
Proof.
  intros Hc Hw Hok.
  rewrite (provider_call tr cfg text env ids request db n Hc). cbv zeta.
  rewrite Hw. cbn [fst snd].
  unfold testToggleFlag. rewrite Hok. cbn [negb].
  by rewrite rethrow_id.
Qed.

(** X16 (a typed request against the reference provider).  The headers
    arriving as written, with a known API key of a tenant whose flag
    table is its own, and a request whose [flag_key], [incident_id] and
    [incident_message] are not empty: for an existing flag
    [testToggleFlag] returns a body that says [success:true] with the
    flag's former state and the requested one, and the flag is set; for
    a key that is no property of the tenant's table, own or inherited, it
    returns the business failure [success:false] with the not-found text,
    and no flag changes.
    The database is [pristine]: no earlier request has written on
    [Object.prototype]. *)
Theorem end_to_end tr cfg text env ids request db n tenant :
  pristine db ->
  carries tr cfg (ids n) ->
  apiKeys db !! apiKey cfg = Some tenant -> tenant <> "" ->
  plain_tenant db tenant ->
  rq_flag_key request <> "" ->
  rq_incident_id request <> "" ->
  rq_incident_message request <> "" ->
  (forall flag,
     lookup_flag db tenant (rq_flag_key request) = Some flag ->
     exists data db',
       call cfg (provider_fetch tr cfg text env ids) request (db, n)
       = (inr data, (db', S n))
       /\ get_field "flag_key" data = Some (JStr (rq_flag_key request))
       /\ get_field "success" data = Some (JBool true)
       /\ get_field "previous_state" data = Some (JBool (enabled flag))
       /\ get_field "new_state" data = Some (JBool (rq_enabled request))
       /\ get_field "error" data = None
       /\ enabled <$> lookup_flag db' tenant (rq_flag_key request)
          = Some (rq_enabled request))
  /\ (own_slot db tenant (rq_flag_key request) = None ->
      inherited (rq_flag_key request) = false ->
      exists data db',
        call cfg (provider_fetch tr cfg text env ids) request (db, n)
        = (inr data, (db', S n))
        /\ get_field "flag_key" data = Some (JStr (rq_flag_key request))
        /\ get_field "success" data = Some (JBool false)
        /\ get_field "previous_state" data = Some (JBool false)
        /\ get_field "new_state" data = Some (JBool false)
        /\ get_field "error" data
           = Some (JStr ("Feature flag '" ++ rq_flag_key request
                           ++ "' not found for customer " ++ tenant))
        /\ featureFlags db' = featureFlags db).
Proof.
  intros _ Hc Hk Hne Hplain H1 H2 H3.
  pose proof (sent_request_authenticated tr cfg (ids n) request db tenant
                Hk Hne) as Ha.
  pose proof (typed_request_asks request H1 H2 H3) as Hasks.
  split.
  - intros flag Hflag.
    destruct (webhook_toggles (env n) _ db tenant _ _ _ _ _ _ flag Ha Hasks
                Hflag) as (flags & Hflags & Hslot & Hw).
    eexists _, _. split.
    { eapply (provider_call_returns tr cfg text env ids request db n);
        [done | exact Hw | reflexivity | reflexivity | reflexivity]. }
    match goal with
    | |- context [response_json ?m ?b] =>
        destruct (response_json_schema_ok m b (rq_flag_key request)
                    (enabled flag) (rq_enabled request) eq_refl eq_refl
                    eq_refl) as (_ & G1 & G2 & G3 & G4 & G5)
    end.
    repeat (split; [assumption |]).
    unfold lookup_flag.
    change (own_slot (logAuditEvent ?a ?b ?d) tenant ?k)
      with (own_slot d tenant k).
    rewrite (own_slot_insert db tenant flags) by done.
    by rewrite decide_True.
  - intros Hnone Hord.
    pose proof Hasks as (Hfk & Tfk & Hen & Hiid & Tiid & Himsg & Timsg & Hsrc
                         & Hkey & _).
    destruct (webhook_not_found (env n) (sent_request tr cfg (ids n) request)
                db tenant _ (rq_flag_key request) _ _ _ Ha Hfk Tfk Hen Hiid
                Tiid Himsg Timsg Hsrc Hkey Hplain Hnone Hord)
      as (token & Hw).
    cbv zeta in Hw.
    destruct (request_json_metadata request) as [envv Henv].
    cbn [body sent_request] in Hw. rewrite Henv in Hw.
    eexists _, _. split.
    { eapply (provider_call_returns tr cfg text env ids request db n);
        [done | exact Hw | reflexivity | reflexivity | reflexivity]. }
    match goal with
    | |- context [response_json ?m ?b] =>
        destruct (response_json_schema_ok m b (rq_flag_key request) false
                    false eq_refl eq_refl eq_refl)
          as (_ & G1 & G2 & G3 & G4 & G5)
    end.
    repeat (split; [assumption |]). reflexivity.
Qed.

Lemma toggle_off_test_passes response :
  toggle_off_test response = None <->
  exists data, response = inr data
               /\ get_field "new_state" data = Some (JBool false).
Proof.
  unfold toggle_off_test. destruct response as [e|data].
  - split; [discriminate | by intros (? & ? & _)].
  - destruct (get_field "new_state" data) as [[| [|] | | | |]|] eqn:Hn;
      cbn [show]; try destruct (to_string _);
      split; try discriminate; try done;
      first [ intros _; by exists data
            | intros (data' & Heq & Hn'); injection Heq as <-; congruence ].
Qed.

Lemma invalid_flag_test_passes response :
  invalid_flag_test response = None <->
  exists e, response = inl e
            /\ includes "Should have thrown" (message e) = false.
Proof.
  unfold invalid_flag_test. destruct response as [e|data].
  - destruct (includes "Should have thrown" (message e)) eqn:Hi.
    + split; [discriminate | intros (? & [= <-] & ?); congruence].
    + split; [intros _; by exists e | done].
  - split; [discriminate | by intros (? & ? & _)].
Qed.

Lemma response_time_test_passes response elapsed :
  response_time_test response elapsed = None <->
  (exists data, response = inr data) /\ (elapsed <= 5000)%Z.
Proof.
  unfold response_time_test. destruct response as [e|data].
  - split; [discriminate | by intros [(? & ?) _]].
  - destruct (Z.ltb_spec 5000 elapsed).
    + split; [discriminate | intros [_ ?]; lia].
    + split; [intros _; split; [by eexists | lia] | done].
Qed.

Lemma runTest_passed results name thrown elapsed :
  forallb passed (runTest results name thrown elapsed)
  = forallb passed results && bool_decide (thrown = None).
Proof.
  unfold runTest. destruct thrown; rewrite forallb_app; cbn;
    by rewrite ?andb_true_r, ?andb_false_r.
Qed.

(** X17 (the verdict of [runIntegrationTest]).  Over any transport the
    run makes the three calls in order and always reports three results,
    named and timed as the tests are; it reports [success] exactly when
    the first call returns a body with [new_state:false], the second
    call throws an error whose message does not contain [Should have
    thrown], the third call returns, and its response time is at most
    5000 ms. *)
Theorem integration_test_verdict {S : Type} cfg
    (fetch : RollbackRequest -> S -> FetchOutcome * S) clock flagKey (s : S) :
  let first := call cfg fetch (request_off flagKey) s in
  let second := call cfg fetch request_invalid_flag first.2 in
  let third := call cfg fetch (request_performance flagKey) second.2 in
  let run := runIntegrationTest cfg fetch clock flagKey s in
  map test (results run.1)
  = ["Toggle flag OFF"; "Error handling for invalid flag";
     "Response time < 5 seconds"]
  /\ map duration (results run.1)
     = [elapsed1 clock; elapsed2 clock; elapsed3 clock]
  /\ run.2 = third.2
  /\ (report_success run.1 = true <->
      (exists data, first.1 = inr data
                    /\ get_field "new_state" data = Some (JBool false))
      /\ (exists e, second.1 = inl e
                    /\ includes "Should have thrown" (message e) = false)
      /\ (exists data, third.1 = inr data)
      /\ (response_time3 clock <= 5000)%Z).
Proof.
  cbv zeta. unfold runIntegrationTest.
  destruct (call cfg fetch (request_off flagKey) s) as [r1 s1].
  cbn [fst snd].
  destruct (call cfg fetch request_invalid_flag s1) as [r2 s2].
  cbn [fst snd].
  destruct (call cfg fetch (request_performance flagKey) s2) as [r3 s3].
  cbn [fst snd report_success results].
  split; [| split; [| split; [reflexivity |]]].
  - unfold runTest.
    by destruct (toggle_off_test r1), (invalid_flag_test r2),
      (response_time_test r3 (response_time3 clock)).
  - unfold runTest.
    by destruct (toggle_off_test r1), (invalid_flag_test r2),
      (response_time_test r3 (response_time3 clock)).
  - rewrite !runTest_passed. cbn [forallb andb].
    rewrite !andb_true_iff, !bool_decide_eq_true.
    rewrite toggle_off_test_passes, invalid_flag_test_passes,
      response_time_test_passes.
    tauto.
Qed.


Lemma provider_call_state tr cfg text env ids request db n :
  carries tr cfg (ids n) ->
  (call cfg (provider_fetch tr cfg text env ids) request (db, n)).2
  = ((webhook (env n) (sent_request tr cfg (ids n) request) db).2, S n).
Proof.
  intros Hc. by rewrite (provider_call tr cfg text env ids request db n Hc).
Qed.

(** A key that is no property of the key table, or maps to the empty
    string: the call throws the 401. *)
Lemma end_to_end_unknown_key tr cfg text env ids request db n :
  carries tr cfg (ids n) ->
  (forall tenant, apiKeys db !! apiKey cfg = Some tenant -> tenant = "") ->
  inherited (apiKey cfg) = false ->
  exists db',
    call cfg (provider_fetch tr cfg text env ids) request (db, n)
    = (inl (transport_error 401
              (text (json (unauthorized "Invalid API key")))),
       (db', S n))
    /\ featureFlags db' = featureFlags db.
Proof.
  intros Hc Hunknown Hord.
  eexists. split.
  - apply (provider_call_not_ok tr cfg text env ids request db n
             (unauthorized "Invalid API key")); [done | | reflexivity].
    unfold webhook.
    by rewrite (validateApiKey_rejects (env n)
                  (sent_request tr cfg (ids n) request) db (apiKey cfg)
                  eq_refl Hunknown Hord).
  - reflexivity.
Qed.

(** X18 (what the client sees of a rejected request).  The headers
    arriving as written, a call with an API key that is no property of
    the key table throws [HTTP 401: <body>], and a call with a known key
    and an empty [flag_key] throws [HTTP 400: <body>]; neither changes a
    flag.
    The database is [pristine]: no earlier request has written on
    [Object.prototype]. *)
Theorem end_to_end_rejected tr cfg text env ids request db n :
  pristine db ->
  carries tr cfg (ids n) ->
  ((forall tenant, apiKeys db !! apiKey cfg = Some tenant -> tenant = "") ->
   inherited (apiKey cfg) = false ->
   exists db',
     call cfg (provider_fetch tr cfg text env ids) request (db, n)
     = (inl (transport_error 401
               (text (json (unauthorized "Invalid API key")))),
        (db', S n))
     /\ featureFlags db' = featureFlags db)
  /\ (forall tenant,
        apiKeys db !! apiKey cfg = Some tenant -> tenant <> "" ->
        rq_flag_key request = "" ->
        call cfg (provider_fetch tr cfg text env ids) request (db, n)
        = (inl (transport_error 400
                  (text (json (bad_request (JStr "")
                                 "Missing required field: flag_key")))),
           (db, S n))).
Proof.
  intros _ Hc. split.
  - intros Hunknown Hord. by apply end_to_end_unknown_key.
  - intros tenant Hk Hne Hempty.
    pose proof (sent_request_authenticated tr cfg (ids n) request db tenant
                  Hk Hne) as Ha.
    apply (provider_call_not_ok tr cfg text env ids request db n
             (bad_request (JStr "") "Missing required field: flag_key"));
      [done | | reflexivity].
    destruct (webhook_authenticated (env n) _ db tenant Ha) as (token & ->).
    unfold handler.
    rewrite (handler_try_invalid _ _ _ _ _ 1); [reflexivity |].
    unfold first_failed_check, falsy. cbn [body sent_request].
    destruct (request_json_fields request) as (-> & _).
    by rewrite Hempty.
Qed.

Lemma well_formed_webhook amb req db :
  well_formed db -> well_formed (webhook amb req db).2.
Proof.
  intros Hwf t k Hslot.
  destruct (webhook_slots amb req db) as (_ & _ & Hslots).
  destruct (Hslots t k)
    as [H | (fk & _ & _ & _ & [(f & f' & _ & H & _) | (Hinh & _ & _)])].
  - apply (Hwf t k). congruence.
  - congruence.
  - done.
Qed.

Lemma plain_tenant_webhook amb req db tenant :
  plain_tenant db tenant -> plain_tenant (webhook amb req db).2 tenant.
Proof.
  destruct (webhook_slots amb req db) as (_ & Htables & _).
  intros [H | H]; [left; by apply Htables | by right].
Qed.

(** X19 (the integration test against the reference provider).  The
    headers arriving as written, with an API key that names no member of
    [Object.prototype], a tenant whose flag table is its own, and a flag
    key other than [__proto__], [runIntegrationTest] run against the
    reference provider never reports success; with a known key it is the
    second test that fails, because the provider answers its invalid
    flag with a well-formed 200, which [testToggleFlag] returns instead
    of throwing.
    The database is [pristine]: no earlier request has written on
    [Object.prototype]. *)
Theorem integration_test_against_provider tr cfg text env ids clock flagKey
    db n :
  pristine db ->
  (forall m, carries tr cfg (ids m)) ->
  inherited (apiKey cfg) = false ->
  (forall tenant, apiKeys db !! apiKey cfg = Some tenant ->
                  plain_tenant db tenant) ->
  well_formed db ->
  flagKey <> "__proto__" ->
  report_success
    (runIntegrationTest cfg (provider_fetch tr cfg text env ids) clock flagKey
       (db, n)).1 = false
  /\ (forall tenant,
        apiKeys db !! apiKey cfg = Some tenant -> tenant <> "" ->
        results
          (runIntegrationTest cfg (provider_fetch tr cfg text env ids) clock
             flagKey (db, n)).1 !! 1
        = Some {| test := "Error handling for invalid flag";
                  passed := false;
                  duration := elapsed2 clock;
                  result_error :=
                    Some "Should have thrown an error for invalid flag" |}).
Proof.
  intros _ Hc Hord Hplain Hwf _.
  assert (forall tenant,
            apiKeys db !! apiKey cfg = Some tenant -> tenant <> "" ->
            forall r1 s1,
              call cfg (provider_fetch tr cfg text env ids)
                (request_off flagKey) (db, n) = (r1, s1) ->
              exists data s2,
                call cfg (provider_fetch tr cfg text env ids)
                  request_invalid_flag s1 = (inr data, s2)) as Hsecond.
  { intros tenant Hk Hne r1 s1 Hc1.
    pose proof (provider_call_state tr cfg text env ids (request_off flagKey)
                  db n (Hc n)) as Hs.
    rewrite Hc1 in Hs. cbn [snd] in Hs. subst s1.
    set (db1 := (webhook (env n)
                   (sent_request tr cfg (ids n) (request_off flagKey)) db).2).
    assert (apiKeys db1 !! apiKey cfg = Some tenant) as Hk1.
    { subst db1. by rewrite webhook_apiKeys. }
    assert (plain_tenant db1 tenant) as Hplain1.
    { subst db1. by apply plain_tenant_webhook, Hplain. }
    assert (well_formed db1) as Hwf1
      by (subst db1; by apply well_formed_webhook).
    pose proof (sent_request_authenticated tr cfg (ids (S n))
                  request_invalid_flag db1 tenant Hk1 Hne) as Ha.
    assert (asks (request_json request_invalid_flag)
              (JStr "invalid-flag-that-does-not-exist-xyz")
              "invalid-flag-that-does-not-exist-xyz" false
              (JStr "test-incident-456")
              (JStr "Integration test - error case")
              ("Incident " ++ "test-incident-456" ++ ": "
                 ++ "Integration test - error case")) as Hasks.
    { by apply (typed_request_asks request_invalid_flag). }
    destruct (own_slot db1 tenant "invalid-flag-that-does-not-exist-xyz")
      as [[flag|]|] eqn:Hslot.
    - destruct (webhook_toggles (env (S n)) _ db1 tenant _ _ _ _ _ _ flag Ha
                  Hasks) as (flags & _ & _ & Hw).
      { unfold lookup_flag. by rewrite Hslot. }
      eexists _, _.
      eapply (provider_call_returns tr cfg text env ids request_invalid_flag
                db1 (S n));
        [done | exact Hw | reflexivity | reflexivity | reflexivity].
    - apply Hwf1 in Hslot. vm_compute in Hslot. discriminate.
    - pose proof Hasks as (Hfk & Tfk & Hen & Hiid & Tiid & Himsg & Timsg
                           & Hsrc & Hkey & _).
      destruct (webhook_not_found (env (S n))
                  (sent_request tr cfg (ids (S n)) request_invalid_flag)
                  db1 tenant _ "invalid-flag-that-does-not-exist-xyz" _ _ _
                  Ha Hfk Tfk Hen Hiid Tiid Himsg Timsg Hsrc Hkey Hplain1
                  Hslot) as (token & Hw); [by vm_compute |].
      cbv zeta in Hw.
      destruct (request_json_metadata request_invalid_flag) as [envv Henv].
      cbn [body sent_request] in Hw. rewrite Henv in Hw.
      eexists _, _.
      eapply (provider_call_returns tr cfg text env ids request_invalid_flag
                db1 (S n));
        [done | exact Hw | reflexivity | reflexivity | reflexivity]. }
  assert ((forall tenant, apiKeys db !! apiKey cfg = Some tenant ->
                          tenant = "") ->
          forall r1 s1,
            call cfg (provider_fetch tr cfg text env ids)
              (request_off flagKey) (db, n) = (r1, s1) ->
            exists e, r1 = inl e) as Hfirst.
  { intros Hunknown r1 s1 Hc1.
    destruct (end_to_end_unknown_key tr cfg text env ids (request_off flagKey)
                db n (Hc n) Hunknown Hord) as (db' & Hcall & _).
    rewrite Hcall in Hc1. injection Hc1 as <- _. by eexists. }
  unfold runIntegrationTest.
  destruct (call cfg (provider_fetch tr cfg text env ids) (request_off flagKey)
              (db, n)) as [r1 s1] eqn:Hc1.
  destruct (call cfg (provider_fetch tr cfg text env ids)
              request_invalid_flag s1) as [r2 s2] eqn:Hc2.
  destruct (call cfg (provider_fetch tr cfg text env ids)
              (request_performance flagKey) s2) as [r3 s3].
  cbn [fst report_success results]. split.
  - rewrite !runTest_passed. cbn [forallb andb].
    destruct (apiKeys db !! apiKey cfg) as [tenant|] eqn:Hk.
    + destruct (decide (tenant = "")) as [->|Hne].
      * destruct (Hfirst (fun t H => eq_sym (Some_inj _ _ H)) r1 s1 eq_refl)
          as [e ->].
        reflexivity.
      * destruct (Hsecond tenant eq_refl Hne r1 s1 eq_refl)
          as (data & s2' & H2).
        rewrite H2 in Hc2. injection Hc2 as <- _.
        by rewrite andb_false_r.
    + destruct (Hfirst (fun t H => match Some_ne_None _ (eq_sym H) with end)
                  r1 s1 eq_refl) as [e ->].
      reflexivity.
  - intros tenant Hk Hne.
    destruct (Hsecond tenant Hk Hne r1 s1 eq_refl) as (data & s2' & H2).
    rewrite H2 in Hc2. injection Hc2 as <- _.
    unfold runTest. by destruct (toggle_off_test r1), (response_time_test r3 _).
Qed.

(** Every own property of a flag table of the initial database is a
    flag record. *)
Lemma database_slots t k slot :
  own_slot database t k = Some slot -> exists flag, slot = SFlag flag.
Proof.
  unfold own_slot, database. cbn [featureFlags].
  destruct (decide (t = "customer_001")) as [->|H1].
  { rewrite lookup_insert_eq. cbn [mbind option_bind].
    intros H. apply lookup_insert_Some in H as [[_ <-] | [_ H]]; [by eexists |].
    apply lookup_insert_Some in H as [[_ <-] | [_ H]]; [by eexists |].
    by rewrite lookup_empty in H. }
  rewrite lookup_insert_ne by done.
  destruct (decide (t = "customer_002")) as [->|H2].
  { rewrite lookup_insert_eq. cbn [mbind option_bind].
    intros H. apply lookup_insert_Some in H as [[_ <-] | [_ H]]; [by eexists |].
    by rewrite lookup_empty in H. }
  rewrite lookup_insert_ne by done. by rewrite lookup_empty.
Qed.

Lemma well_formed_database : well_formed database.
Proof. intros t k Hslot. by destruct (database_slots t k _ Hslot). Qed.

(** X22 (the tables stay well formed).  In the initial database every
    own property of a flag table is a flag record, and no request stores
    a member of [Object.prototype] in a table but under that member's
    own name, as long as none has written on [Object.prototype]
    itself. *)
Theorem well_formed_invariant :
  (forall t k slot, own_slot database t k = Some slot ->
                    exists flag, slot = SFlag flag)
  /\ well_formed database
  /\ forall amb req db,
       pristine db -> well_formed db -> well_formed (webhook amb req db).2.
Proof.
  split; [exact database_slots |]. split; [exact well_formed_database |].
  intros amb req db _. apply well_formed_webhook.
Qed.

(** X23 (the client on a flag key that names a member of
    [Object.prototype]).  The headers arriving as written, a typed
    request of a known tenant for a key such as [constructor], under
    which the tenant has no flag record and whose member has never been
    toggled, makes the provider log a toggle and answer [success:true]
    without [previous_state]; [testToggleFlag] rejects that body and
    throws [Invalid response: missing required fields:
    previous_state].
    The database is [pristine]: no earlier request has written on
    [Object.prototype]. *)
Theorem end_to_end_inherited_key tr cfg text env ids request db n tenant :
  pristine db ->
  carries tr cfg (ids n) ->
  apiKeys db !! apiKey cfg = Some tenant -> tenant <> "" ->
  plain_tenant db tenant ->
  rq_incident_id request <> "" ->
  rq_incident_message request <> "" ->
  inherited (rq_flag_key request) = true ->
  lookup_flag db tenant (rq_flag_key request) = None ->
  memberProps db !! rq_flag_key request = None ->
  exists db',
    call cfg (provider_fetch tr cfg text env ids) request (db, n)
    = (inl (Error "Invalid response: missing required fields: previous_state"),
       (db', S n))
    /\ exists e, last (auditLog db') = Some e /\ is_flag_toggled e = true.
Proof.
  intros _ Hc Hk Hne Hplain H2 H3 Hinh Hnone Hprops.
  assert (rq_flag_key request <> "") as H1.
  { intros Heq. rewrite Heq in Hinh. vm_compute in Hinh. discriminate. }
  pose proof (sent_request_authenticated tr cfg (ids n) request db tenant
                Hk Hne) as Ha.
  pose proof (typed_request_asks request H1 H2 H3)
    as (Hfk & Tfk & Hen & Hiid & Tiid & Himsg & Timsg & Hsrc & Hkey & Hreason).
  rewrite (provider_call tr cfg text env ids request db n Hc). cbv zeta.
  destruct (webhook_authenticated (env n) _ db tenant Ha) as (token & ->).
  unfold handler.
  rewrite (handler_try_valid (env n) (sent_request tr cfg (ids n) request)
             _ _ _ _ _ _ _ Hfk Tfk Hen Hiid Tiid Himsg Timsg Hsrc).
  assert (read (featureFlags db)
            (customer_text
               (cust_id {| cust_id := Tenant tenant; cust_apiKey := token |}))
          <> Inherited) as Hread by (by apply plain_tenant_read).
  assert (default ∅
            (featureFlags db
               !! customer_text
                    (cust_id
                       {| cust_id := Tenant tenant; cust_apiKey := token |}))
            !! rq_flag_key request = Some SMember
          \/ (default ∅
                (featureFlags db
                   !! customer_text
                        (cust_id
                           {| cust_id := Tenant tenant;
                              cust_apiKey := token |}))
                !! rq_flag_key request = None
              /\ inherited (rq_flag_key request) = true)) as Hmem.
  { cbn [cust_id customer_text]. rewrite <- own_slot_default.
    unfold lookup_flag in Hnone.
    destruct (own_slot db tenant (rq_flag_key request)) as [[flag|]|];
      [done | by left | by right]. }
  destruct (rollback_member (env n)
              {| cust_id := Tenant tenant; cust_apiKey := token |}
              (logRequest (env n) (sent_request tr cfg (ids n) request))
              (JStr (rq_flag_key request)) (rq_enabled request)
              (JStr (rq_incident_id request))
              (JStr (rq_incident_message request))
              (default (JObj ∅)
                 (body (sent_request tr cfg (ids n) request) !! "metadata"))
              db (rq_flag_key request)
              ("Incident " ++ rq_incident_id request ++ ": "
                 ++ rq_incident_message request) Hkey Hread Hmem Hreason)
    as (db1 & -> & Hlog & _).
  rewrite Hprops. unfold toggle_done. cbn [fst snd status json].
  eexists. split.
  - reflexivity.
  - eexists. split.
    + rewrite logAuditEvent_auditLog. apply (last_slice_last_snoc 999).
    + reflexivity.
Qed.

End EndToEnd.

(** ** The further properties at concrete inputs *)

Section MoreInstances.
Import Provider Props Scenarios MoreScenarios Routes.
Import Client ClientProps ClientMore IntegrationTest Wire.

Ltac known_key :=
  exists "test_sk_abc123def456";
  split; [reflexivity | split; [vm_compute; reflexivity | discriminate]].

(** With [metadata: null] and a flag that does not exist, the test
    customer gets the 500. *)
Lemma internal_error_iff_witness :
  status (webhook amb0 req_unknown_flag_null_metadata database).1 = 500%Z
  /\ error (json (webhook amb0 req_unknown_flag_null_metadata database).1)
     = Some "Internal server error. Please contact support.".
Proof.
  destruct (internal_error_iff amb0 req_unknown_flag_null_metadata database
              "customer_001") as (Hiff & Hthen).
  - reflexivity.
  - known_key.
  - right. vm_compute. reflexivity.
  - vm_compute. reflexivity.
  - assert (status (webhook amb0 req_unknown_flag_null_metadata database).1
            = 500%Z) as Hst.
    { apply Hiff. exists (JStr "does-not-exist"), "does-not-exist".
      repeat split; vm_compute; reflexivity. }
    split; [exact Hst |]. by destruct (Hthen Hst) as (He & _).
Defined.

(** Off, then on: the second answer reports [false -> true]. *)
Lemma last_writer_wins_witness :
  previous_state
    (json (webhook amb1 req_toggle_on (webhook amb0 req_toggle_off database).2).1)
  = Some false
  /\ new_state
       (json (webhook amb1 req_toggle_on
                (webhook amb0 req_toggle_off database).2).1)
     = Some true.
Proof.
  destruct (last_writer_wins amb0 amb1 req_toggle_off req_toggle_on database
              "customer_001" (JStr "new-checkout-flow")
              (JStr "new-checkout-flow") "new-checkout-flow" false true
              flag_001)
    as (_ & Hp & Hn & _);
    try (vm_compute; reflexivity); [known_key .. |].
  auto.
Defined.

(** [new-checkout-flow] then [beta-search] at the readings [amb0],
    [amb1], and the other way round at the same readings in that
    order. *)
Lemma toggles_commute_witness :
  same_answer (webhook amb0 req_toggle_off database).1
    (webhook amb1 req_toggle_off (webhook amb0 req_beta_off database).2).1
  /\ enabled
       <$> lookup_flag (webhook amb1 req_beta_off
                          (webhook amb0 req_toggle_off database).2).2
             "customer_001" "beta-search"
     = enabled
         <$> lookup_flag (webhook amb1 req_toggle_off
                            (webhook amb0 req_beta_off database).2).2
               "customer_001" "beta-search".
Proof.
  destruct (toggles_commute amb0 amb1 amb1 amb0 req_toggle_off req_beta_off
              database "customer_001" "customer_001"
              (JStr "new-checkout-flow") (JStr "beta-search")
              "new-checkout-flow" "beta-search" flag_001 flag_002)
    as (H1 & _ & H);
    try known_key; try (vm_compute; reflexivity);
    try (vm_compute; discriminate).
  split; [exact H1 |].
  specialize (H "customer_001" "beta-search").
  destruct (lookup_flag _ "customer_001" "beta-search") as [f|],
           (lookup_flag _ "customer_001" "beta-search") as [f'|];
    try done.
  destruct H as (_ & He & _). cbn. by rewrite He.
Defined.

Lemma audit_log_recent_first_witness :
  exists logs,
    get_audit_log amb0 reader (Some 5%Z) (webhook amb0 req_toggle_off database).2
    = ({| route_status := 200;
          route_body := BodyAuditLog logs (length logs) |},
       (webhook amb0 req_toggle_off database).2)
    /\ length logs <= 5.
Proof.
  destruct (audit_log_recent_first amb0 reader
              (webhook amb0 req_toggle_off database).2 "customer_001" 5%Z)
    as (logs & Hget & _ & Hlen & _).
  - known_key.
  - lia.
  - exists logs. split; [exact Hget | exact Hlen].
Defined.

Lemma audit_log_limit_edges_witness :
  get_audit_log amb0 reader (Some 0%Z) database
  = get_audit_log amb0 reader (Some 50%Z) database.
Proof.
  destruct (audit_log_limit_edges amb0 reader database "customer_001")
    as (Hdefault & _).
  - known_key.
  - apply Hdefault. by right.
Defined.

Lemma audit_log_after_toggle_witness :
  exists logs en iid imsg,
    get_audit_log amb1 reader None (webhook amb0 req_toggle_off database).2
    = ({| route_status := 200;
          route_body := BodyAuditLog logs (length logs) |},
       (webhook amb0 req_toggle_off database).2)
    /\ body req_toggle_off !! "enabled" = Some (JBool en)
    /\ head logs
       = Some {| timestamp := iso_audit amb0;
                 event :=
                   FLAG_TOGGLED (Tenant "customer_001")
                     (JStr "new-checkout-flow") (Some (id flag_001))
                     (Some (enabled flag_001)) en iid imsg
                     (logRequest amb0 req_toggle_off)
                     (default (JObj ∅) (body req_toggle_off !! "metadata")) |}.
Proof.
  apply (audit_log_after_toggle amb0 amb1 req_toggle_off reader None database
           "customer_001" (JStr "new-checkout-flow") "new-checkout-flow"
           flag_001);
    try (vm_compute; reflexivity); try known_key.
  vm_compute. discriminate.
Defined.

Lemma get_flag_after_toggle_witness :
  exists flag',
    get_flag amb1 reader "new-checkout-flow"
      (webhook amb0 req_toggle_off database).2
    = ({| route_status := 200; route_body := BodyFlag flag' |},
       (webhook amb0 req_toggle_off database).2)
    /\ enabled flag' = false
    /\ updated_by flag' = Some "pathcanary"
    /\ update_reason flag' = Some "Incident test-123: Test rollback".
Proof.
  destruct (get_flag_after_toggle amb0 amb1 req_toggle_off reader database
              "customer_001" (JStr "new-checkout-flow") "new-checkout-flow"
              flag_001)
    as (flag' & en & iid & imsg & i & m & Hget & Hen & Hiid & Himsg & Hi & Hm
          & He & _ & Hby & Hreason & _);
    try (vm_compute; reflexivity); try known_key.
  exists flag'. split; [exact Hget |]. split; [| split; [exact Hby |]].
  - rewrite He. vm_compute in Hen. congruence.
  - rewrite Hreason. vm_compute in Hiid, Himsg.
    injection Hiid as <-. injection Himsg as <-.
    vm_compute in Hi, Hm. injection Hi as <-. injection Hm as <-.
    reflexivity.
Defined.

Lemma get_flags_count_witness :
  exists values,
    get_flags amb0 reader database
    = ({| route_status := 200;
          route_body := BodyFlags values (length values) |}, database)
    /\ length values = 2
    /\ listed_count
         (get_flags amb0 reader (webhook amb0 req_toggle_off database).2).1
       = Some (length values).
Proof.
  destruct (get_flags_count amb0 reader database "customer_001")
    as (values & Hget & Hlen & _ & Hcount).
  - reflexivity.
  - known_key.
  - right. vm_compute. reflexivity.
  - exists values. split; [exact Hget |]. split.
    + rewrite Hlen. vm_compute. reflexivity.
    + apply Hcount. intros fk k Hfk Hk.
      vm_compute in Hfk. injection Hfk as <-.
      vm_compute in Hk. injection Hk as <-. vm_compute. reflexivity.
Defined.

Lemma retry_every_run_witness :
  exists k,
    1 <= k <= 3
    /\ (testToggleFlagWithRetry cfg0 net_two_timeouts).2 = expected_trace 1 k
    /\ (0 <= total_sleep (testToggleFlagWithRetry cfg0 net_two_timeouts).2
         <= 10000 * Z.of_nat (k - 1))%Z.
Proof.
  destruct (retry_every_run cfg0 net_two_timeouts)
    as (k & Hk & Htr & _ & Hsl & _).
  - vm_compute. lia.
  - exists k. split; [exact Hk |]. split; [exact Htr | exact Hsl].
Defined.

Lemma retry_no_attempts_witness :
  testToggleFlagWithRetry no_retry_client net_always_500
  = (inl (Error "Failed after 0 attempts: undefined"), []).
Proof.
  rewrite (retry_no_attempts no_retry_client net_always_500).
  - reflexivity.
  - vm_compute. discriminate.
Defined.

(** The client's first integration request against the initial
    database. *)
Lemma end_to_end_witness :
  exists data db',
    call test_client
      (provider_fetch loopback test_client some_text some_env some_ids)
      (request_off "new-checkout-flow") (database, 0)
    = (inr data, (db', 1))
    /\ get_field "success" data = Some (JBool true)
    /\ get_field "previous_state" data = Some (JBool true)
    /\ get_field "new_state" data = Some (JBool false).
Proof.
  destruct (end_to_end loopback test_client some_text some_env some_ids
              (request_off "new-checkout-flow") database 0 "customer_001")
    as (Hfound & _);
    try (vm_compute; reflexivity); try discriminate.
  - by repeat split.
  - right. vm_compute. reflexivity.
  - destruct (Hfound flag_001) as (data & db' & Hcall & _ & Hs & Hp & Hn & _);
      [vm_compute; reflexivity |].
    exists data, db'. auto.
Defined.

Lemma end_to_end_rejected_witness :
  (exists db',
     call stranger_client
       (provider_fetch loopback stranger_client some_text some_env some_ids)
       (request_off "new-checkout-flow") (database, 0)
     = (inl (Error "HTTP 401: Invalid API key"), (db', 1)))
  /\ call test_client
       (provider_fetch loopback test_client some_text some_env some_ids)
       empty_key_request (database, 0)
     = (inl (Error "HTTP 400: Missing required field: flag_key"),
        (database, 1)).
Proof.
  split.
  - destruct (end_to_end_rejected loopback stranger_client some_text some_env
                some_ids (request_off "new-checkout-flow") database 0)
      as (Hunknown & _); [reflexivity | by repeat split |].
    destruct Hunknown as (db' & Hcall & _).
    + intros tenant H. vm_compute in H. discriminate.
    + vm_compute. reflexivity.
    + exists db'. exact Hcall.
  - destruct (end_to_end_rejected loopback test_client some_text some_env
                some_ids empty_key_request database 0)
      as (_ & Hempty); [reflexivity | by repeat split |].
    apply (Hempty "customer_001");
      [vm_compute; reflexivity | discriminate | reflexivity].
Defined.

Lemma integration_test_against_provider_witness :
  report_success
    (runIntegrationTest test_client
       (provider_fetch loopback test_client some_text some_env some_ids)
       some_clock "new-checkout-flow" (database, 0)).1 = false.
Proof.
  destruct (integration_test_against_provider loopback test_client some_text
              some_env some_ids some_clock "new-checkout-flow" database 0)
    as (Hfail & _).
  - reflexivity.
  - intros m. by repeat split.
  - vm_compute. reflexivity.
  - intros tenant Hk. right. vm_compute in Hk. injection Hk as <-.
    vm_compute. reflexivity.
  - exact well_formed_database.
  - discriminate.
  - exact Hfail.
Defined.

(** The run of the integration test against the initial database,
    evaluated: the first and third tests pass, the second does not. *)
Example integration_test_run :
  map passed
    (results
       (runIntegrationTest test_client
          (provider_fetch loopback test_client some_text some_env some_ids)
          some_clock "new-checkout-flow" (database, 0)).1)
  = [true; false; true].
Proof. vm_compute. reflexivity. Qed.

(** Scenario A with an [incident_id] that cannot be turned into text:
    500, and the flag is off all the same. *)
Lemma unprintable_incident_half_update_witness :
  status (webhook amb0 req_unprintable_incident database).1 = 500%Z
  /\ enabled
       <$> lookup_flag (webhook amb0 req_unprintable_incident database).2
             "customer_001" "new-checkout-flow" = Some false
  /\ update_reason
       <$> lookup_flag (webhook amb0 req_unprintable_incident database).2
             "customer_001" "new-checkout-flow" = Some None.
Proof.
  destruct (unprintable_incident_half_update amb0 req_unprintable_incident
              database "customer_001" (JStr "new-checkout-flow")
              "new-checkout-flow" false unprintable (JStr "Test rollback")
              flag_001)
    as (Hst & _ & _ & _ & _ & Hflag & _);
    try (vm_compute; reflexivity); try known_key.
  split; [exact Hst |]. rewrite Hflag. split; reflexivity.
Defined.

(** A [flag_key] that cannot be turned into text. *)
Lemma unprintable_flag_key_witness :
  status
    (webhook amb0
       (post valid_auth
          (<["flag_key" := unprintable]> (rollback_body "x" false)))
       database).1 = 500%Z
  /\ featureFlags
       (webhook amb0
          (post valid_auth
             (<["flag_key" := unprintable]> (rollback_body "x" false)))
          database).2
     = featureFlags database.
Proof.
  destruct (unprintable_flag_key amb0
              (post valid_auth
                 (<["flag_key" := unprintable]> (rollback_body "x" false)))
              database "customer_001" unprintable) as (Hresp & Hdb);
    try (vm_compute; reflexivity); try known_key.
  rewrite Hresp, Hdb. split; reflexivity.
Defined.

(** Scenario D: a flag that does not exist. *)
Lemma unknown_flag_plain_key_witness :
  status (webhook amb0 req_unknown_flag database).1 = 200%Z
  /\ success (json (webhook amb0 req_unknown_flag database).1) = false
  /\ error (json (webhook amb0 req_unknown_flag database).1)
     = Some "Feature flag 'does-not-exist' not found for customer customer_001".
Proof.
  destruct (unknown_flag_plain_key amb0 req_unknown_flag database
              "customer_001" (JStr "does-not-exist") "does-not-exist")
    as (Hst & Hs & _ & _ & _ & He & _);
    try (vm_compute; reflexivity); try known_key.
  - right. vm_compute. reflexivity.
  - vm_compute. discriminate.
  - split; [exact Hst |]. split; [exact Hs | exact He].
Defined.

(** Scenario C and a request without a header: both 401, the flags as
    they were. *)
Lemma auth_gate_plain_token_witness :
  status (webhook amb0 req_invalid_key database).1 = 401%Z
  /\ featureFlags (webhook amb0 req_invalid_key database).2
     = featureFlags database
  /\ status (webhook amb0 req_no_header database).1 = 401%Z.
Proof.
  destruct (auth_gate_plain_token amb0 req_invalid_key database)
    as (Hst & _ & _ & _ & _ & _ & _ & Hflags & _).
  { reflexivity. }
  { right. right. exists "invalid_key_123".
    split; [reflexivity | split; [| vm_compute; reflexivity]].
    intros tenant H. vm_compute in H. discriminate. }
  destruct (auth_gate_plain_token amb0 req_no_header database)
    as (Hst' & _).
  { reflexivity. }
  { left. reflexivity. }
  split; [exact Hst |]. split; [exact Hflags | exact Hst'].
Defined.

(** Scenario A creates no flag and deletes none. *)
Lemma webhook_preserves_flag_set_witness :
  apiKeys (webhook amb0 req_toggle_off database).2 = apiKeys database
  /\ exists flag',
       lookup_flag (webhook amb0 req_toggle_off database).2
         "customer_001" "new-checkout-flow" = Some flag'
       /\ kept flag_001 flag'.
Proof.
  destruct (webhook_preserves_flag_set amb0 req_toggle_off database)
    as (Hkeys & _ & Hkept & _); [reflexivity |].
  split; [exact Hkeys |].
  apply Hkept. vm_compute. reflexivity.
Defined.

(** Scenario A leaves its [FLAG_TOGGLED] entry last in the log. *)
Lemma toggled_entry_iff_success_witness :
  exists customer fk flag_id en iid imsg,
    body req_toggle_off !! "flag_key" = Some fk
    /\ body req_toggle_off !! "enabled" = Some (JBool en)
    /\ new_state (json (webhook amb0 req_toggle_off database).1) = Some en
    /\ last (auditLog (webhook amb0 req_toggle_off database).2)
       = Some {| timestamp := iso_audit amb0;
                 event :=
                   FLAG_TOGGLED customer fk flag_id
                     (previous_state
                        (json (webhook amb0 req_toggle_off database).1)) en
                     iid imsg (logRequest amb0 req_toggle_off)
                     (default (JObj ∅) (body req_toggle_off !! "metadata")) |}.
Proof.
  destruct (toggled_entry_iff_success amb0 req_toggle_off database)
    as (Hyes & _); [reflexivity |].
  apply Hyes. vm_compute. reflexivity.
Defined.

(** The test customer reads its own flag, and not the other
    customer's. *)
Lemma get_flag_scoped_witness :
  route_body (get_flag amb0 reader "new-checkout-flow" database).1
  = BodyFlag flag_001
  /\ (get_flag amb0 reader "mobile-app-redesign" database).1
     = {| route_status := 404;
          route_body := BodyError "Flag 'mobile-app-redesign' not found" |}.
Proof.
  split.
  - destruct (get_flag_scoped amb0 reader "new-checkout-flow" database)
      as (_ & Hown & _); [reflexivity |].
    destruct (Hown "customer_001") as (_ & Hiff & _);
      [known_key | right; vm_compute; reflexivity |].
    apply Hiff. vm_compute. reflexivity.
  - destruct (get_flag_scoped amb0 reader "mobile-app-redesign" database)
      as (_ & Hown & _); [reflexivity |].
    destruct (Hown "customer_001") as (_ & _ & Hmissing);
      [known_key | right; vm_compute; reflexivity |].
    apply Hmissing; vm_compute; reflexivity.
Defined.


(** The client asking the test customer's provider to roll back
    [constructor]. *)
Lemma end_to_end_inherited_key_witness :
  exists db',
    call test_client
      (provider_fetch loopback test_client some_text some_env some_ids)
      (request_off "constructor") (database, 0)
    = (inl (Error "Invalid response: missing required fields: previous_state"),
       (db', 1)).
Proof.
  destruct (end_to_end_inherited_key loopback test_client some_text some_env
              some_ids (request_off "constructor") database 0 "customer_001")
    as (db' & Hcall & _);
    try (vm_compute; reflexivity); try discriminate.
  - by repeat split.
  - right. vm_compute. reflexivity.
  - by exists db'.
Defined.

End MoreInstances.
